(** * Box-office collection scripts: daily listing scraper, first-week
      aggregation and dataset merge

    A shallow embedding of
      - [scripts/data_collection/collect_year_batch.py]
      - [scripts/enrichment/enrich_with_daily_bom.py]
      - [scripts/data_collection/collect_all_years.py]
      - [scripts/enrichment/scrape_individual_movies.py]

    Conventions.
      - A Python [str] is the list of its code points ([pystr]); [U "..."]
        writes an ASCII literal.
      - A Python [float] is [pyfloat]: a finite binary64 value kept as the
        exact rational it denotes (in lowest terms), an infinity or NaN.
        Negative zero is not told apart from zero.
      - An exception is a value of [pyexn]; code that may raise returns a
        [result].
      - A calendar date ('YYYY-MM-DD' text in the scripts) is its proleptic
        Gregorian day number; the text form sorts in the same order, and
        [pd.to_datetime] maps it to midnight of that day, so that the
        [.dt.days] of a difference of two dates is the difference of the
        day numbers.

    Limits of the embedding.
      - Dates are the days of Python's calendar, from 1 January of year 1
        to 31 December 9999 ([last_day]); the date generators and the
        date-range loop do not model the exceptions [datetime] raises
        outside it, and the properties that depend on dates carry the
        bounds.
      - [Series.total] adds a column from left to right; numpy adds a
        column of eight values or more pairwise, which can differ in the
        last bit.
      - A column of counts is kept as binary64 ([int_cell]), where pandas
        keeps a column without nulls as int64; a column that is all null
        is NaN ([float_cell]), where pandas keeps [None].
      - [ascii_case] maps the letters a to z only; it serves the closed
        examples, whose text is ASCII.  The theorems hold for every
        [CaseMapping]. *)

From Stdlib Require Import ZArith NArith QArith Lia List String Ascii Bool Sorted.
From stdpp Require Import base option list gmap strings.

Local Open Scope Z_scope.

(** ** Python text *)

Abbreviation pystr := (list N).

Module PyStr.

(** An ASCII literal as a Python string. *)
Definition U (s : string) : pystr :=
  N_of_ascii <$> list_ascii_of_string s.

(** [str.isspace] on one character (Unicode 14, as in CPython 3.11). *)
Definition isspace (c : N) : bool :=
  bool_decide (c ∈ [9; 10; 11; 12; 13; 28; 29; 30; 31; 32; 133; 160; 5760;
                    8192; 8193; 8194; 8195; 8196; 8197; 8198; 8199; 8200;
                    8201; 8202; 8232; 8233; 8239; 8287; 12288]%N).

Fixpoint lstrip (s : pystr) : pystr :=
  match s with
  | c :: t => if isspace c then lstrip t else s
  | [] => []
  end.

Definition rstrip (s : pystr) : pystr := rev (lstrip (rev s)).

(** [s.strip()] *)
Definition strip (s : pystr) : pystr := rstrip (lstrip s).

(** [s.replace(old, new)] for a one-character [old]. *)
Definition replace1 (old : N) (new : pystr) (s : pystr) : pystr :=
  flat_map (fun c => if (c =? old)%N then new else [c]) s.

Fixpoint startswith (p s : pystr) : bool :=
  match p, s with
  | [], _ => true
  | _ :: _, [] => false
  | a :: p', b :: s' => (a =? b)%N && startswith p' s'
  end.

(** [p in s] *)
Fixpoint contains (p s : pystr) : bool :=
  startswith p s ||
  match s with
  | [] => false
  | _ :: s' => contains p s'
  end.

(** [s[:n]] for [n >= 0] *)
Definition slice_to (n : nat) (s : pystr) : pystr := take n s.

(** [str.upper] restricted to ASCII letters; other characters are left
    as they are. *)
Definition ascii_upper (s : pystr) : pystr :=
  (fun c => if (97 <=? c)%N && (c <=? 122)%N then (c - 32)%N else c) <$> s.

End PyStr.
Import PyStr.

(** The case mapping of the Python runtime ([str.upper], driven by the
    Unicode tables) is a parameter of the matching code. *)
Class CaseMapping := { str_upper : pystr -> pystr }.

(** ** Exceptions *)

Inductive pyexn :=
| ValueError | KeyError | ConnectionError | HTTPError | UnboundLocalError
| MergeError.

Inductive result (A : Type) :=
| Return (a : A)
| Raise (e : pyexn).
Arguments Return {A} a.
Arguments Raise {A} e.

(** [try: return body / except: return handler] *)
Definition try_except {A} (body : result A) (handler : A) : A :=
  match body with
  | Return a => a
  | Raise _ => handler
  end.

(** ** Python floats *)

Inductive pyfloat :=
| FFinite (q : Q)
| FInf (neg : bool)
| FNaN.

Module PyFloat.

Definition pow2 (k : Z) : Q :=
  if 0 <=? k then inject_Z (2 ^ k) else 1 # Z.to_pos (2 ^ (- k)).

Definition pow10 (k : Z) : Q :=
  if 0 <=? k then inject_Z (10 ^ k) else 1 # Z.to_pos (10 ^ (- k)).

(** [floor (log2 (p / q))] for positive [p] and [q]. *)
Definition ilog2_ratio (p q : Z) : Z :=
  let e := Z.log2 p - Z.log2 q in
  if (if 0 <=? e then q * 2 ^ e <=? p else q <=? p * 2 ^ (- e))
  then e else e - 1.

(** [num / den] rounded to the nearest integer, ties to even. *)
Definition round_half_even (num den : Z) : Z :=
  let m := num / den in
  match 2 * (num mod den) ?= den with
  | Lt => m
  | Gt => m + 1
  | Eq => if Z.even m then m else m + 1
  end.

(** Round the positive rational [p / q] to binary64 (53 significant
    bits, least exponent -1074, round to nearest even); [None] when the
    rounded value overflows. *)
Definition round_pos (p q : Z) : option Q :=
  let k := Z.max (ilog2_ratio p q - 52) (-1074) in
  let m := if 0 <=? k then round_half_even p (q * 2 ^ k)
           else round_half_even (p * 2 ^ (- k)) q in
  if (971 <? k) || ((k =? 971) && (2 ^ 53 <=? m)) then None
  else Some (Qred (inject_Z m * pow2 k)).

Definition fneg (x : pyfloat) : pyfloat :=
  match x with
  | FFinite q => FFinite (- q)
  | FInf neg => FInf (negb neg)
  | FNaN => FNaN
  end.

(** The binary64 value nearest to a rational. *)
Definition round_double (x : Q) : pyfloat :=
  match Qnum x with
  | 0 => FFinite 0
  | Z.pos p => match round_pos (Z.pos p) (QDen x) with
               | Some v => FFinite v
               | None => FInf false
               end
  | Z.neg p => match round_pos (Z.pos p) (QDen x) with
               | Some v => FFinite (- v)
               | None => FInf true
               end
  end.

(** *** [float(str)] *)

Definition is_digit (c : N) : bool := (48 <=? c)%N && (c <=? 57)%N.
Definition digit_val (c : N) : Z := Z.of_N c - 48.

(** First code point of every run of ten Unicode decimal digits
    (general category Nd, Unicode 14). *)
Definition nd_starts : list N :=
  [48; 1632; 1776; 1984; 2406; 2534; 2662; 2790; 2918; 3046; 3174; 3302;
   3430; 3558; 3664; 3792; 3872; 4160; 4240; 6112; 6160; 6470; 6608; 6784;
   6800; 6992; 7088; 7232; 7248; 42528; 43216; 43264; 43472; 43504; 43600;
   44016; 65296; 66720; 68912; 69734; 69872; 69942; 70096; 70384; 70736;
   70864; 71248; 71360; 71472; 71904; 72016; 72784; 73040; 73120; 92768;
   92864; 93008; 120782; 120792; 120802; 120812; 120822; 123200; 123632;
   125264; 130032]%N.

Definition todecimal (c : N) : option N :=
  head (omap (fun s => if (s <=? c)%N && (c <? s + 10)%N
                       then Some (c - s)%N else None) nd_starts).

(** Before parsing, a character above ASCII is replaced by a space when
    it is white space, by its ASCII digit when it is a decimal digit, and
    by '?' otherwise. *)
Definition to_ascii (c : N) : N :=
  if (c <? 127)%N then c
  else if isspace c then 32%N
  else match todecimal c with
       | Some d => (48 + d)%N
       | None => 63%N
       end.

(** C [isspace]. *)
Definition c_isspace (c : N) : bool :=
  ((9 <=? c)%N && (c <=? 13)%N) || (c =? 32)%N.

Fixpoint c_lstrip (s : pystr) : pystr :=
  match s with
  | c :: t => if c_isspace c then c_lstrip t else s
  | [] => []
  end.

Definition c_strip (s : pystr) : pystr :=
  rev (c_lstrip (rev (c_lstrip s))).

(** An underscore is allowed only between two digits. *)
Fixpoint underscores_ok (prev : N) (s : pystr) : bool :=
  match s with
  | [] => negb (prev =? 95)%N
  | c :: t =>
      (if (c =? 95)%N then is_digit prev
       else negb (prev =? 95)%N || is_digit c)
      && underscores_ok c t
  end.

Definition drop_underscores (s : pystr) : pystr :=
  List.filter (fun c => negb (c =? 95)%N) s.

(** The values of the leading digits, and what follows them. *)
Fixpoint span_digits (s : pystr) : list Z * pystr :=
  match s with
  | c :: t =>
      if is_digit c
      then let '(ds, r) := span_digits t in (digit_val c :: ds, r)
      else ([], s)
  | [] => ([], [])
  end.

Definition digits_to_Z (ds : list Z) : Z :=
  fold_left (fun acc d => 10 * acc + d) ds 0.

(** The exponent part, which must reach the end of the text. *)
Definition parse_exponent (s : pystr) : option Z :=
  match s with
  | [] => Some 0
  | c :: t =>
      if (c =? 101)%N || (c =? 69)%N then
        let '(neg, u) :=
          match t with
          | d :: u => if (d =? 43)%N then (false, u)
                      else if (d =? 45)%N then (true, u)
                      else (false, t)
          | [] => (false, t)
          end in
        match span_digits u with
        | (d :: ds, []) =>
            let v := digits_to_Z (d :: ds) in
            Some (if neg : bool then - v else v)
        | _ => None
        end
      else None
  end.

(** [digits [. digits] [exponent]], with a digit on at least one side
    of the point. *)
Definition parse_decimal (s : pystr) : option Q :=
  let '(ip, r1) := span_digits s in
  let '(fp, r2) :=
    match r1 with
    | c :: t => if (c =? 46)%N then span_digits t else ([], r1)
    | [] => ([], r1)
    end in
  match ip ++ fp with
  | [] => None
  | ds =>
      e ← parse_exponent r2;
      Some (inject_Z (digits_to_Z ds) * pow10 (e - Z.of_nat (length fp)))%Q
  end.

Definition lower_ascii (c : N) : N :=
  if (65 <=? c)%N && (c <=? 90)%N then (c + 32)%N else c.

Definition parse_unsigned (s : pystr) : option pyfloat :=
  let l := lower_ascii <$> s in
  if bool_decide (l = U "inf") || bool_decide (l = U "infinity")
  then Some (FInf false)
  else if bool_decide (l = U "nan") then Some FNaN
  else round_double <$> parse_decimal s.

Definition parse_signed (s : pystr) : option pyfloat :=
  match s with
  | c :: t =>
      if (c =? 43)%N then parse_unsigned t
      else if (c =? 45)%N then fneg <$> parse_unsigned t
      else parse_unsigned s
  | [] => None
  end.

(** [float(s)]; a text that is no float raises [ValueError]. *)
Definition py_float (s : pystr) : result pyfloat :=
  let t := c_strip (to_ascii <$> s) in
  match (if underscores_ok 0%N t then parse_signed (drop_underscores t)
         else None) with
  | Some v => Return v
  | None => Raise ValueError
  end.

(** [sys.get_int_max_str_digits()]: the most digits [int] converts
    (CPython 3.11). *)
Definition int_max_str_digits : Z := 4300.

(** [int(s)] (base 10).  The digits are counted without the sign, the
    white space and the underscores; more than [int_max_str_digits] of
    them raise [ValueError] too. *)
Definition py_int (s : pystr) : result Z :=
  let t := c_strip (to_ascii <$> s) in
  let digits (u : pystr) : option Z :=
    match span_digits (drop_underscores u) with
    | (d :: ds, []) =>
        if int_max_str_digits <? Z.of_nat (length (d :: ds)) then None
        else Some (digits_to_Z (d :: ds))
    | _ => None
    end in
  match (if underscores_ok 0%N t then
           match t with
           | c :: u =>
               if (c =? 43)%N then digits u
               else if (c =? 45)%N then Z.opp <$> digits u
               else digits t
           | [] => None
           end
         else None) with
  | Some v => Return v
  | None => Raise ValueError
  end.

End PyFloat.
Import PyFloat.

#[global] Instance result_ret : MRet result := @Return.
#[global] Instance result_bind : MBind result := fun A B f m =>
  match m with
  | Return a => f a
  | Raise e => Raise e
  end.
#[global] Instance result_fmap : FMap result := fun A B f m =>
  match m with
  | Return a => Return (f a)
  | Raise e => Raise e
  end.

(** ** Cell parsers of the two collectors *)

Module YearBatchCollector.

Definition base_url : pystr := U "https://www.boxofficemojo.com".

(** [text = text.strip().replace('$', '').replace(',', '')]
    [return float(text) if text and text != '-' else None] *)
Definition _parse_money (text : pystr) : option pyfloat :=
  try_except
    (let text := replace1 44 [] (replace1 36 [] (strip text)) in
     if bool_decide (text ≠ []) && bool_decide (text ≠ U "-")
     then Some <$> py_float text
     else Return None)
    None.

(** [text = text.strip().replace('%', '').replace('+', '')]
    [return float(text) if text and text != '-' and text != 'n/a' else None] *)
Definition _parse_percent (text : pystr) : option pyfloat :=
  try_except
    (let text := replace1 43 [] (replace1 37 [] (strip text)) in
     if bool_decide (text ≠ []) && bool_decide (text ≠ U "-")
        && bool_decide (text ≠ U "n/a")
     then Some <$> py_float text
     else Return None)
    None.

(** [text = text.strip().replace(',', '')]
    [return int(text) if text and text != '-' else None] *)
Definition _parse_int (text : pystr) : option Z :=
  try_except
    (let text := replace1 44 [] (strip text) in
     if bool_decide (text ≠ []) && bool_decide (text ≠ U "-")
     then Some <$> py_int text
     else Return None)
    None.

End YearBatchCollector.

Module BOMDailyCollector.

Definition base_url : pystr := U "https://www.boxofficemojo.com".

(** [if not text or text == '-': return None] then [return float(text)] *)
Definition _parse_money (text : pystr) : option pyfloat :=
  try_except
    (let text := replace1 44 [] (replace1 36 [] (strip text)) in
     if bool_decide (text = []) || bool_decide (text = U "-")
     then Return None
     else Some <$> py_float text)
    None.

Definition _parse_percent (text : pystr) : option pyfloat :=
  try_except
    (let text := replace1 43 [] (replace1 37 [] (strip text)) in
     if bool_decide (text = []) || bool_decide (text = U "-")
        || bool_decide (text = U "n/a")
     then Return None
     else Some <$> py_float text)
    None.

Definition _parse_int (text : pystr) : option Z :=
  try_except
    (let text := replace1 44 [] (strip text) in
     if bool_decide (text = []) || bool_decide (text = U "-")
     then Return None
     else Some <$> py_int text)
    None.

End BOMDailyCollector.

(** ** Printing an amount: [f"${v:,.0f}"]
    ([scrape_individual_movies.py], progress line of [scrape_movies_batch];
    [collect_all_years.py], summary statistics) *)

Module Format.

Fixpoint digits_fuel (fuel : nat) (n : Z) (acc : pystr) : pystr :=
  match fuel with
  | O => acc
  | S f =>
      let acc' := (48 + Z.to_N (n mod 10))%N :: acc in
      if n <? 10 then acc' else digits_fuel f (n / 10) acc'
  end.

(** The decimal digits of [n >= 0], most significant first. *)
Definition decimal_digits (n : Z) : pystr :=
  digits_fuel (S (Z.to_nat (Z.log2 n))) n [].

(** Over the digits in reverse: a comma after every third digit that
    has a digit after it. *)
Fixpoint group_rev (k : nat) (s : pystr) : pystr :=
  match s with
  | [] => []
  | c :: t =>
      match k, t with
      | 2%nat, _ :: _ => c :: 44%N :: group_rev 0 t
      | _, _ => c :: group_rev (S k) t
      end
  end.

Definition group_thousands (s : pystr) : pystr :=
  rev (group_rev 0 (rev s)).

(** [format(v, ',.0f')] *)
Definition format_comma_0f (v : pyfloat) : pystr :=
  match v with
  | FNaN => U "nan"
  | FInf neg => if neg then U "-inf" else U "inf"
  | FFinite q =>
      (if Qnum q <? 0 then U "-" else []) ++
      group_thousands
        (decimal_digits (round_half_even (Z.abs (Qnum q)) (QDen q)))
  end.

Definition format_money (v : pyfloat) : pystr :=
  36%N :: format_comma_0f v.

End Format.
Import Format.

(** A text of the form [$1,234,567]: a dollar sign, then digits and comma
    separators, with at least one digit. *)
Definition is_money_string (s : pystr) : bool :=
  match s with
  | c :: body =>
      (c =? 36)%N
      && forallb (fun d => is_digit d || (d =? 44)%N) body
      && existsb is_digit body
  | [] => false
  end.

(** The number such a text writes: its digits read in base ten. *)
Definition money_value (s : pystr) : Z :=
  digits_to_Z (digit_val <$> List.filter is_digit s).

Definition em_dash : pystr := [8212%N].

(** What [_parse_money] and [_parse_percent] hand to [float]. *)
Definition money_text (s : pystr) : pystr :=
  replace1 44 [] (replace1 36 [] (strip s)).

Definition percent_text (s : pystr) : pystr :=
  replace1 43 [] (replace1 37 [] (strip s)).

(** An amount beyond the 53 bits of a binary64 significand. *)
Definition wide_amount : pystr := U "$9,007,199,254,740,993".

(** ** Float arithmetic

    Each operation is the exact result rounded to binary64.  Division
    follows numpy ([x / 0] is an infinity or NaN, not an exception). *)

Module FloatOps.

Definition of_Z (n : Z) : pyfloat := round_double (inject_Z n).

Definition fadd (a b : pyfloat) : pyfloat :=
  match a, b with
  | FNaN, _ | _, FNaN => FNaN
  | FInf s, FInf t => if Bool.eqb s t then FInf s else FNaN
  | FInf s, FFinite _ | FFinite _, FInf s => FInf s
  | FFinite x, FFinite y => round_double (x + y)
  end.

Definition fsub (a b : pyfloat) : pyfloat := fadd a (fneg b).

Definition fmul (a b : pyfloat) : pyfloat :=
  match a, b with
  | FNaN, _ | _, FNaN => FNaN
  | FInf s, FInf t => FInf (xorb s t)
  | FInf s, FFinite y | FFinite y, FInf s =>
      match Qnum y with
      | 0 => FNaN
      | Z.pos _ => FInf s
      | Z.neg _ => FInf (negb s)
      end
  | FFinite x, FFinite y => round_double (x * y)
  end.

Definition fdiv (a b : pyfloat) : pyfloat :=
  match a, b with
  | FNaN, _ | _, FNaN => FNaN
  | FInf _, FInf _ => FNaN
  | FInf s, FFinite y => FInf (if Qnum y <? 0 then negb s else s)
  | FFinite _, FInf _ => FFinite 0
  | FFinite x, FFinite y =>
      match Qnum y with
      | 0 => match Qnum x with
             | 0 => FNaN
             | Z.pos _ => FInf false
             | Z.neg _ => FInf true
             end
      | _ => round_double (x / y)
      end
  end.

(** The square root of the positive rational [p / q], rounded. *)
Definition round_sqrt_pos (p q : Z) : Q :=
  let k := Z.max (ilog2_ratio p q / 2 - 52) (-1074) in
  let '(num, den) :=
    if 0 <=? k then (p, q * 4 ^ k) else (p * 4 ^ (- k), q) in
  let m := Z.sqrt (num / den) in
  let m' := match 4 * num ?= (2 * m + 1) ^ 2 * den with
            | Lt => m
            | Gt => m + 1
            | Eq => if Z.even m then m else m + 1
            end in
  Qred (inject_Z m' * pow2 k).

Definition fsqrt (a : pyfloat) : pyfloat :=
  match a with
  | FNaN => FNaN
  | FInf neg => if neg then FNaN else FInf false
  | FFinite x =>
      match Qnum x with
      | 0 => FFinite 0
      | Z.pos p => FFinite (round_sqrt_pos (Z.pos p) (QDen x))
      | Z.neg _ => FNaN
      end
  end.

(** [a < b]; false when either side is NaN. *)
Definition flt (a b : pyfloat) : bool :=
  match a, b with
  | FNaN, _ | _, FNaN => false
  | FInf s, FInf t => s && negb t
  | FInf s, FFinite _ => s
  | FFinite _, FInf t => negb t
  | FFinite x, FFinite y =>
      match (x ?= y)%Q with Lt => true | _ => false end
  end.

Definition fmax (a b : pyfloat) : pyfloat := if flt a b then b else a.
Definition fmin (a b : pyfloat) : pyfloat := if flt b a then b else a.

(** [bool(x)]: zero is the only false float. *)
Definition truthy (a : pyfloat) : bool :=
  match a with
  | FFinite x => negb (Qnum x =? 0)
  | _ => true
  end.

End FloatOps.
Import FloatOps.

(** ** Columns of floats (pandas [Series], [skipna=True])

    A null cell of a float column is NaN. *)

Module Series.

Definition notna (x : pyfloat) : bool :=
  match x with
  | FNaN => false
  | _ => true
  end.

Definition dropna (col : list pyfloat) : list pyfloat :=
  List.filter notna col.

Definition total (vs : list pyfloat) : pyfloat :=
  fold_left fadd vs (FFinite 0).

(** [col.sum()] *)
Definition sum (col : list pyfloat) : pyfloat := total (dropna col).

(** [col.mean()] *)
Definition mean (col : list pyfloat) : pyfloat :=
  match dropna col with
  | [] => FNaN
  | vs => fdiv (total vs) (of_Z (Z.of_nat (length vs)))
  end.

(** [col.max()], [col.min()] *)
Definition max (col : list pyfloat) : pyfloat :=
  match dropna col with
  | [] => FNaN
  | v :: vs => fold_left fmax vs v
  end.

Definition min (col : list pyfloat) : pyfloat :=
  match dropna col with
  | [] => FNaN
  | v :: vs => fold_left fmin vs v
  end.

(** [col.std()]: the sample deviation ([ddof=1]). *)
Definition std (col : list pyfloat) : pyfloat :=
  let vs := dropna col in
  match vs with
  | [] | [_] => FNaN
  | _ =>
      let n := Z.of_nat (length vs) in
      let avg := fdiv (total vs) (of_Z n) in
      let sqr := (fun v => let d := fsub avg v in fmul d d) <$> vs in
      fsqrt (fdiv (total sqr) (of_Z (n - 1)))
  end.

(** [col.iloc[0]], [col.iloc[-1]] on a non-empty column *)
Definition first (col : list pyfloat) : pyfloat := default FNaN (head col).
Definition final (col : list pyfloat) : pyfloat := default FNaN (last col).

End Series.

(** ** Daily listing records

    One row of the raw daily batch.  [release] and [movie_url] are text or
    null; the numeric cells are floats, NaN when null. *)

Record DailyRecord := {
  date : Z;
  rank : pyfloat;
  release : option pystr;
  movie_url : option pystr;
  daily_gross : pyfloat;
  yd_change_pct : pyfloat;
  lw_change_pct : pyfloat;
  theaters : pyfloat;
  per_theater_avg : pyfloat;
  to_date_gross : pyfloat;
  days_in_release : pyfloat;
  distributor : option pystr
}.

(** [pd.DataFrame(rows)] turns [None] into NaN in a numeric column. *)
Definition float_cell (v : option pyfloat) : pyfloat := default FNaN v.
Definition int_cell (v : option Z) : pyfloat :=
  match v with
  | Some n => of_Z n
  | None => FNaN
  end.

(** ** The listing page as the scraper reads it

    [requests] and [BeautifulSoup] are not modelled: the scraper is given
    what they produce.  A [td] has its text and, when it holds an [<a>]
    element, that element's [href] attribute (which may be missing). *)

Record td := {
  td_text : pystr;
  td_anchor : option (option pystr)
}.

(** The outcome of [requests.get]: no response at all (connection error,
    timeout), or a response with its status code and the [<tr>] rows of
    the first [<table>] of the page, if the page has one. *)
Inductive http_outcome :=
| NoResponse
| Response (status_code : Z) (table : option (list (list td))).

(** [response.raise_for_status()] raises on a 4xx or 5xx status. *)
Definition raise_for_status (status_code : Z) : result unit :=
  if (400 <=? status_code) && (status_code <? 600)
  then Raise HTTPError else Return tt.

(** [movie_link['href'] if movie_link else None] *)
Definition anchor_href (a : option (option pystr)) : result (option pystr) :=
  match a with
  | None => Return None
  | Some (Some h) => Return (Some h)
  | Some None => Raise KeyError
  end.

(** [base + movie_url if movie_url else None] *)
Definition absolute_url (base : pystr) (movie_url : option pystr)
  : option pystr :=
  match movie_url with
  | Some (c :: h) => Some (base ++ c :: h)
  | _ => None
  end.

(** [try: body / except: handler] *)
Definition try_ {A} (body : result A) (handler : result A) : result A :=
  match body with
  | Return a => Return a
  | Raise _ => handler
  end.

Module YearBatchScraper.
Import YearBatchCollector.

(** One [<tr>] with at least nine cells gives one record. *)
Definition row_dict (date_str : Z) (cols : list td)
  : result (option DailyRecord) :=
  match cols with
  | c0 :: c1 :: c2 :: c3 :: c4 :: c5 :: c6 :: c7 :: c8 :: rest =>
      movie_url ← anchor_href (td_anchor c2);
      Return (Some {|
        date := date_str;
        rank := int_cell (_parse_int (td_text c0));
        release := Some (strip (td_text c2));
        movie_url := absolute_url base_url movie_url;
        daily_gross := float_cell (_parse_money (td_text c3));
        yd_change_pct := float_cell (_parse_percent (td_text c4));
        lw_change_pct := float_cell (_parse_percent (td_text c5));
        theaters := int_cell (_parse_int (td_text c6));
        per_theater_avg := float_cell (_parse_money (td_text c7));
        to_date_gross := float_cell (_parse_money (td_text c8));
        days_in_release :=
          match rest with
          | c9 :: _ => int_cell (_parse_int (td_text c9))
          | [] => FNaN
          end;
        distributor := None |})
  | _ => Return None
  end.

Fixpoint table_rows (date_str : Z) (trs : list (list td))
  : result (list DailyRecord) :=
  match trs with
  | [] => Return []
  | tr :: more =>
      r ← row_dict date_str tr;
      rows ← table_rows date_str more;
      Return (match r with Some x => x :: rows | None => rows end)
  end.

(** The body of the [try] block. *)
Definition scrape_body (page : http_outcome) (date_str : Z)
  : result (option (list DailyRecord)) :=
  match page with
  | NoResponse => Raise ConnectionError
  | Response status_code table =>
      _ ← raise_for_status status_code;
      match table with
      | None => Return None
      | Some trs =>
          rows ← table_rows date_str (tail trs);
          Return (match rows with [] => None | _ => Some rows end)
      end
  end.

(** [try: ... except: return None] *)
Definition scrape_daily_data (page : http_outcome) (date_str : Z)
  : result (option (list DailyRecord)) :=
  try_ (scrape_body page date_str) (Return None).

End YearBatchScraper.

Module BOMDailyScraper.
Import BOMDailyCollector.

Definition row_data (date_str : Z) (cols : list td)
  : result (option DailyRecord) :=
  match cols with
  | c0 :: c1 :: c2 :: c3 :: c4 :: c5 :: c6 :: c7 :: c8 :: rest =>
      movie_url ← anchor_href (td_anchor c2);
      let movie_title := strip (td_text c2) in
      Return (Some {|
        date := date_str;
        rank := int_cell (_parse_int (td_text c0));
        release := Some movie_title;
        movie_url := absolute_url base_url movie_url;
        daily_gross := float_cell (_parse_money (td_text c3));
        yd_change_pct := float_cell (_parse_percent (td_text c4));
        lw_change_pct := float_cell (_parse_percent (td_text c5));
        theaters := int_cell (_parse_int (td_text c6));
        per_theater_avg := float_cell (_parse_money (td_text c7));
        to_date_gross := float_cell (_parse_money (td_text c8));
        days_in_release :=
          match rest with
          | c9 :: _ => int_cell (_parse_int (td_text c9))
          | [] => FNaN
          end;
        distributor :=
          match rest with
          | _ :: c10 :: _ => Some (strip (td_text c10))
          | _ => None
          end |})
  | _ => Return None
  end.

Fixpoint table_rows (date_str : Z) (trs : list (list td))
  : result (list DailyRecord) :=
  match trs with
  | [] => Return []
  | tr :: more =>
      r ← row_data date_str tr;
      rows ← table_rows date_str more;
      Return (match r with Some x => x :: rows | None => rows end)
  end.

(** The body of the [try] block; falling out of it without a
    [return] reaches the final [return None]. *)
Definition scrape_body (page : http_outcome) (date_str : Z)
  : result (option (list DailyRecord)) :=
  match page with
  | NoResponse => Raise ConnectionError
  | Response status_code table =>
      _ ← raise_for_status status_code;
      match table with
      | None => Return None
      | Some trs =>
          rows ← table_rows date_str (tail trs);
          Return (match rows with [] => None | _ => Some rows end)
      end
  end.

(** [try: ... except Exception as e: print(...)] then [return None] *)
Definition scrape_daily_data (page : http_outcome) (date_str : Z)
  : result (option (list DailyRecord)) :=
  try_ (scrape_body page date_str) (Return None).

End BOMDailyScraper.

(** ** Calendar ([datetime], proleptic Gregorian) *)

Module Calendar.

Definition is_leap (y : Z) : bool :=
  (y mod 4 =? 0) && (negb (y mod 100 =? 0) || (y mod 400 =? 0)).

Definition days_before_year (y : Z) : Z :=
  let p := y - 1 in p * 365 + p / 4 - p / 100 + p / 400.

Definition days_in_month (y m : Z) : Z :=
  if m =? 2 then (if is_leap y then 29 else 28)
  else if (m =? 4) || (m =? 6) || (m =? 9) || (m =? 11) then 30
  else 31.

Definition days_before_month (y m : Z) : Z :=
  foldr Z.add 0 (days_in_month y <$> seqZ 1 (m - 1)).

(** [datetime(y, m, d).toordinal()] *)
Definition ordinal (y m d : Z) : Z :=
  days_before_year y + days_before_month y m + d.

(** [weekday()]: Monday is 0. *)
Definition weekday (o : Z) : Z := (o + 6) mod 7.

End Calendar.

(** ** Effects of a collection run

    What a run does to the outside world, in order: page requests, pauses
    and files written.  (Progress messages are left out.)  A computation
    extends the trace of events and returns or raises. *)

Inductive event :=
| EvGet (date_str : Z)
| EvSleep (seconds : Z)
| EvToCsv (path : pystr) (rows : list DailyRecord).

Definition run (A : Type) : Type := list event -> list event * result A.

#[global] Instance run_ret : MRet run := fun A a tr => (tr, Return a).
#[global] Instance run_bind : MBind run := fun A B f m tr =>
  match m tr with
  | (tr', Return a) => f a tr'
  | (tr', Raise e) => (tr', Raise e)
  end.

Definition emit (e : event) : run unit := fun tr => (tr ++ [e], Return tt).
Definition lift {A} (r : result A) : run A := fun tr => (tr, r).

(** The trace and the outcome of a whole run. *)
Definition execute {A} (m : run A) : list event * result A := m [].

(** [for x in xs: acc = body(acc, x)] *)
Fixpoint for_each {A B} (body : B -> A -> run B) (xs : list A) (acc : B)
  : run B :=
  match xs with
  | [] => mret acc
  | x :: more => acc' ← body acc x; for_each body more acc'
  end.

(** [str(n)] for an integer. *)
Definition str_of_int (n : Z) : pystr :=
  (if n <? 0 then U "-" else []) ++ decimal_digits (Z.abs n).

Module YearBatchRun.
Import Calendar.

(** [while current <= end: dates.append(current); current += step] *)
Fixpoint dates_loop (fuel : nat) (current stop step : Z) : list Z :=
  match fuel with
  | O => []
  | S n =>
      if current <=? stop
      then current :: dates_loop n (current + step) stop step
      else []
  end.

Definition every (step : Z) (start stop : Z) : list Z :=
  dates_loop (Z.to_nat (stop - start + 1)) start stop step.

(** [while start.weekday() != 4: start += timedelta(days=1)] *)
Fixpoint first_friday (fuel : nat) (start : Z) : Z :=
  match fuel with
  | O => start
  | S n => if weekday start =? 4 then start else first_friday n (start + 1)
  end.

(** Insertion into an ascending list ([sorted]). *)
Fixpoint insert_sorted (d : Z) (l : list Z) : list Z :=
  match l with
  | [] => [d]
  | x :: t => if d <=? x then d :: l else x :: insert_sorted d t
  end.

Definition sorted (l : list Z) : list Z := foldr insert_sorted [] l.

Definition _generate_smart_dates (year : Z) : list Z :=
  let start := first_friday 7 (ordinal year 1 1) in
  let dates := every 7 start (ordinal year 12 31) in
  let holidays :=
    [ordinal year 1 1; ordinal year 2 14; ordinal year 3 29;
     ordinal year 5 24; ordinal year 7 4; ordinal year 11 28;
     ordinal year 12 25] in
  sorted
    (fold_left
       (fun dates holiday =>
          if bool_decide (holiday ∈ dates) then dates
          else dates ++ [holiday])
       holidays dates).

Definition _generate_weekly_dates (year : Z) : list Z :=
  every 7 (ordinal year 1 1) (ordinal year 12 31).

Definition _generate_biweekly_dates (year : Z) : list Z :=
  every 14 (ordinal year 1 1) (ordinal year 12 31).

Definition output_file (year : Z) : pystr :=
  U "data/processed/bom_" ++ str_of_int year ++ U "_batch.csv".

(** [self.scrape_daily_data(date_str)], with the request it makes;
    [web] is what the site answers for each date. *)
Definition scrape_daily_data (web : Z -> http_outcome) (date_str : Z)
  : run (option (list DailyRecord)) :=
  _ ← emit (EvGet date_str);
  lift (YearBatchScraper.scrape_daily_data (web date_str) date_str).

(** The loop over the dates (lines 50-63). *)
Definition collect_loop (web : Z -> http_outcome) (dates : list Z)
  : run (list (list DailyRecord)) :=
  for_each
    (fun all_data date_str =>
       daily_df ← scrape_daily_data web date_str;
       _ ← emit (EvSleep 2);
       mret (match daily_df with
             | Some df => all_data ++ [df]
             | None => all_data
             end))
    dates [].

Definition collect_year_batch (web : Z -> http_outcome) (year : Z)
    (strategy : pystr) : run (option (list DailyRecord)) :=
  dates ← lift
    (if bool_decide (strategy = U "smart")
     then Return (_generate_smart_dates year)
     else if bool_decide (strategy = U "weekly")
     then Return (_generate_weekly_dates year)
     else if bool_decide (strategy = U "biweekly")
     then Return (_generate_biweekly_dates year)
     else Raise ValueError);
  all_data ← collect_loop web dates;
  match all_data with
  | [] => mret None
  | _ =>
      let combined := concat all_data in
      _ ← emit (EvToCsv (output_file year) combined);
      mret (Some combined)
  end.

End YearBatchRun.

Module BOMDailyRun.

Definition scrape_daily_data (web : Z -> http_outcome) (date_str : Z)
  : run (option (list DailyRecord)) :=
  _ ← emit (EvGet date_str);
  lift (BOMDailyScraper.scrape_daily_data (web date_str) date_str).

(** [while current <= end:], with the [max_days] break; [max_days] is
    [None] or a number, and [0] is as good as [None]. *)
Fixpoint range_loop (web : Z -> http_outcome) (fuel : nat)
    (current stop : Z) (max_days : option Z) (days_scraped : Z)
    (all_data : list (list DailyRecord))
  : run (list (list DailyRecord)) :=
  match fuel with
  | O => mret all_data
  | S n =>
      if current <=? stop then
        if match max_days with
           | Some k => negb (k =? 0) && (k <=? days_scraped)
           | None => false
           end
        then mret all_data
        else
          df ← scrape_daily_data web current;
          _ ← emit (EvSleep 2);
          range_loop web n (current + 1) stop max_days (days_scraped + 1)
            (match df with
             | Some d => all_data ++ [d]
             | None => all_data
             end)
      else mret all_data
  end.

Definition scrape_date_range (web : Z -> http_outcome)
    (start_date end_date : Z) (max_days : option Z)
  : run (option (list DailyRecord)) :=
  all_data ← range_loop web (Z.to_nat (end_date - start_date + 1))
               start_date end_date max_days 0 [];
  match all_data with
  | [] => mret None
  | _ => mret (Some (concat all_data))
  end.

End BOMDailyRun.

(** The files on disk after a trace: each [to_csv] replaces the file. *)
Definition files_after (tr : list event) : gmap pystr (list DailyRecord) :=
  fold_left
    (fun files e =>
       match e with
       | EvToCsv path rows => <[path := rows]> files
       | _ => files
       end)
    tr ∅.


(** ** Python values held in a dict or a table cell *)

Inductive pyval :=
| VNone
| VFloat (x : pyfloat)
| VInt (n : Z)
| VStr (s : pystr).

(** [pd.isna(v)] *)
Definition isna (v : pyval) : bool :=
  match v with
  | VNone | VFloat FNaN => true
  | _ => false
  end.

(** [bool(v)] *)
Definition val_truthy (v : pyval) : bool :=
  match v with
  | VNone => false
  | VFloat x => truthy x
  | VInt n => negb (n =? 0)
  | VStr s => negb (bool_decide (s = []))
  end.

(** [v > 0] for a number. *)
Definition val_positive (v : pyval) : bool :=
  match v with
  | VFloat x => flt (FFinite 0) x
  | VInt n => 0 <? n
  | _ => false
  end.

Definition val_float (v : pyval) : pyfloat :=
  match v with
  | VFloat x => x
  | VInt n => of_Z n
  | _ => FNaN
  end.

(** A feature row: a Python dict from feature names to values. *)
Abbreviation features := (gmap string pyval).

(** ** Matching and ordering daily records *)

Section Matching.
Context `{CaseMapping}.

(** One cell of [col.str.contains(pat, case=False, na=False, regex=False)]:
    the upper-cased pattern occurs in the upper-cased cell; a null cell
    does not match. *)
Definition str_contains (pat : pystr) (cell : option pystr) : bool :=
  match cell with
  | Some x => contains (str_upper pat) (str_upper x)
  | None => false
  end.

(** [df[df['release'].str.contains(pat, case=False, na=False, regex=False)]] *)
Definition title_matches (pat : pystr) (df : list DailyRecord)
  : list DailyRecord :=
  List.filter (fun r => str_contains pat (release r)) df.

End Matching.

(** [df[df['movie_url'] == url]] *)
Definition url_matches (url : pystr) (df : list DailyRecord)
  : list DailyRecord :=
  List.filter (fun r => bool_decide (movie_url r = Some url)) df.

(** [df.sort_values('date')]: ascending, records of one date kept in their
    order. *)
Fixpoint insert_by_date (r : DailyRecord) (l : list DailyRecord)
  : list DailyRecord :=
  match l with
  | [] => [r]
  | x :: t => if date r <=? date x then r :: l else x :: insert_by_date r t
  end.

Definition sort_values_date (df : list DailyRecord) : list DailyRecord :=
  foldr insert_by_date [] df.

(** ** [aggregate_movie_features] ([collect_year_batch.py]) *)

(** A row of the main dataset, as far as the aggregation reads it.  A
    missing release date is [NaT], a missing URL is NaN. *)
Record Movie := {
  tmdb_id : Z;
  title : pystr;
  release_date : option Z;
  bom_url : option pystr
}.

Module MovieFeatures.
Section WithCaseMapping.
Context `{CaseMapping}.

(** [batch_df[batch_df['release'].str.contains(title[:20], ...)]] *)
Definition movie_batch (batch_df : list DailyRecord) (movie : Movie)
  : list DailyRecord :=
  title_matches (slice_to 20 (title movie)) batch_df.

(** [(movie_batch['date'] - release_date).dt.days]; NaN against [NaT]. *)
Definition days_since_release (movie : Movie) (r : DailyRecord)
  : option Z :=
  (fun d => date r - d) <$> release_date movie.

(** [.between(0, 6)] *)
Definition between_0_6 (days : option Z) : bool :=
  match days with
  | Some d => (0 <=? d) && (d <=? 6)
  | None => false
  end.

Definition first_week (batch_df : list DailyRecord) (movie : Movie)
  : list DailyRecord :=
  List.filter (fun r => between_0_6 (days_since_release movie r))
    (sort_values_date (movie_batch batch_df movie)).

(** The feature dict built from a non-empty first week. *)
Definition feature_dict (movie : Movie) (first_week : list DailyRecord)
  : features :=
  let col (f : DailyRecord -> pyfloat) := f <$> first_week in
  list_to_map
    [("tmdb_id", VInt (tmdb_id movie));
     ("title", VStr (title movie));
     ("opening_theaters", VFloat (Series.first (col theaters)));
     ("opening_gross", VFloat (Series.first (col daily_gross)));
     ("opening_per_theater", VFloat (Series.first (col per_theater_avg)));
     ("first_week_gross", VFloat (Series.sum (col daily_gross)));
     ("first_week_avg_daily", VFloat (Series.mean (col daily_gross)));
     ("first_week_days_tracked", VInt (Z.of_nat (length first_week)));
     ("avg_yd_change", VFloat (Series.mean (col yd_change_pct)));
     ("avg_lw_change", VFloat (Series.mean (col lw_change_pct)));
     ("max_yd_gain", VFloat (Series.max (col yd_change_pct)));
     ("max_yd_drop", VFloat (Series.min (col yd_change_pct)));
     ("peak_theaters_week1", VFloat (Series.max (col theaters)));
     ("min_theaters_week1", VFloat (Series.min (col theaters)))].

(** One turn of the loop over the main dataset: the row appended to
    [results], or [None] where the loop does [continue]. *)
Definition movie_row (batch_df : list DailyRecord) (movie : Movie)
  : option features :=
  match bom_url movie with
  | None => None
  | Some _ =>
      match movie_batch batch_df movie with
      | [] => None
      | _ =>
          match first_week batch_df movie with
          | [] => None
          | fw => Some (feature_dict movie fw)
          end
      end
  end.

Definition aggregate_movie_features (batch_df : list DailyRecord)
    (df_main : list Movie) : list features :=
  omap (movie_row batch_df) df_main.

End WithCaseMapping.
End MovieFeatures.

(** ** [aggregate_daily_features] ([enrich_with_daily_bom.py]) *)

(** The [movie_url] argument: [None], a NaN float, or a text. *)
Inductive url_arg :=
| UrlNone
| UrlNaN
| UrlStr (s : pystr).

Module DailyFeatures.
Section WithCaseMapping.
Context `{CaseMapping}.

(** [bool(movie_url)]: NaN is true, the empty text is false. *)
Definition url_truthy (u : url_arg) : bool :=
  match u with
  | UrlNone => false
  | UrlNaN => true
  | UrlStr s => negb (bool_decide (s = []))
  end.

(** [pd.notna(movie_url)] *)
Definition url_notna (u : url_arg) : bool :=
  match u with
  | UrlStr _ => true
  | _ => false
  end.

(** [daily_data[daily_data['movie_url'] == movie_url]] *)
Definition url_rows (u : url_arg) (daily_data : list DailyRecord)
  : list DailyRecord :=
  match u with
  | UrlStr s => url_matches s daily_data
  | _ => []
  end.

(** Reading the local variable [movie_data], which is unbound until it
    has been assigned. *)
Definition read_local {A} (v : option A) : result A :=
  match v with
  | Some a => Return a
  | None => Raise UnboundLocalError
  end.

(** Lines 175-187: the records of the movie, sorted by date; [None]
    stands for the early [return None]. *)
Definition movie_data (daily_data : list DailyRecord)
    (movie_title : pystr) (movie_url : url_arg)
  : result (option (list DailyRecord)) :=
  (* if movie_url and pd.notna(movie_url): *)
  let local1 :=
    if url_truthy movie_url && url_notna movie_url
    then Some (url_rows movie_url daily_data) else None in
  (* if movie_url is None or len(movie_data) == 0: *)
  fallback ←
    match movie_url with
    | UrlNone => Return true
    | _ => md ← read_local local1; Return (bool_decide (md = []))
    end;
  let local2 :=
    if fallback : bool then Some (title_matches movie_title daily_data)
    else local1 in
  (* if len(movie_data) == 0: return None *)
  md ← read_local local2;
  match md with
  | [] => Return None
  | _ => Return (Some (sort_values_date md))
  end.

(** [x if cond else None] *)
Definition when (cond : bool) (x : pyfloat) : pyval :=
  if cond then VFloat x else VNone.

(** [a / b] when the guard [a and b and b > 0]-style test holds. *)
Definition ratio (guard : bool) (num den : pyval) : pyval :=
  if guard then VFloat (fdiv (val_float num) (val_float den)) else VNone.

Definition get (d : features) (k : string) : pyval := default VNone (d !! k).

(** The feature dict of lines 189-231. *)
Definition base_features (md : list DailyRecord) : features :=
  let col (f : DailyRecord -> pyfloat) := f <$> md in
  let n := length md in
  list_to_map
    [("daily_opening_theaters", VFloat (Series.first (col theaters)));
     ("daily_peak_theaters", VFloat (Series.max (col theaters)));
     ("daily_avg_theaters", VFloat (Series.mean (col theaters)));
     ("daily_min_theaters", VFloat (Series.min (col theaters)));
     ("daily_theater_std", VFloat (Series.std (col theaters)));
     ("daily_opening_day_gross", VFloat (Series.first (col daily_gross)));
     ("daily_peak_gross", VFloat (Series.max (col daily_gross)));
     ("daily_avg_gross", VFloat (Series.mean (col daily_gross)));
     ("daily_gross_std", VFloat (Series.std (col daily_gross)));
     ("daily_opening_per_theater",
        VFloat (Series.first (col per_theater_avg)));
     ("daily_peak_per_theater", VFloat (Series.max (col per_theater_avg)));
     ("daily_avg_per_theater", VFloat (Series.mean (col per_theater_avg)));
     ("daily_per_theater_std", VFloat (Series.std (col per_theater_avg)));
     ("daily_avg_yd_change", VFloat (Series.mean (col yd_change_pct)));
     ("daily_avg_lw_change", VFloat (Series.mean (col lw_change_pct)));
     ("daily_yd_volatility", VFloat (Series.std (col yd_change_pct)));
     ("daily_max_yd_gain", VFloat (Series.max (col yd_change_pct)));
     ("daily_max_yd_drop", VFloat (Series.min (col yd_change_pct)));
     ("daily_opening_3day_gross",
        when (3 <=? n)%nat (Series.sum (take 3 (col daily_gross))));
     ("daily_opening_3day_per_theater",
        when (3 <=? n)%nat (Series.mean (take 3 (col per_theater_avg))));
     ("daily_week1_avg_gross",
        when (7 <=? n)%nat (Series.mean (take 7 (col daily_gross))));
     ("daily_week2_avg_gross",
        when (14 <=? n)%nat
          (Series.mean (take 7 (drop 7 (col daily_gross)))));
     ("daily_week1_avg_theaters",
        when (7 <=? n)%nat (Series.mean (take 7 (col theaters))));
     ("daily_days_tracked", VInt (Z.of_nat n));
     ("daily_max_days_in_release",
        VFloat (Series.max (col days_in_release)));
     ("daily_final_gross", VFloat (Series.final (col to_date_gross)))].

(** The derived ratios of lines 233-253. *)
Definition derived_features (f : features) : features :=
  let f1 :=
    <["daily_week2_week1_ratio" :=
        ratio (val_truthy (get f "daily_week1_avg_gross")
               && val_truthy (get f "daily_week2_avg_gross")
               && val_positive (get f "daily_week2_avg_gross"))
          (get f "daily_week2_avg_gross") (get f "daily_week1_avg_gross")]> f in
  let f2 :=
    <["daily_theater_expansion_ratio" :=
        ratio (val_truthy (get f1 "daily_peak_theaters")
               && val_truthy (get f1 "daily_opening_theaters")
               && val_positive (get f1 "daily_opening_theaters"))
          (get f1 "daily_peak_theaters") (get f1 "daily_opening_theaters")]> f1 in
  let f3 :=
    <["daily_opening_to_total_ratio" :=
        ratio (val_truthy (get f2 "daily_opening_3day_gross")
               && val_truthy (get f2 "daily_final_gross")
               && val_positive (get f2 "daily_final_gross"))
          (get f2 "daily_opening_3day_gross") (get f2 "daily_final_gross")]> f2 in
  <["daily_per_theater_decline_rate" :=
      if val_truthy (get f3 "daily_opening_per_theater")
         && val_truthy (get f3 "daily_avg_per_theater")
         && val_positive (get f3 "daily_opening_per_theater")
      then VFloat (fdiv (fsub (val_float (get f3 "daily_avg_per_theater"))
                              (val_float (get f3 "daily_opening_per_theater")))
                        (val_float (get f3 "daily_opening_per_theater")))
      else VNone]> f3.

Definition aggregate_daily_features (daily_data : list DailyRecord)
    (movie_title : pystr) (movie_url : url_arg)
  : result (option features) :=
  md ← movie_data daily_data movie_title movie_url;
  match md with
  | None => Return None
  | Some rows => Return (Some (derived_features (base_features rows)))
  end.

End WithCaseMapping.
End DailyFeatures.

#[global] Instance ascii_case : CaseMapping := {| str_upper := ascii_upper |}.

(** ** Updating the main dataset
    ([collect_all_years.py] lines 119-140,
     [scrape_individual_movies.py] lines 225-243)

    A table is kept as pandas keeps it, column by column: a map from the
    column name to the cells of that column, one per row. *)

Abbreviation frame := (gmap string (list pyval)).

#[global] Instance Q_eq_dec : EqDecision Q.
Proof. solve_decision. Defined.
#[global] Instance pyfloat_eq_dec : EqDecision pyfloat.
Proof. solve_decision. Defined.
#[global] Instance pyval_eq_dec : EqDecision pyval.
Proof. solve_decision. Defined.

Module Merge.

Definition NaN : pyval := VFloat FNaN.

(** The cell of a column at a row position; a missing cell is null. *)
Definition cell (s : list pyval) (i : nat) : pyval := default NaN (s !! i).

(** The positions of the right rows whose key equals [k], in order. *)
Definition key_positions (k : pyval) (rkeys : list pyval) : list nat :=
  omap (fun p : nat * pyval =>
          if bool_decide (p.2 = k) then Some p.1 else None)
       (zip (seq 0 (length rkeys)) rkeys).

(** The rows of a left join on one key column: each left row, in order,
    paired with every right row of the same key, or with none. *)
Definition join_index (lkeys rkeys : list pyval)
  : list (nat * option nat) :=
  flat_map
    (fun p : nat * pyval =>
       match key_positions p.2 rkeys with
       | [] => [(p.1, None)]
       | js => (fun j => (p.1, Some j)) <$> js
       end)
    (zip (seq 0 (length lkeys)) lkeys).

Definition take_left (idx : list (nat * option nat)) (s : list pyval)
  : list pyval :=
  (fun p : nat * option nat => cell s p.1) <$> idx.

Definition take_right (idx : list (nat * option nat)) (s : list pyval)
  : list pyval :=
  (fun p : nat * option nat =>
     match p.2 with
     | Some j => cell s j
     | None => NaN
     end) <$> idx.

Definition suffixed (col : string) : string := col +:+ "_new".

(** The name a right column gets in the merged table. *)
Definition merged_name (left : frame) (col : string) : string :=
  if bool_decide (is_Some (left !! col)) then suffixed col else col.

(** Adding the right columns one by one; selecting a column the right
    table lacks raises [KeyError], a name already taken raises
    [MergeError]. *)
Fixpoint add_right (left right : frame) (idx : list (nat * option nat))
    (cols : list string) (acc : frame) : result frame :=
  match cols with
  | [] => Return acc
  | col :: more =>
      match right !! col with
      | None => Raise KeyError
      | Some s =>
          match acc !! merged_name left col with
          | Some _ => Raise MergeError
          | None =>
              add_right left right idx more
                (<[merged_name left col := take_right idx s]> acc)
          end
      end
  end.

(** [left.merge(right[['title'] + cols], on='title', how='left',
                suffixes=('', '_new'))] *)
Definition merge_left (left right : frame) (cols : list string)
  : result frame :=
  match left !! "title", right !! "title" with
  | Some lkeys, Some rkeys =>
      let idx := join_index lkeys rkeys in
      add_right left right idx cols (take_left idx <$> left)
  | _, _ => Raise KeyError
  end.

(** [new.combine_first(old)]: the cells of [new], and where one is null
    the cell of [old]. *)
Definition coalesce (new old : pyval) : pyval :=
  if isna new then old else new.

Definition combine_first (new old : list pyval) : list pyval :=
  zip_with coalesce new old.

(** [if f'{col}_new' in df.columns:]
    [df[col] = df[f'{col}_new'].combine_first(df.get(col, pd.Series()))]
    [df.drop(columns=[f'{col}_new'], inplace=True)] *)
Definition update_column (df : frame) (col : string) : frame :=
  match df !! suffixed col with
  | Some new =>
      let value :=
        match df !! col with
        | Some old => combine_first new old
        | None => new
        end in
      delete (suffixed col) (<[col := value]> df)
  | None => df
  end.

Definition update_columns (df : frame) (cols : list string) : frame :=
  fold_left update_column cols df.

Definition update_dataset (main new_rows : frame) (cols : list string)
  : result frame :=
  merged ← merge_left main new_rows cols;
  Return (update_columns merged cols).

(** [collect_all_years.py] *)
Definition first_week_columns : list string :=
  ["opening_theaters"; "opening_gross"; "opening_per_theater";
   "first_week_gross"; "first_week_avg_daily"; "first_week_days_tracked";
   "avg_yd_change"; "avg_lw_change"; "max_yd_gain"; "max_yd_drop";
   "peak_theaters_week1"; "min_theaters_week1"].

(** [scrape_individual_movies.py], [update_main_dataset] *)
Definition scraped_columns : list string :=
  ["first_week_gross"; "opening_gross"; "opening_theaters";
   "first_week_days_tracked"; "peak_theaters_week1"].

(** The column lists the scripts use are well formed: no name twice,
    none is the key, none is another one with the suffix. *)
Definition columns_ok (cols : list string) : Prop :=
  NoDup cols
  /\ ("title" ∉ cols)
  /\ (forall c c', c ∈ cols -> c' ∈ cols -> c <> suffixed c').

End Merge.

(** ** Sample data *)

(** A record that reports a title, a URL, a theater count and a daily
    gross, and nothing else. *)
Definition listing (d : Z) (t : pystr) (u : option pystr) (th g : Z)
  : DailyRecord :=
  {| date := d; rank := FNaN; release := Some t; movie_url := u;
     daily_gross := of_Z g; yd_change_pct := FNaN; lw_change_pct := FNaN;
     theaters := of_Z th; per_theater_avg := FNaN; to_date_gross := FNaN;
     days_in_release := FNaN; distributor := None |}.

(** 5 January 2024, a Friday. *)
Definition day0 : Z := Calendar.ordinal 2024 1 5.

(** The scenario of two listing pages, for the release day and three
    days later. *)
Definition test_movie : Movie :=
  {| tmdb_id := 1; title := U "Test Movie"; release_date := Some day0;
     bom_url := Some (U "https://www.boxofficemojo.com/release/rl1/") |}.

Definition two_pages : list DailyRecord :=
  [listing day0 (U "Test Movie") None 2000 1000000;
   listing (day0 + 3) (U "Test Movie") None 2500 800000].

(** The release day and the same weekday one week later. *)
Definition week_apart : list DailyRecord :=
  [listing day0 (U "Test Movie") None 2000 1000000;
   listing (day0 + 7) (U "Test Movie") None 2500 800000].

(** A title longer than twenty characters, and a listing of another film
    of the same series. *)
Definition long_title_movie : Movie :=
  {| tmdb_id := 2;
     title := U "Mission: Impossible - Dead Reckoning Part One";
     release_date := Some day0;
     bom_url := Some (U "https://www.boxofficemojo.com/release/rl2/") |}.

Definition other_film : DailyRecord :=
  listing day0 (U "Mission: Impossible - Fallout") None 4000 20000000.

(** A film listed under a longer title than the main dataset has, with
    the URL the main dataset knows. *)
Definition star_wars_url : pystr :=
  U "https://www.boxofficemojo.com/release/rl3/".

Definition star_wars : Movie :=
  {| tmdb_id := 3; title := U "Star Wars: The Force Awakens";
     release_date := Some day0; bom_url := Some star_wars_url |}.

Definition star_wars_listing : DailyRecord :=
  listing day0 (U "Star Wars: Episode VII - The Force Awakens")
    (Some star_wars_url) 4134 57000000.

(** A listing page with a header row and one film. *)
Definition cell_of (t : string) : td := {| td_text := U t; td_anchor := None |}.

Definition one_film_page : list (list td) :=
  [[cell_of "Rank"];
   [cell_of "1"; cell_of "1";
    {| td_text := U "Test Movie";
       td_anchor := Some (Some (U "/release/rl1/")) |};
    cell_of "$1,000,000"; cell_of "-"; cell_of "-"; cell_of "2,000";
    cell_of "$500"; cell_of "$1,000,000"; cell_of "1"; cell_of "Studio"]].

(** A site that serves that page for every date. *)
Definition steady_site (d : Z) : http_outcome :=
  Response 200 (Some one_film_page).

(** The matched records in date order, or [None] when there are none. *)
Definition sorted_if_any (l : list DailyRecord) : option (list DailyRecord) :=
  match l with
  | [] => None
  | _ :: _ => Some (sort_values_date l)
  end.

(** The last day of the first week and the day after it. *)
Definition day6_listing : DailyRecord :=
  listing (day0 + 6) (U "Test Movie") None 2400 700000.

Definition day7_listing : DailyRecord :=
  listing (day0 + 7) (U "Test Movie") None 2500 800000.

Definition week_edge : list DailyRecord := [day6_listing; day7_listing].

(** A later release of the same film, under the same title and another
    URL. *)
Definition rerelease_listing : DailyRecord :=
  listing day0 (U "Star Wars: The Force Awakens")
    (Some (U "https://www.boxofficemojo.com/release/rl9/")) 300 100000.

(** ** Notions used to state the run properties *)

(** The last day of the calendar, 31 December 9999.  Python's [datetime]
    holds the days from 1 January of year 1 (day 1) to this one; building
    a date outside them raises [ValueError], and stepping past the last
    day raises [OverflowError].  The date generators and the date-range
    loop are embedded on the days that raise neither: the years 1 to 9998
    and the ranges that end before the last day. *)
Definition last_day : Z := Calendar.ordinal 9999 12 31.

(** The dates a strategy selects, when it is a known strategy. *)
Definition selected_dates (year : Z) (strategy : pystr) : option (list Z) :=
  if bool_decide (strategy = U "smart")
  then Some (YearBatchRun._generate_smart_dates year)
  else if bool_decide (strategy = U "weekly")
  then Some (YearBatchRun._generate_weekly_dates year)
  else if bool_decide (strategy = U "biweekly")
  then Some (YearBatchRun._generate_biweekly_dates year)
  else None.

(** What the year-batch scraper yields for a date on a given site. *)
Definition scraped (web : Z -> http_outcome) (d : Z)
  : option (list DailyRecord) :=
  match YearBatchScraper.scrape_daily_data (web d) d with
  | Return v => v
  | Raise _ => None
  end.

(** One request and one pause per date. *)
Definition page_events (dates : list Z) : list event :=
  flat_map (fun d => [EvGet d; EvSleep 2]) dates.

Definition is_write (e : event) : bool :=
  match e with
  | EvToCsv _ _ => true
  | _ => false
  end.

(** The ways a page gives no data: no response, an error status, no
    table, no row of nine cells after the header, or a title link
    without [href]. *)
Definition no_data_page (page : http_outcome) : Prop :=
  page = NoResponse
  \/ (exists status_code table,
        page = Response status_code table /\ 400 <= status_code < 600)
  \/ (exists status_code, page = Response status_code None)
  \/ (exists status_code trs,
        page = Response status_code (Some trs)
        /\ Forall (fun tr : list td => (length tr < 9)%nat) (tail trs))
  \/ (exists status_code trs tr c,
        page = Response status_code (Some trs)
        /\ In tr (tail trs) /\ (9 <= length tr)%nat
        /\ tr !! 2%nat = Some c /\ td_anchor c = Some None).

(** The trace of a biweekly collection of 2024 on the steady site. *)
Definition biweekly_trace : list event :=
  (execute (YearBatchRun.collect_year_batch steady_site 2024 (U "biweekly"))).1.


(** A main dataset of three movies, and newly scraped rows for two of
    them. *)
Definition sample_main : frame :=
  list_to_map
    [("title", [VStr (U "A"); VStr (U "B"); VStr (U "C")]);
     ("first_week_gross",
        [VFloat (of_Z 100); Merge.NaN; VFloat (of_Z 300)]);
     ("opening_gross", [VFloat (of_Z 10); VFloat (of_Z 20); Merge.NaN])].

Definition sample_scraped : frame :=
  list_to_map
    [("title", [VStr (U "A"); VStr (U "B")]);
     ("first_week_gross", [Merge.NaN; VFloat (of_Z 250)]);
     ("opening_gross", [VFloat (of_Z 11); Merge.NaN]);
     ("opening_theaters", [VFloat (of_Z 1000); VFloat (of_Z 2000)]);
     ("first_week_days_tracked", [VInt 7; VInt 5]);
     ("peak_theaters_week1", [VFloat (of_Z 1500); VFloat (of_Z 2500)])].

Definition sample_updated : frame :=
  match Merge.update_dataset sample_main sample_scraped Merge.scraped_columns with
  | Return out => out
  | Raise _ => ∅
  end.

(** ** Notions used to state further properties of the parsers *)

(** A count as the listing prints it: digits and comma separators, with
    at least one digit. *)
Definition is_count_string (s : pystr) : bool :=
  forallb (fun d => is_digit d || (d =? 44)%N) s && existsb is_digit s.

(** [f"{n:,}"] for a natural number (the record counts the scripts
    print): its digits, grouped by thousands. *)
Definition format_count (n : Z) : pystr :=
  group_thousands (decimal_digits n).

(** What [_parse_int] hands to [int]. *)
Definition int_text (s : pystr) : pystr := replace1 44 [] (strip s).

(** The number of digits of a count. *)
Definition digit_count (s : pystr) : Z :=
  Z.of_nat (length (List.filter is_digit s)).

(** ** Notions used to state further properties of the scraper *)

(** A table row the scraper turns into a record. *)
Definition usable_row (tr : list td) : bool := (9 <=? length tr)%nat.

(** A record without its distributor column. *)
Definition without_distributor (r : DailyRecord) : DailyRecord :=
  {| date := date r; rank := rank r; release := release r;
     movie_url := movie_url r; daily_gross := daily_gross r;
     yd_change_pct := yd_change_pct r; lw_change_pct := lw_change_pct r;
     theaters := theaters r; per_theater_avg := per_theater_avg r;
     to_date_gross := to_date_gross r; days_in_release := days_in_release r;
     distributor := None |}.

(** What a well-formed record of the listing for [date_str] looks like:
    it carries that date, a title, and no URL or an absolute one. *)
Definition listed_on (date_str : Z) (r : DailyRecord) : Prop :=
  date r = date_str
  /\ (exists t, release r = Some t)
  /\ (movie_url r = None
      \/ exists c h, movie_url r
                     = Some (YearBatchCollector.base_url ++ c :: h)).

(** The records of the one-film page. *)
Definition one_film_rows : list DailyRecord :=
  match YearBatchScraper.scrape_daily_data (steady_site day0) day0 with
  | Return (Some rows) => rows
  | _ => []
  end.

(** ** Notions used to state properties of the date strategies *)

(** The fixed dates the smart strategy adds to the Fridays. *)
Definition holiday_dates (year : Z) : list Z :=
  [Calendar.ordinal year 1 1; Calendar.ordinal year 2 14;
   Calendar.ordinal year 3 29; Calendar.ordinal year 5 24;
   Calendar.ordinal year 7 4; Calendar.ordinal year 11 28;
   Calendar.ordinal year 12 25].

(** A Friday of the year. *)
Definition friday_of (year : Z) (d : Z) : Prop :=
  Calendar.ordinal year 1 1 <= d <= Calendar.ordinal year 12 31
  /\ Calendar.weekday d = 4.

(** The batch of that biweekly collection, and a movie released on
    2 January 2024, the day after the first sampled date. *)
Definition biweekly_batch : list DailyRecord :=
  match (execute
           (YearBatchRun.collect_year_batch steady_site 2024 (U "biweekly"))).2
  with
  | Return (Some batch) => batch
  | _ => []
  end.

Definition jan2_movie : Movie :=
  {| tmdb_id := 4; title := U "Test Movie";
     release_date := Some (Calendar.ordinal 2024 1 1 + 14 * 0 + 1);
     bom_url := Some (U "https://www.boxofficemojo.com/release/rl1/") |}.

(** What the date-range scraper yields for a date on a given site. *)
Definition bom_scraped (web : Z -> http_outcome) (d : Z)
  : option (list DailyRecord) :=
  match BOMDailyScraper.scrape_daily_data (web d) d with
  | Return v => v
  | Raise _ => None
  end.

(** The number of days [scrape_date_range] requests: all the days from
    the start date to the end date, or the first [max_days] of them when
    [max_days] is a number other than zero. *)
Definition range_days (start_date end_date : Z) (max_days : option Z) : Z :=
  let total := Z.max 0 (end_date - start_date + 1) in
  match max_days with
  | Some k => if k =? 0 then total else Z.min total (Z.max 0 k)
  | None => total
  end.

(** New rows that list the title "A" twice, a main dataset with a column
    the update does not name, and the results of the two updates. *)
Definition sample_twice : frame :=
  list_to_map
    [("title", [VStr (U "A"); VStr (U "A")]);
     ("first_week_gross", [VFloat (of_Z 110); VFloat (of_Z 120)]);
     ("opening_gross", [Merge.NaN; Merge.NaN]);
     ("opening_theaters", [Merge.NaN; Merge.NaN]);
     ("first_week_days_tracked", [VInt 7; VInt 6]);
     ("peak_theaters_week1", [Merge.NaN; Merge.NaN])].

Definition sample_doubled : frame :=
  match Merge.update_dataset sample_main sample_twice Merge.scraped_columns with
  | Return out => out
  | Raise _ => ∅
  end.

Definition sample_main_budget : frame :=
  <["budget" := [VInt 1; VInt 2; VInt 3]]> sample_main.

Definition sample_updated_budget : frame :=
  match Merge.update_dataset sample_main_budget sample_scraped
          Merge.scraped_columns with
  | Return out => out
  | Raise _ => ∅
  end.

(** ** One movie's daily page ([scrape_individual_movies.py])

    As for the listing pages, [requests] and [BeautifulSoup] are not
    modelled: the scraper is given the reply and the rows of the table it
    finds.  A [td] is given by the strings it holds, in document order.
    [datetime.strptime(date_str, "%b %d, %Y")] is a parameter: it returns
    the day (as an ordinal) or raises. *)

Module IndividualMovieScraper.

Definition base_url : pystr := U "https://www.boxofficemojo.com".

(** The code points [str.isdigit] accepts besides the decimal digits
    (Unicode 14): superscript, subscript, circled and other digits. *)
Definition digit_runs : list (N * N) :=
  [(178, 179); (185, 185); (4969, 4977); (6618, 6618); (8304, 8304);
   (8308, 8313); (8320, 8329); (9312, 9320); (9332, 9340); (9352, 9360);
   (9450, 9450); (9461, 9469); (9471, 9471); (10102, 10110);
   (10112, 10120); (10122, 10130); (68160, 68163); (69216, 69224);
   (69714, 69722); (127232, 127242)]%N.

Definition isdigit_char (c : N) : bool :=
  match todecimal c with
  | Some _ => true
  | None =>
      existsb (fun r : N * N => (r.1 <=? c)%N && (c <=? r.2)%N) digit_runs
  end.

(** [s.isdigit()] *)
Definition isdigit (s : pystr) : bool :=
  match s with
  | [] => false
  | _ => forallb isdigit_char s
  end.

Abbreviation tdcell := (list pystr).

(** [col.get_text(strip=True)]: the strings, each one stripped, the empty
    ones left out, joined. *)
Definition get_text (c : tdcell) : pystr :=
  concat (List.filter (fun s => negb (bool_decide (s = []))) (strip <$> c)).

(** The outcome of [requests.get]: an exception, or a reply with its
    status code and the [<tr>] rows (each a list of [<td>]) of the
    summary table of the page, if the page has one. *)
Inductive movie_page :=
| NoReply
| Reply (status_code : Z) (table : option (list (list tdcell))).

(** A Python number: [0] is an [int], what [float] returns a [float]. *)
Inductive pynum :=
| NInt (n : Z)
| NFloat (x : pyfloat).

Definition num_val (v : pynum) : pyval :=
  match v with
  | NInt n => VInt n
  | NFloat x => VFloat x
  end.

Definition num_float (v : pynum) : pyfloat :=
  match v with
  | NInt n => of_Z n
  | NFloat x => x
  end.

(** [a + b] *)
Definition num_add (a b : pynum) : pynum :=
  match a, b with
  | NInt m, NInt n => NInt (m + n)
  | _, _ => NFloat (fadd (num_float a) (num_float b))
  end.

(** [sum(xs)]: from the integer [0], left to right. *)
Definition py_sum (xs : list pynum) : pynum := fold_left num_add xs (NInt 0).

(** One entry of [daily_data]. *)
Record Entry := {
  date : Z;
  gross : pynum;
  theaters : option Z
}.

Section WithStrptime.
Variable strptime : pystr -> result Z.

(** Lines 78-83: the first cell that is all digits (commas apart) and
    above 100. *)
Fixpoint find_theaters (texts : list pystr) : result (option Z) :=
  match texts with
  | [] => Return None
  | text :: more =>
      let t := replace1 44 [] text in
      if isdigit t then
        n ← py_int t;
        if 100 <? n then Some <$> py_int t else find_theaters more
      else find_theaters more
  end.

(** Line 75 *)
Definition parse_gross (gross_str : pystr) : result pynum :=
  if negb (bool_decide (gross_str = []))
     && negb (bool_decide (gross_str = U "-"))
  then NFloat <$> py_float (replace1 44 [] (replace1 36 [] gross_str))
  else Return (NInt 0).

(** Lines 59-89, the body of the [try]: the entry of a row, or [None]
    where the loop does [continue]. *)
Definition row_entry (cols : list tdcell) : result (option Entry) :=
  match cols with
  | c0 :: _ :: _ :: c3 :: _ =>
      let date_str := get_text c0 in
      if contains (U ",") date_str then
        date_obj ← strptime date_str;
        g ← parse_gross (get_text c3);
        th ← find_theaters (get_text <$> cols);
        Return (Some {| date := date_obj; gross := g; theaters := th |})
      else Return None
  | _ => Return None
  end.

(** Lines 55-92: an exception in a row skips the row. *)
Definition table_entries (rows : list (list tdcell)) : list Entry :=
  omap (fun row => try_except (row_entry row) None) (tail rows).

(** [0 <= (entry['date'] - release_dt).days <= 6]; a missing release
    date compares false. *)
Definition in_first_week (release_date : option Z) (entry : Entry) : bool :=
  match release_date with
  | Some release_dt =>
      let days_since := date entry - release_dt in
      (0 <=? days_since) && (days_since <=? 6)
  | None => false
  end.

Definition opt_int (v : option Z) : pyval :=
  match v with
  | Some n => VInt n
  | None => VNone
  end.

(** [max((d['theaters'] for d in ... if d['theaters']), default=None)] *)
Definition peak_theaters (first_week_data : list Entry) : pyval :=
  match omap (fun d => match theaters d with
                       | Some n => if n =? 0 then None else Some n
                       | None => None
                       end) first_week_data with
  | [] => VNone
  | t :: ts => VInt (fold_left Z.max ts t)
  end.

(** Lines 110-119 *)
Definition summary (first_week_data : list Entry) : features :=
  list_to_map
    [("first_week_gross", num_val (py_sum (gross <$> first_week_data)));
     ("opening_gross",
        match first_week_data with
        | d :: _ => num_val (gross d)
        | [] => VNone
        end);
     ("opening_theaters",
        match first_week_data with
        | d :: _ => opt_int (theaters d)
        | [] => VNone
        end);
     ("first_week_days_tracked", VInt (Z.of_nat (length first_week_data)));
     ("peak_theaters_week1", peak_theaters first_week_data)].

(** What [scrape_movie_daily_data] returns for a reply and a release
    date. *)
Definition scrape_movie_daily_data (page : movie_page)
    (release_date : option Z) : option features :=
  match page with
  | NoReply => None
  | Reply status_code table =>
      if negb (status_code =? 200) then None
      else
        match table with
        | None => None
        | Some rows =>
            match table_entries rows with
            | [] => None
            | daily_data =>
                match List.filter (in_first_week release_date) daily_data with
                | [] => None
                | first_week_data => Some (summary first_week_data)
                end
            end
        end
  end.

End WithStrptime.

End IndividualMovieScraper.

(** A stand-in for [strptime] that knows two dates, and a daily page of
    a movie released on 5 January 2024: the release day with its gross
    and theater count, the next day with no gross reported, and a day
    two weeks later. *)
Definition sample_strptime (s : pystr) : result Z :=
  if bool_decide (s = U "Jan 5, 2024") then Return day0
  else if bool_decide (s = U "Jan 6, 2024") then Return (day0 + 1)
  else if bool_decide (s = U "Jan 19, 2024") then Return (day0 + 14)
  else Raise ValueError.

Definition sample_movie_page : IndividualMovieScraper.movie_page :=
  IndividualMovieScraper.Reply 200
    (Some [[[U "Date"]; [U "DOW"]; [U "Rank"]; [U "Daily"]; [U "Theaters"]];
           [[U "Jan 5, 2024"]; [U "Friday"]; [U "1"]; [U "$1,000,000"];
            [U "2,000"]];
           [[U "Jan 6, 2024"]; [U "Saturday"]; [U "2"]; [U "-"]; [U "90"]];
           [[U "Jan 19, 2024"]; [U "Friday"]; [U "5"]; [U "$200,000"];
            [U "1,500"]]]).

(** What the scraper returns for that page. *)
Definition sample_week : features :=
  default ∅
    (IndividualMovieScraper.scrape_movie_daily_data sample_strptime
       sample_movie_page (Some day0)).

(** ** The batch of individual scrapes ([scrape_movies_batch]) *)

Module IndividualMovieRun.
Import IndividualMovieScraper.

(** The text before and the text after the first occurrence of a
    non-empty [sep] in [s], if there is one. *)
Fixpoint partition (sep s : pystr) {struct s} : option (pystr * pystr) :=
  if startswith sep s then Some ([], drop (length sep) s)
  else match s with
       | [] => None
       | c :: t => (fun p : pystr * pystr => (c :: p.1, p.2)) <$> partition sep t
       end.

(** [s.split(sep)[0]] *)
Definition split_0 (sep s : pystr) : pystr :=
  match partition sep s with
  | Some (before, _) => before
  | None => s
  end.

(** [s.strip(c)] for a one-character [c] *)
Fixpoint lstrip_char (c : N) (s : pystr) : pystr :=
  match s with
  | x :: t => if (x =? c)%N then lstrip_char c t else s
  | [] => []
  end.

Definition strip_char (c : N) (s : pystr) : pystr :=
  rev (lstrip_char c (rev (lstrip_char c s))).

(** [s.replace(old, new)] for a non-empty [old]: the occurrences are
    taken from the left and do not overlap.  [skip] counts the characters
    of an occurrence still to pass over. *)
Fixpoint replace_from (old new : pystr) (skip : nat) (s : pystr) : pystr :=
  match s with
  | [] => []
  | c :: t =>
      match skip with
      | S k => replace_from old new k t
      | O =>
          if startswith old s
          then new ++ replace_from old new (length old - 1) t
          else c :: replace_from old new 0 t
      end
  end.

Definition replace (old new s : pystr) : pystr := replace_from old new 0 s.

(** Lines 32-37: the address of the daily page. *)
Definition daily_url (bom_url : pystr) : pystr :=
  match partition (U "/title/") bom_url with
  | Some (_, rest) =>
      (* bom_url.split('/title/')[1].split('?')[0].strip('/') *)
      let title_id :=
        strip_char 47 (split_0 (U "?") (split_0 (U "/title/") rest)) in
      base_url ++ U "/title/" ++ title_id ++ U "/daily/"
  | None => replace (U ".htm") (U "-daily.htm") bom_url
  end.

(** What a batch does to the outside world. *)
Inductive batch_event :=
| EvRequest (url : pystr)
| EvPause (seconds : Q)
| EvSave (path : pystr) (rows : list features).

(** A row of the main dataset, as far as the batch reads it. *)
Record DatasetRow := {
  movie : Movie;
  first_week_gross : pyfloat;
  budget : pyfloat;
  youtube_views : pyfloat
}.

Section WithStrptime.
Variable strptime : pystr -> result Z.
Variable web : pystr -> movie_page.

(** [scrape_movie_daily_data(bom_url, release_date)]: the request it
    makes and what it returns.  With a NaN for the URL the [in] test
    raises a [TypeError], which the function catches. *)
Definition scrape_movie_daily_data (bom_url : option pystr)
    (release_date : option Z) : list batch_event * option features :=
  match bom_url with
  | Some url =>
      ([EvRequest (daily_url url)],
       IndividualMovieScraper.scrape_movie_daily_data strptime
         (web (daily_url url)) release_date)
  | None => ([], None)
  end.

(** Lines 131-135 *)
Definition to_scrape (row : DatasetRow) : bool :=
  (bool_decide (is_Some (bom_url (movie row)))
   && negb (Series.notna (first_week_gross row)))
  && (Series.notna (budget row) && flt (FFinite 0) (budget row))
  && (Series.notna (youtube_views row)
      && flt (FFinite 0) (youtube_views row)).

(** [df.iloc[start:]] and [df.head(n)] *)
Definition iloc_from {A} (start : Z) (l : list A) : list A :=
  if start <? 0 then drop (Z.to_nat (Z.of_nat (length l) + start)) l
  else drop (Z.to_nat start) l.

Definition head_n {A} (n : Z) (l : list A) : list A :=
  if n <? 0 then take (Z.to_nat (Z.of_nat (length l) + n)) l
  else take (Z.to_nat n) l.

(** Lines 136-139 *)
Definition movies_to_scrape (df : list DatasetRow) (start_idx : Z)
    (max_movies : option Z) : list DatasetRow :=
  let selected := iloc_from start_idx (List.filter to_scrape df) in
  match max_movies with
  | Some n => if n =? 0 then selected else head_n n selected
  | None => selected
  end.

(** Lines 163-168: the row a movie adds to [results], if any. *)
Definition result_row (row : DatasetRow) (first_week_data : option features)
  : option features :=
  match first_week_data with
  | Some d =>
      if bool_decide (d = ∅) then None
      else Some (d ∪ list_to_map
                       [("tmdb_id", VInt (tmdb_id (movie row)));
                        ("title", VStr (title (movie row)))])
  | None => None
  end.

Definition progress_file (progress_idx : Z) : pystr :=
  U "data/processed/individual_scrape_progress_"
  ++ str_of_int progress_idx ++ U ".csv".

(** Lines 155-193: the loop, from the movie numbered [idx]. *)
Fixpoint batch_loop (start_idx idx : Z) (movies : list DatasetRow)
    (results : list features) : list batch_event * list features :=
  match movies with
  | [] => ([], results)
  | row :: more =>
      let scraped := scrape_movie_daily_data (bom_url (movie row))
                       (release_date (movie row)) in
      let results :=
        match result_row row scraped.2 with
        | Some r => results ++ [r]
        | None => results
        end in
      let save :=
        if (idx mod 50 =? 0) && negb (bool_decide (results = []))
        then [EvSave (progress_file (start_idx + idx)) results]
        else [] in
      let rest := batch_loop start_idx (idx + 1) more results in
      (scraped.1 ++ [EvPause (5 # 2)] ++ save ++ rest.1, rest.2)
  end.

(** The outcome of the batch: what it returns, or the
    [ZeroDivisionError] of the final summary (line 203) when there was
    no movie to scrape. *)
Inductive batch_outcome :=
| Returned (df : option (list features))
| ZeroDivisionError.

Definition scrape_movies_batch (df : list DatasetRow) (start_idx : Z)
    (batch_size : Z) (max_movies : option Z)
  : list batch_event * batch_outcome :=
  let movies := movies_to_scrape df start_idx max_movies in
  let run := batch_loop start_idx 1 movies [] in
  (run.1,
   match movies with
   | [] => ZeroDivisionError
   | _ =>
       Returned match run.2 with
                | [] => None
                | results => Some results
                end
   end).

(** The row a movie of the batch yields, if its scrape succeeds. *)
Definition batch_row (row : DatasetRow) : option features :=
  result_row row
    (scrape_movie_daily_data (bom_url (movie row))
       (release_date (movie row))).2.

End WithStrptime.

End IndividualMovieRun.

(** The events of a batch that write a file. *)
Definition is_save (e : IndividualMovieRun.batch_event) : bool :=
  match e with
  | IndividualMovieRun.EvSave _ _ => true
  | _ => false
  end.

(** A dataset of one movie that still lacks its first-week gross, served
    the sample daily page. *)
Definition sample_dataset : list IndividualMovieRun.DatasetRow :=
  [{| IndividualMovieRun.movie := test_movie;
      IndividualMovieRun.first_week_gross := FNaN;
      IndividualMovieRun.budget := of_Z 1000000;
      IndividualMovieRun.youtube_views := of_Z 5000 |}].

Definition sample_movie_site (url : pystr) : IndividualMovieScraper.movie_page :=
  sample_movie_page.

(** ** All the years ([collect_all_years.py])

    The main dataset is read from its file twice; it is given here as
    [pd.read_csv] returns it, once seen as the rows the aggregation walks
    through and once as the table the merge works on. *)

Module AllYears.
Section WithCaseMapping.
Context `{CaseMapping}.

(** What the script does to the outside world: the events of the yearly
    collections, and the two tables it writes at the end. *)
Inductive step :=
| Batch (e : event)
| FeaturesToCsv (path : pystr) (rows : list features)
| DatasetToCsv (path : pystr) (df : frame).

(** The three shapes of the value returned. *)
Inductive returned :=
| RNone
| RCombined (combined_df : list DailyRecord)
| RBoth (combined_df : list DailyRecord) (features_df : list features).

(** Lines 50-66: one year.  A year without data adds nothing, and an
    exception skips the year. *)
Definition year_step (web : Z -> http_outcome) (strategy : pystr)
    (all_batch_data : list (list DailyRecord)) (year : Z)
  : run (list (list DailyRecord)) :=
  fun tr =>
    match YearBatchRun.collect_year_batch web year strategy tr with
    | (tr', Return (Some (r :: batch_df))) =>
        (tr', Return (all_batch_data ++ [r :: batch_df]))
    | (tr', _) => (tr', Return all_batch_data)
    end.

(** [pd.DataFrame(results)]: one column for every key, a missing value
    is NaN. *)
Definition to_frame (rows : list features) : frame :=
  let keys := elements (⋃ (dom <$> rows) : gset string) in
  list_to_map
    ((fun k => (k, (fun d : features => default Merge.NaN (d !! k)) <$> rows))
       <$> keys).

Definition collect_all_years (web : Z -> http_outcome)
    (movies : list Movie) (main : frame)
    (strategy : pystr) (start_year end_year : Z)
  : list step * result returned :=
  let years := seqZ start_year (end_year + 1 - start_year) in
  match for_each (year_step web strategy) years [] [] with
  | (tr, Raise e) => (Batch <$> tr, Raise e)
  | (tr, Return []) => (Batch <$> tr, Return RNone)
  | (tr, Return all_batch_data) =>
      let combined_df := concat all_batch_data in
      let tr :=
        Batch <$> (tr ++ [EvToCsv (U "data/processed/bom_all_years_batch.csv")
                            combined_df]) in
      match MovieFeatures.aggregate_movie_features combined_df movies with
      | [] => (tr, Return (RCombined combined_df))
      | features_df =>
          let tr :=
            tr ++ [FeaturesToCsv
                     (U "data/processed/first_week_features_all_years.csv")
                     features_df] in
          match Merge.update_dataset main (to_frame features_df)
                  Merge.first_week_columns with
          | Return movies_df =>
              (tr ++ [DatasetToCsv (U "data/raw/movies_with_youtube.csv")
                        movies_df],
               Return (RBoth combined_df features_df))
          | Raise e => (tr, Raise e)
          end
      end
  end.

End WithCaseMapping.
End AllYears.

(** The events of a year's collection, and the batch it adds to the
    collection of all the years: what [collect_year_batch] returns, when
    it returns a table that is not empty. *)
Definition year_events (web : Z -> http_outcome) (strategy : pystr)
    (year : Z) : list event :=
  (execute (YearBatchRun.collect_year_batch web year strategy)).1.

Definition year_batch (web : Z -> http_outcome) (strategy : pystr)
    (year : Z) : option (list DailyRecord) :=
  match (execute (YearBatchRun.collect_year_batch web year strategy)).2 with
  | Return (Some (r :: batch_df)) => Some (r :: batch_df)
  | _ => None
  end.

Definition is_batch (s : AllYears.step) : bool :=
  match s with
  | AllYears.Batch _ => true
  | _ => false
  end.

(** ** Enriching the dataset ([enrich_dataset_with_daily_data])

    The dataset is given as [pd.read_csv] returns it: its rows, in
    order, with the index labels 0, 1, ... and the names of its
    columns. *)

Module Enrich.
Section WithCaseMapping.
Context `{CaseMapping}.

(** What the function does to the outside world: the events of the
    date-range collection, and the enriched table it writes, every row of
    the dataset with the features joined to it, if any. *)
Inductive step :=
| Daily (e : event)
| EnrichedToCsv (path : pystr) (rows : list (Movie * option features)).

(** Lines 313-324: the loop over the movies with a URL.  The features
    of a movie are kept with the index label of its row, which
    [features['index'] = idx] and [set_index('index')] make the label of
    their row in [features_df]. *)
Fixpoint enrich_loop (daily_data : list DailyRecord)
    (movies_with_bom : list (nat * Movie))
    (enriched_features : list (nat * features))
  : result (list (nat * features)) :=
  match movies_with_bom with
  | [] => Return enriched_features
  | (idx, row) :: more =>
      f ← DailyFeatures.aggregate_daily_features daily_data (title row)
            (match bom_url row with
             | Some s => UrlStr s
             | None => UrlNaN
             end);
      enrich_loop daily_data more
        (match f with
         | Some d =>
             if bool_decide (d = ∅) then enriched_features
             else enriched_features ++ [(idx, d)]
         | None => enriched_features
         end)
  end.

(** [df[df['bom_url'].notna()]], then [head(sample_size)] when a sample
    size is given. *)
Definition movies_with_bom (df : list Movie) (sample_size : option Z)
  : list (nat * Movie) :=
  let selected :=
    List.filter (fun p : nat * Movie => bool_decide (is_Some (bom_url p.2)))
      (zip (seq 0 (length df)) df) in
  match sample_size with
  | Some n => if n =? 0 then selected else IndividualMovieRun.head_n n selected
  | None => selected
  end.

(** The columns of [features_df]: the keys of the dicts. *)
Definition feature_columns (enriched_features : list (nat * features))
  : gset string :=
  ⋃ ((fun p : nat * features => dom p.2) <$> enriched_features).

(** [df.join(features_df, how='left')]: every row of the dataset, with
    the features of its index label. *)
Definition join (df : list Movie) (enriched_features : list (nat * features))
  : list (Movie * option features) :=
  (fun p : nat * Movie =>
     (p.2,
      snd <$> head (List.filter (fun e : nat * features => (e.1 =? p.1)%nat)
                      enriched_features)))
    <$> zip (seq 0 (length df)) df.

Definition enrich_dataset_with_daily_data (web : Z -> http_outcome)
    (df : list Movie) (columns : list string)
    (input_file : pystr) (output_file : option pystr)
    (start_date end_date : Z) (sample_size : option Z)
  : list step * result unit :=
  match execute (BOMDailyRun.scrape_date_range web start_date end_date None)
  with
  | (tr, Raise e) => (Daily <$> tr, Raise e)
  | (tr, Return None) | (tr, Return (Some [])) => (Daily <$> tr, Return tt)
  | (tr, Return (Some daily_data)) =>
      let tr :=
        Daily <$> (tr ++ [EvToCsv (U "data/processed/bom_daily_data.csv")
                            daily_data]) in
      match enrich_loop daily_data (movies_with_bom df sample_size) [] with
      | Raise e => (tr, Raise e)
      | Return [] => (tr, Return tt)
      | Return enriched_features =>
          (* join raises when a column of the features is already one of
             the dataset *)
          if existsb (fun c => bool_decide (c ∈ feature_columns
                                                  enriched_features))
               columns
          then (tr, Raise ValueError)
          else
            (tr ++ [EnrichedToCsv (default input_file output_file)
                      (join df enriched_features)],
             Return tt)
      end
  end.

End WithCaseMapping.
End Enrich.

(** The days of a range, and the rows the date-range collection gets
    for them. *)
Definition range_dates (start_date end_date : Z) : list Z :=
  seqZ start_date (range_days start_date end_date None).

Definition range_data (web : Z -> http_outcome) (start_date end_date : Z)
  : list DailyRecord :=
  concat (omap (bom_scraped web) (range_dates start_date end_date)).

(** The features a movie of the dataset gets from the daily data. *)
Definition daily_features_of `{CaseMapping} (daily_data : list DailyRecord)
    (row : Movie) : result (option features) :=
  DailyFeatures.aggregate_daily_features daily_data (title row)
    (match bom_url row with
     | Some s => UrlStr s
     | None => UrlNaN
     end).

(** Two enrichments of a dataset with the test movie from the listing of
    5 January 2024: of a dataset that already has the column
    [daily_days_tracked], as after a first enrichment, and of one that
    has no such column. *)
Definition sample_second_enrichment : list Enrich.step * result unit :=
  Enrich.enrich_dataset_with_daily_data steady_site [test_movie]
    ["title"; "bom_url"; "daily_days_tracked"]
    (U "movies.csv") None day0 day0 None.



(** * Properties *)

(** ** Text lemmas *)

Lemma is_digit_spec c : is_digit c = true <-> (48 <= c <= 57)%N.
Proof.
  unfold is_digit. rewrite andb_true_iff, !N.leb_le. tauto.
Qed.

Lemma digit_not_space c : is_digit c = true -> isspace c = false.
Proof.
  rewrite is_digit_spec. intros H. unfold isspace.
  apply bool_decide_eq_false. rewrite !elem_of_cons, elem_of_nil. lia.
Qed.

Lemma lstrip_head c s : isspace c = false -> lstrip (c :: s) = c :: s.
Proof. intros H. simpl. now rewrite H. Qed.

Lemma strip_no_space s :
  Forall (fun c => isspace c = false) s -> strip s = s.
Proof.
  intros H. unfold strip, rstrip.
  assert (L : forall t, Forall (fun c => isspace c = false) t -> lstrip t = t).
  { intros [|c t] Ht; [reflexivity|]. inversion Ht; subst. now apply lstrip_head. }
  rewrite (L s H), (L (rev s)); [apply rev_involutive|].
  now apply Forall_rev.
Qed.

Lemma money_char_not_space c :
  is_digit c || (c =? 44)%N = true -> isspace c = false.
Proof.
  rewrite orb_true_iff, N.eqb_eq. intros [H | ->]; [|reflexivity].
  now apply digit_not_space.
Qed.

Lemma clean_money_body body :
  forallb (fun d => is_digit d || (d =? 44)%N) body = true ->
  replace1 44 [] (replace1 36 [] body) = List.filter is_digit body.
Proof.
  unfold replace1. induction body as [|c t IH]; [reflexivity|].
  simpl forallb. rewrite andb_true_iff. intros [Hc Ht].
  specialize (IH Ht).
  change (flat_map ?f (c :: t)) with (f c ++ flat_map f t).
  rewrite flat_map_app, IH. simpl List.filter.
  apply orb_true_iff in Hc as [Hd | Hcomma].
  - pose proof (proj1 (is_digit_spec c) Hd) as Hr.
    destruct (c =? 36)%N eqn:E1; [apply N.eqb_eq in E1; lia|].
    simpl. destruct (c =? 44)%N eqn:E2; [apply N.eqb_eq in E2; lia|].
    now rewrite Hd.
  - apply N.eqb_eq in Hcomma. now subst c.
Qed.

Lemma money_text_shape s :
  is_money_string s = true ->
  money_text s = List.filter is_digit s /\ money_text s <> [].
Proof.
  destruct s as [|c body]; [discriminate|]. simpl.
  rewrite !andb_true_iff, N.eqb_eq. intros [[-> Hall] Hex].
  assert (Hs : strip (36%N :: body) = 36%N :: body).
  { apply strip_no_space. constructor; [reflexivity|].
    apply Forall_forall. intros x Hx. apply money_char_not_space.
    rewrite forallb_forall in Hall. apply Hall. now apply list_elem_of_In. }
  assert (E : money_text (36%N :: body) = List.filter is_digit body).
  { unfold money_text. rewrite Hs.
    change (replace1 36 [] (36%N :: body)) with (replace1 36 [] body).
    now apply clean_money_body. }
  split; [exact E|]. rewrite E.
  apply existsb_exists in Hex as (x & Hx & Hd).
  intros Hnil.
  assert (Hin : In x (List.filter is_digit body)) by (apply filter_In; auto).
  now rewrite Hnil in Hin.
Qed.

(** ** [float] on a run of digits *)

Lemma to_ascii_digit c : is_digit c = true -> to_ascii c = c.
Proof.
  rewrite is_digit_spec. intros H. unfold to_ascii.
  destruct (c <? 127)%N eqn:E; [reflexivity|]. apply N.ltb_ge in E. lia.
Qed.

Lemma digit_not_c_space c : is_digit c = true -> c_isspace c = false.
Proof.
  rewrite is_digit_spec. intros H. unfold c_isspace.
  rewrite orb_false_iff, andb_false_iff, N.eqb_neq, !N.leb_gt. lia.
Qed.

Lemma fmap_fixed {A} (f : A -> A) (l : list A) :
  Forall (fun x => f x = x) l -> f <$> l = l.
Proof. induction 1 as [|x l Hx _ IH]; cbn; [reflexivity|]. now rewrite Hx, IH. Qed.

Lemma c_strip_digits ds :
  Forall (fun c => is_digit c = true) ds -> c_strip ds = ds.
Proof.
  intros H. unfold c_strip.
  assert (L : forall t, Forall (fun c => is_digit c = true) t -> c_lstrip t = t).
  { intros [|c t] Ht; [reflexivity|]. inversion Ht; subst. simpl.
    now rewrite digit_not_c_space. }
  rewrite (L ds H), (L (rev ds)); [apply rev_involutive|].
  now apply Forall_rev.
Qed.

Lemma underscores_ok_digits ds : forall prev,
  prev <> 95%N -> Forall (fun c => is_digit c = true) ds ->
  underscores_ok prev ds = true.
Proof.
  induction ds as [|c t IH]; intros prev Hp H; simpl.
  - now apply negb_true_iff, N.eqb_neq.
  - inversion H as [|? ? Hc Ht]; subst.
    pose proof (proj1 (is_digit_spec c) Hc) as Hr.
    destruct (c =? 95)%N eqn:E; [apply N.eqb_eq in E; lia|].
    rewrite Hc, orb_true_r. simpl. apply IH; [lia | assumption].
Qed.

Lemma drop_underscores_digits ds :
  Forall (fun c => is_digit c = true) ds -> drop_underscores ds = ds.
Proof.
  unfold drop_underscores. induction 1 as [|c t Hc _ IH]; simpl; [reflexivity|].
  pose proof (proj1 (is_digit_spec c) Hc) as Hr.
  destruct (c =? 95)%N eqn:E; [apply N.eqb_eq in E; lia|]. simpl. now rewrite IH.
Qed.

Lemma span_digits_all ds :
  Forall (fun c => is_digit c = true) ds ->
  span_digits ds = (digit_val <$> ds, []).
Proof.
  induction 1 as [|c t Hc _ IH]; simpl; [reflexivity|]. now rewrite Hc, IH.
Qed.

Lemma digits_to_Z_snoc ds d :
  digits_to_Z (ds ++ [d]) = 10 * digits_to_Z ds + d.
Proof. unfold digits_to_Z. now rewrite fold_left_app. Qed.

Lemma digit_val_range c : is_digit c = true -> 0 <= digit_val c <= 9.
Proof. rewrite is_digit_spec. unfold digit_val. lia. Qed.

Lemma digits_to_Z_nonneg ds :
  Forall (fun c => is_digit c = true) ds -> 0 <= digits_to_Z (digit_val <$> ds).
Proof.
  intros H. unfold digits_to_Z.
  assert (G : forall acc, 0 <= acc ->
            0 <= fold_left (fun a d => 10 * a + d) (digit_val <$> ds) acc).
  { induction H as [|c t Hc _ IH]; intros acc Hacc; cbn; [assumption|].
    apply IH. pose proof (digit_val_range c Hc). lia. }
  apply G. lia.
Qed.

Lemma py_float_digits ds :
  Forall (fun c => is_digit c = true) ds -> ds <> [] ->
  py_float ds
  = Return (round_double (inject_Z (digits_to_Z (digit_val <$> ds)))).
Proof.
  intros H Hne. unfold py_float.
  rewrite fmap_fixed
    by (eapply Forall_impl; [exact H | intros c; apply to_ascii_digit]).
  rewrite c_strip_digits, underscores_ok_digits, drop_underscores_digits
    by (assumption || discriminate).
  destruct ds as [|c t]; [contradiction|].
  inversion H as [|? ? Hc Ht]; subst.
  pose proof (proj1 (is_digit_spec c) Hc) as Hr.
  unfold parse_signed.
  destruct (c =? 43)%N eqn:E1; [apply N.eqb_eq in E1; lia|].
  destruct (c =? 45)%N eqn:E2; [apply N.eqb_eq in E2; lia|].
  unfold parse_unsigned.
  assert (Hl : lower_ascii <$> (c :: t) = c :: t).
  { apply fmap_fixed. eapply Forall_impl; [exact H|].
    intros x Hx. apply is_digit_spec in Hx. unfold lower_ascii.
    destruct (65 <=? x)%N eqn:E; [apply N.leb_le in E; lia | reflexivity]. }
  rewrite Hl.
  rewrite !bool_decide_eq_false_2.
  2-4: (intros Heq; injection Heq as Heq _; subst c; vm_compute in Hc; discriminate).
  simpl orb. cbv iota.
  unfold parse_decimal. rewrite (span_digits_all _ H).
  rewrite app_nil_r. cbn [fmap list_fmap]. cbn [length parse_exponent mbind option_bind].
  unfold round_double, pow10. simpl.
  now rewrite !Z.mul_1_r.
Qed.

(** ** Integers up to [2 ^ 53] are binary64 values *)

Lemma round_half_even_1 x : round_half_even x 1 = x.
Proof.
  unfold round_half_even. now rewrite Z.mod_1_r, Z.div_1_r.
Qed.

Lemma scaled_integer (p j : Z) :
  0 <= j ->
  (inject_Z (p * 2 ^ j) * (1 # Z.to_pos (2 ^ j)) == inject_Z p)%Q.
Proof.
  intros Hj. unfold Qeq, inject_Z, Qmult. simpl.
  rewrite Pos.mul_1_l, Z2Pos.id by (apply Z.pow_pos_nonneg; lia). lia.
Qed.

Lemma round_double_small (n : Z) :
  0 <= n < 2 ^ 53 -> round_double (inject_Z n) = FFinite (inject_Z n).
Proof.
  intros [H0 H53]. destruct n as [|p|p]; [reflexivity | idtac | lia].
  unfold round_double. cbn [Qnum Qden inject_Z].
  assert (HL : 0 <= Z.log2 (Z.pos p) < 53).
  { split; [apply Z.log2_nonneg|]. apply Z.log2_lt_pow2; lia. }
  assert (Hspec : 2 ^ Z.log2 (Z.pos p) <= Z.pos p).
  { apply Z.log2_spec. lia. }
  unfold round_pos, ilog2_ratio.
  change (Z.log2 1) with 0. rewrite Z.sub_0_r.
  destruct (Z.leb_spec 0 (Z.log2 (Z.pos p))) as [_|]; [|lia].
  destruct (Z.leb_spec (1 * 2 ^ Z.log2 (Z.pos p)) (Z.pos p)) as [_|]; [|lia].
  set (L := Z.log2 (Z.pos p)) in *.
  rewrite Z.max_l by lia.
  destruct (Z.ltb_spec 971 (L - 52)) as [|_]; [lia|].
  destruct (Z.eqb_spec (L - 52) 971) as [|_]; [lia|].
  simpl orb. cbv iota.
  f_equal. rewrite <- (inject_Z_Qred (Z.pos p)). apply Qred_complete.
  destruct (Z.leb_spec 0 (L - 52)) as [Hk|Hk].
  - assert (L = 52) as -> by lia. change (52 - 52) with 0.
    change (1 * 2 ^ 0) with 1. rewrite round_half_even_1.
    unfold pow2. simpl. unfold Qeq. simpl. lia.
  - rewrite round_half_even_1. unfold pow2.
    destruct (Z.leb_spec 0 (L - 52)) as [|_]; [lia|].
    apply scaled_integer. lia.
Qed.

Lemma round_double_int (n : Z) :
  0 <= n <= 2 ^ 53 -> round_double (inject_Z n) = FFinite (inject_Z n).
Proof.
  intros H. destruct (Z.eq_dec n (2 ^ 53)) as [->|Hne].
  - vm_compute. reflexivity.
  - apply round_double_small. lia.
Qed.

(** ** Printing an integer and reading it back *)

Lemma filter_digits_all s : Forall (fun c => is_digit c = true) (List.filter is_digit s).
Proof.
  apply Forall_forall. intros x Hx. apply list_elem_of_In, filter_In in Hx. tauto.
Qed.

Lemma digit_char_ok n : 0 <= n -> is_digit (48 + Z.to_N (n mod 10)) = true
                                 /\ digit_val (48 + Z.to_N (n mod 10)) = n mod 10.
Proof.
  intros Hn. pose proof (Z.mod_pos_bound n 10 ltac:(lia)) as Hm.
  rewrite is_digit_spec. unfold digit_val. lia.
Qed.

Lemma digits_fuel_acc f : forall n acc,
  digits_fuel f n acc = digits_fuel f n [] ++ acc.
Proof.
  induction f as [|f IH]; intros n acc; simpl; [reflexivity|].
  destruct (n <? 10); [reflexivity|].
  rewrite (IH _ (_ :: acc)), (IH _ [_]), <- app_assoc. reflexivity.
Qed.

Lemma digits_fuel_digits f : forall n,
  0 <= n -> Forall (fun c => is_digit c = true) (digits_fuel f n []).
Proof.
  induction f as [|f IH]; intros n Hn; simpl; [constructor|].
  destruct (n <? 10).
  - constructor; [apply digit_char_ok; lia | constructor].
  - rewrite digits_fuel_acc. apply Forall_app. split.
    + apply IH. apply Z.div_pos; lia.
    + constructor; [apply digit_char_ok; lia | constructor].
Qed.

Lemma digits_fuel_value f : forall n,
  0 <= n < 2 ^ Z.of_nat f ->
  digits_to_Z (digit_val <$> digits_fuel f n []) = n.
Proof.
  induction f as [|f IH]; intros n Hn.
  - simpl in *. change (2 ^ 0) with 1 in Hn. assert (n = 0) as -> by lia. reflexivity.
  - simpl digits_fuel. destruct (Z.ltb_spec n 10) as [Hlt|Hge].
    + cbn. rewrite (proj2 (digit_char_ok n ltac:(lia))).
      rewrite Z.mod_small; lia.
    + rewrite digits_fuel_acc, fmap_app. cbn [fmap list_fmap].
      rewrite digits_to_Z_snoc, (proj2 (digit_char_ok n ltac:(lia))).
      rewrite IH; [pose proof (Z.div_mod n 10); lia|].
      rewrite Nat2Z.inj_succ, Z.pow_succ_r in Hn by lia.
      split; [apply Z.div_pos; lia|].
      apply Z.div_lt_upper_bound; lia.
Qed.

Lemma decimal_digits_spec n :
  0 <= n ->
  Forall (fun c => is_digit c = true) (decimal_digits n)
  /\ decimal_digits n <> []
  /\ digits_to_Z (digit_val <$> decimal_digits n) = n.
Proof.
  intros Hn. unfold decimal_digits. split; [now apply digits_fuel_digits|]. split.
  - simpl. destruct (n <? 10); [discriminate|].
    rewrite digits_fuel_acc. now destruct (digits_fuel _ _ []).
  - apply digits_fuel_value. split; [assumption|].
    rewrite Nat2Z.inj_succ, Z2Nat.id by apply Z.log2_nonneg.
    destruct (Z.eq_dec n 0) as [->|]; [reflexivity|].
    apply Z.log2_spec. lia.
Qed.

Lemma group_rev_spec s : forall k,
  Forall (fun c => is_digit c = true) s ->
  List.filter is_digit (group_rev k s) = s
  /\ forallb (fun d => is_digit d || (d =? 44)%N) (group_rev k s) = true.
Proof.
  induction s as [|c t IH]; intros k H; [split; reflexivity|].
  inversion H as [|? ? Hc Ht]; subst.
  assert (G : forall j, List.filter is_digit (c :: group_rev j t) = c :: t
             /\ forallb (fun d => is_digit d || (d =? 44)%N) (c :: group_rev j t) = true).
  { intros j. destruct (IH j Ht) as [E1 E2]. simpl. now rewrite Hc, E1, E2. }
  destruct k as [|[|[|k]]]; try apply G.
  destruct t as [|c' t']; [apply (G 3%nat)|].
  destruct (IH 0%nat Ht) as [E1 E2].
  change (group_rev 2 (c :: c' :: t'))
    with (c :: 44%N :: group_rev 0 (c' :: t')).
  set (r := group_rev 0 (c' :: t')) in *.
  cbn [List.filter forallb]. rewrite Hc.
  change (is_digit 44) with false. change (44 =? 44)%N with true.
  cbn [orb andb]. now rewrite E1, E2.
Qed.

Lemma group_thousands_spec s :
  Forall (fun c => is_digit c = true) s ->
  List.filter is_digit (group_thousands s) = s
  /\ forallb (fun d => is_digit d || (d =? 44)%N) (group_thousands s) = true.
Proof.
  intros H. unfold group_thousands.
  destruct (group_rev_spec (rev s) 0%nat (Forall_rev H)) as [E1 E2].
  split.
  - rewrite filter_rev, E1. apply rev_involutive.
  - apply forallb_forall. intros x Hx. apply in_rev in Hx.
    rewrite forallb_forall in E2. now apply E2.
Qed.

(** ** The cell parsers *)

Lemma parse_money_agree s :
  BOMDailyCollector._parse_money s = YearBatchCollector._parse_money s.
Proof.
  unfold BOMDailyCollector._parse_money, YearBatchCollector._parse_money.
  set (t := replace1 44 [] (replace1 36 [] (strip s))).
  destruct (decide (t = [])) as [E|E], (decide (t = U "-")) as [F|F];
    rewrite ?(bool_decide_eq_true_2 _ E), ?(bool_decide_eq_false_2 _ E),
            ?(bool_decide_eq_true_2 _ F), ?(bool_decide_eq_false_2 _ F);
    rewrite ?(bool_decide_eq_false_2 (t <> [])) by tauto;
    rewrite ?(bool_decide_eq_true_2 (t <> [])) by tauto;
    rewrite ?(bool_decide_eq_false_2 (t <> U "-")) by tauto;
    rewrite ?(bool_decide_eq_true_2 (t <> U "-")) by tauto;
    reflexivity.
Qed.

Lemma parse_percent_agree s :
  BOMDailyCollector._parse_percent s = YearBatchCollector._parse_percent s.
Proof.
  unfold BOMDailyCollector._parse_percent, YearBatchCollector._parse_percent.
  set (t := replace1 43 [] (replace1 37 [] (strip s))).
  destruct (decide (t = [])) as [E|E], (decide (t = U "-")) as [F|F],
           (decide (t = U "n/a")) as [G|G];
    rewrite ?(bool_decide_eq_true_2 _ E), ?(bool_decide_eq_false_2 _ E),
            ?(bool_decide_eq_true_2 _ F), ?(bool_decide_eq_false_2 _ F),
            ?(bool_decide_eq_true_2 _ G), ?(bool_decide_eq_false_2 _ G);
    rewrite ?(bool_decide_eq_false_2 (t <> [])) by tauto;
    rewrite ?(bool_decide_eq_true_2 (t <> [])) by tauto;
    rewrite ?(bool_decide_eq_false_2 (t <> U "-")) by tauto;
    rewrite ?(bool_decide_eq_true_2 (t <> U "-")) by tauto;
    rewrite ?(bool_decide_eq_false_2 (t <> U "n/a")) by tauto;
    rewrite ?(bool_decide_eq_true_2 (t <> U "n/a")) by tauto;
    reflexivity.
Qed.

Lemma parse_money_unparseable s :
  py_float (money_text s) = Raise ValueError ->
  YearBatchCollector._parse_money s = None.
Proof.
  unfold YearBatchCollector._parse_money. fold (money_text s). intros ->.
  now destruct (_ && _).
Qed.

Lemma parse_percent_unparseable s :
  py_float (percent_text s) = Raise ValueError ->
  YearBatchCollector._parse_percent s = None.
Proof.
  unfold YearBatchCollector._parse_percent. fold (percent_text s). intros ->.
  now destruct (_ && _).
Qed.

Lemma parse_money_exact s :
  is_money_string s = true -> money_value s <= 2 ^ 53 ->
  YearBatchCollector._parse_money s
  = Some (FFinite (inject_Z (money_value s))).
Proof.
  intros Hs Hv. destruct (money_text_shape s Hs) as [E Hne].
  pose proof (filter_digits_all s) as Hd.
  unfold YearBatchCollector._parse_money. fold (money_text s).
  rewrite bool_decide_eq_true_2 by assumption.
  rewrite bool_decide_eq_true_2.
  2:{ rewrite E. intros Heq. rewrite Heq in Hd. inversion Hd as [|? ? Hc _].
      vm_compute in Hc. discriminate. }
  simpl andb. cbv iota. rewrite E, py_float_digits by (assumption || (rewrite <- E; assumption)).
  fold (money_value s). rewrite round_double_int; [reflexivity|].
  split; [|assumption]. now apply digits_to_Z_nonneg.
Qed.

Lemma format_money_shape n :
  0 <= n ->
  is_money_string (format_money (FFinite (inject_Z n))) = true
  /\ money_value (format_money (FFinite (inject_Z n))) = n.
Proof.
  intros Hn. unfold format_money, format_comma_0f. cbn [Qnum Qden inject_Z].
  destruct (Z.ltb_spec n 0) as [|_]; [lia|]. rewrite app_nil_l.
  rewrite Z.abs_eq, round_half_even_1 by assumption.
  destruct (decimal_digits_spec n Hn) as (Hd & Hne & Hv).
  destruct (group_thousands_spec _ Hd) as [E1 E2].
  split.
  - cbn [is_money_string]. rewrite N.eqb_refl, E2. simpl andb.
    destruct (decimal_digits n) as [|c t] eqn:Ed; [contradiction|].
    apply existsb_exists. exists c. inversion Hd; subst. split; [|assumption].
    assert (In c (List.filter is_digit (group_thousands (c :: t))))
      by (rewrite E1; now left).
    apply filter_In in H. tauto.
  - unfold money_value. cbn [List.filter]. change (is_digit 36) with false.
    cbv iota. now rewrite E1.
Qed.

Lemma py_float_cases s :
  (exists v, py_float s = Return v) \/ py_float s = Raise ValueError.
Proof.
  unfold py_float.
  destruct (if underscores_ok _ _ then _ else _); eauto.
Qed.

Lemma parse_money_none_iff s :
  YearBatchCollector._parse_money s = None
  <-> py_float (money_text s) = Raise ValueError.
Proof.
  split; [|apply parse_money_unparseable].
  unfold YearBatchCollector._parse_money. fold (money_text s).
  destruct (decide (money_text s = [])) as [->|E]; [reflexivity|].
  destruct (decide (money_text s = U "-")) as [->|F]; [reflexivity|].
  rewrite !bool_decide_eq_true_2 by assumption. simpl andb. cbv iota.
  destruct (py_float_cases (money_text s)) as [[v ->]| ->];
    [discriminate | reflexivity].
Qed.

(** C1: each of the monetary texts "", "-", the em dash and "N/A", and
    every text that [float] rejects once its dollar sign and commas are
    removed, is parsed by [_parse_money] to [None] (so never to zero), in
    both collectors; [_parse_percent] likewise maps "-", "n/a" and the
    empty text to [None]. *)
Theorem C1_null_policy (s : pystr) :
  (s ∈ [U ""; U "-"; em_dash; U "N/A"]
   \/ py_float (money_text s) = Raise ValueError ->
   YearBatchCollector._parse_money s = None
   /\ BOMDailyCollector._parse_money s = None)
  /\ (s ∈ [U "-"; U "n/a"; U ""] ->
      YearBatchCollector._parse_percent s = None
      /\ BOMDailyCollector._parse_percent s = None).
Proof.
  split.
  - intros H. rewrite parse_money_agree.
    enough (YearBatchCollector._parse_money s = None) by tauto.
    destruct H as [H|H]; [|now apply parse_money_unparseable].
    rewrite !elem_of_cons, elem_of_nil in H.
    destruct H as [->|[->|[->|[->|[]]]]]; vm_compute; reflexivity.
  - intros H. rewrite parse_percent_agree.
    enough (YearBatchCollector._parse_percent s = None) by tauto.
    rewrite !elem_of_cons, elem_of_nil in H.
    destruct H as [->|[->|[->|[]]]]; vm_compute; reflexivity.
Qed.

Lemma C1_null_policy_witness :
  (YearBatchCollector._parse_money em_dash = None
   /\ BOMDailyCollector._parse_money em_dash = None)
  /\ (YearBatchCollector._parse_money (U "$12.3.4") = None
      /\ BOMDailyCollector._parse_money (U "$12.3.4") = None)
  /\ (YearBatchCollector._parse_percent (U "n/a") = None
      /\ BOMDailyCollector._parse_percent (U "n/a") = None).
Proof.
  split; [|split].
  - apply (proj1 (C1_null_policy em_dash)). left.
    apply list_elem_of_further, list_elem_of_further, list_elem_of_here.
  - apply (proj1 (C1_null_policy (U "$12.3.4"))). right.
    vm_compute. reflexivity.
  - apply (proj2 (C1_null_policy (U "n/a"))).
    apply list_elem_of_further, list_elem_of_here.
Defined.

(** C7 (amended): for every text of the form [$1,234,567] whose amount is
    at most [2 ^ 53], [_parse_money] returns exactly that integer, in both
    collectors, and printing the result with [f"${v:,.0f}"] gives a text
    that parses back to the same value. *)
Theorem C7_money_exact_roundtrip (s : pystr) :
  is_money_string s = true ->
  money_value s <= 2 ^ 53 ->
  let v := FFinite (inject_Z (money_value s)) in
  YearBatchCollector._parse_money s = Some v
  /\ BOMDailyCollector._parse_money s = Some v
  /\ is_money_string (format_money v) = true
  /\ money_value (format_money v) = money_value s
  /\ YearBatchCollector._parse_money (format_money v) = Some v.
Proof.
  intros Hs Hv v.
  assert (H0 : 0 <= money_value s) by apply digits_to_Z_nonneg, filter_digits_all.
  destruct (format_money_shape _ H0) as [F1 F2]. fold v in F1, F2.
  pose proof (parse_money_exact s Hs Hv) as P. fold v in P.
  repeat split; try assumption.
  - now rewrite parse_money_agree.
  - rewrite <- F2 in Hv. pose proof (parse_money_exact _ F1 Hv) as Q.
    rewrite F2 in Q. exact Q.
Qed.

Lemma C7_money_exact_roundtrip_witness :
  let v := FFinite (inject_Z (money_value (U "$1,234,567"))) in
  YearBatchCollector._parse_money (U "$1,234,567") = Some v
  /\ BOMDailyCollector._parse_money (U "$1,234,567") = Some v
  /\ is_money_string (format_money v) = true
  /\ money_value (format_money v) = money_value (U "$1,234,567")
  /\ YearBatchCollector._parse_money (format_money v) = Some v.
Proof.
  apply (C7_money_exact_roundtrip (U "$1,234,567")).
  - reflexivity.
  - vm_compute. discriminate.
Defined.

(** C7 as stated fails: an amount of seventeen digits is rounded to the
    nearest binary64 value, which is not the integer written. *)
Lemma C7_counterexample :
  is_money_string wide_amount = true
  /\ money_value wide_amount = 9007199254740993
  /\ YearBatchCollector._parse_money wide_amount
     = Some (FFinite (inject_Z 9007199254740992))
  /\ BOMDailyCollector._parse_money wide_amount
     = Some (FFinite (inject_Z 9007199254740992))
  /\ YearBatchCollector._parse_money wide_amount
     <> Some (FFinite (inject_Z (money_value wide_amount))).
Proof.
  repeat split; try (vm_compute; reflexivity).
  vm_compute. discriminate.
Qed.

(** ** Matching, ordering and windowing *)

Lemma In_insert_by_date r x l :
  In x (insert_by_date r l) <-> x = r \/ In x l.
Proof.
  induction l as [|y t IH]; simpl; [intuition|].
  destruct (date r <=? date y); simpl; rewrite ?IH; intuition.
Qed.

Lemma In_sort_values_date x l : In x (sort_values_date l) <-> In x l.
Proof.
  induction l as [|y t IH]; simpl; [tauto|].
  rewrite In_insert_by_date, IH. intuition.
Qed.

Lemma sort_values_date_nil l : sort_values_date l = [] -> l = [].
Proof.
  destruct l as [|y t]; [reflexivity|]. intros E.
  assert (In y (sort_values_date (y :: t))) as Hin
    by (apply In_sort_values_date; now left).
  now rewrite E in Hin.
Qed.

Lemma length_insert_by_date r l :
  length (insert_by_date r l) = S (length l).
Proof.
  induction l as [|y t IH]; simpl; [reflexivity|].
  destruct (date r <=? date y); simpl; now rewrite ?IH.
Qed.

Lemma length_sort_values_date l : length (sort_values_date l) = length l.
Proof.
  induction l as [|y t IH]; simpl; [reflexivity|].
  now rewrite length_insert_by_date, IH.
Qed.

Section Aggregation.
Context `{CaseMapping}.
Import MovieFeatures.

Lemma In_title_matches pat df r :
  In r (title_matches pat df)
  <-> In r df /\ str_contains pat (release r) = true.
Proof. unfold title_matches. apply filter_In. Qed.

Lemma In_movie_batch batch movie r :
  In r (movie_batch batch movie)
  <-> In r batch
      /\ str_contains (slice_to 20 (title movie)) (release r) = true.
Proof. apply In_title_matches. Qed.

Lemma between_0_6_spec movie r :
  between_0_6 (days_since_release movie r) = true
  <-> exists rd, release_date movie = Some rd /\ rd <= date r <= rd + 6.
Proof.
  unfold days_since_release. destruct (release_date movie) as [rd|]; simpl.
  - rewrite andb_true_iff, !Z.leb_le. split.
    + intros Hd. exists rd. split; [reflexivity | lia].
    + intros (rd' & E & Hd). injection E as <-. lia.
  - split; [discriminate | intros (rd & E & _); discriminate].
Qed.

Lemma In_first_week batch movie r :
  In r (first_week batch movie)
  <-> In r (movie_batch batch movie)
      /\ exists rd, release_date movie = Some rd /\ rd <= date r <= rd + 6.
Proof.
  unfold first_week.
  rewrite filter_In, In_sort_values_date, between_0_6_spec. reflexivity.
Qed.

Lemma first_week_of_empty_batch batch movie :
  movie_batch batch movie = [] -> first_week batch movie = [].
Proof. unfold first_week. now intros ->. Qed.

Lemma movie_row_some batch movie row :
  movie_row batch movie = Some row ->
  row = feature_dict movie (first_week batch movie)
  /\ first_week batch movie <> []
  /\ bom_url movie <> None.
Proof.
  unfold movie_row. destruct (bom_url movie); [|discriminate].
  destruct (movie_batch batch movie); [discriminate|].
  destruct (first_week batch movie) eqn:E; [discriminate|].
  intros [= <-]. repeat split; discriminate.
Qed.

Lemma movie_row_none batch movie :
  first_week batch movie = [] -> movie_row batch movie = None.
Proof.
  intros E. unfold movie_row. rewrite E.
  destruct (bom_url movie); [|reflexivity].
  now destruct (movie_batch batch movie).
Qed.

Lemma days_tracked movie fw :
  feature_dict movie fw !! "first_week_days_tracked"
  = Some (VInt (Z.of_nat (length fw))).
Proof. reflexivity. Qed.

End Aggregation.

Section DailyAggregation.
Context `{CaseMapping}.
Import DailyFeatures.

Lemma movie_data_no_url daily movie_title :
  movie_data daily movie_title UrlNone
  = Return (sorted_if_any (title_matches movie_title daily)).
Proof.
  unfold movie_data, sorted_if_any. simpl.
  now destruct (title_matches movie_title daily).
Qed.

Lemma movie_data_nan daily movie_title :
  movie_data daily movie_title UrlNaN = Raise UnboundLocalError.
Proof. reflexivity. Qed.

Lemma movie_data_empty_url daily movie_title :
  movie_data daily movie_title (UrlStr []) = Raise UnboundLocalError.
Proof. reflexivity. Qed.

Lemma movie_data_url_found daily movie_title c s :
  url_matches (c :: s) daily <> [] ->
  movie_data daily movie_title (UrlStr (c :: s))
  = Return (Some (sort_values_date (url_matches (c :: s) daily))).
Proof.
  intros Hne. unfold movie_data. simpl.
  destruct (url_matches (c :: s) daily) as [|r md] eqn:E; [contradiction|].
  reflexivity.
Qed.

Lemma movie_data_url_fallback daily movie_title c s :
  url_matches (c :: s) daily = [] ->
  movie_data daily movie_title (UrlStr (c :: s))
  = Return (sorted_if_any (title_matches movie_title daily)).
Proof.
  intros E. unfold movie_data, sorted_if_any. simpl. rewrite E. simpl.
  now destruct (title_matches movie_title daily).
Qed.

Lemma aggregate_daily_some daily movie_title url f :
  aggregate_daily_features daily movie_title url = Return (Some f) ->
  exists md,
    movie_data daily movie_title url = Return (Some md)
    /\ f = derived_features (base_features md).
Proof.
  unfold aggregate_daily_features.
  destruct (movie_data daily movie_title url) as [[md|]|e]; simpl;
    intros [= <-]. now exists md.
Qed.

Lemma movie_data_some daily movie_title url md :
  movie_data daily movie_title url = Return (Some md) ->
  md <> []
  /\ forall r, In r md ->
       In r daily
       /\ (str_contains movie_title (release r) = true
           \/ exists s, url = UrlStr s /\ movie_url r = Some s).
Proof.
  assert (T : forall l : list DailyRecord,
            Return (sorted_if_any l) = Return (Some md) ->
            md <> [] /\ forall r, In r md -> In r l).
  { intros [|x l]; [discriminate|]. unfold sorted_if_any. intros [= <-]. split.
    - intros E. now apply (sort_values_date_nil (x :: l)) in E.
    - intros r. apply (In_sort_values_date r (x :: l)). }
  destruct url as [| |[|c s]].
  - rewrite movie_data_no_url. intros E. apply T in E as [Hne Hin].
    split; [assumption|]. intros r Hr. apply Hin, In_title_matches in Hr.
    tauto.
  - rewrite movie_data_nan. discriminate.
  - rewrite movie_data_empty_url. discriminate.
  - destruct (url_matches (c :: s) daily) as [|x l] eqn:E.
    + rewrite movie_data_url_fallback by assumption. intros E'.
      apply T in E' as [Hne Hin]. split; [assumption|]. intros r Hr.
      apply Hin, In_title_matches in Hr. tauto.
    + rewrite movie_data_url_found by (rewrite E; discriminate).
      rewrite E. intros [= <-]. split.
      * intros E'. now apply (sort_values_date_nil (x :: l)) in E'.
      * intros r Hr. apply (In_sort_values_date r (x :: l)) in Hr.
        rewrite <- E in Hr.
        apply filter_In in Hr as [Hd Hu]. apply bool_decide_eq_true in Hu.
        split; [assumption|]. right. now exists (c :: s).
Qed.

End DailyAggregation.

(** ** The aggregators: claims *)

Section AggregatorClaims.
Context `{CaseMapping}.

(** C2 (amended): in [aggregate_movie_features] the first-week window is
    exactly the seven calendar days from the release date on: a matched
    record belongs to the aggregated first week if and only if its date
    lies between the release date and six days later, so one dated
    [release_date + 6] is included and one dated [release_date + 7] is
    excluded, and the row is computed from those records only.
    [aggregate_daily_features] takes no release date and has no window:
    without a URL it aggregates every record the title matches. *)
Theorem C2_first_week_window (batch : list DailyRecord) (movie : Movie)
    (rd : Z) (r : DailyRecord) :
  release_date movie = Some rd ->
  In r (MovieFeatures.movie_batch batch movie) ->
  (In r (MovieFeatures.first_week batch movie) <-> rd <= date r <= rd + 6)
  /\ (date r = rd + 6 -> In r (MovieFeatures.first_week batch movie))
  /\ (date r = rd + 7 -> ~ In r (MovieFeatures.first_week batch movie))
  /\ (forall row, MovieFeatures.movie_row batch movie = Some row ->
        row = MovieFeatures.feature_dict movie
                (MovieFeatures.first_week batch movie))
  /\ (forall daily movie_title md,
        DailyFeatures.movie_data daily movie_title UrlNone = Return (Some md) ->
        forall x, In x md <-> In x (title_matches movie_title daily)).
Proof.
  intros Hrd Hr.
  assert (W : In r (MovieFeatures.first_week batch movie)
              <-> rd <= date r <= rd + 6).
  { rewrite In_first_week. split.
    - intros (_ & rd' & E & Hd). rewrite Hrd in E. injection E as <-. lia.
    - intros Hd. split; [assumption|]. now exists rd. }
  split; [exact W|]. split; [|split; [|split]].
  - intros E. apply W. lia.
  - intros E. rewrite W. lia.
  - intros row Hrow. now apply movie_row_some in Hrow.
  - intros daily movie_title md. rewrite movie_data_no_url.
    unfold sorted_if_any.
    destruct (title_matches movie_title daily) as [|y l] eqn:E;
      [discriminate|].
    intros [= <-] x. apply (In_sort_values_date x (y :: l)).
Qed.

(** C3: a movie with no record left after matching and windowing adds no
    row to the output of [aggregate_movie_features]: the loop skips it,
    and every row of the output counts at least one tracked day.
    [aggregate_daily_features] returns a feature dict only from at least
    one matched record; with none it returns [None] (or fails on its URL
    argument), never a dict. *)
Theorem C3_no_records_no_row (batch : list DailyRecord)
    (pre post : list Movie) (movie : Movie)
    (daily : list DailyRecord) (movie_title : pystr) (url : url_arg) :
  (MovieFeatures.first_week batch movie = [] ->
   MovieFeatures.movie_row batch movie = None
   /\ MovieFeatures.aggregate_movie_features batch (pre ++ movie :: post)
      = MovieFeatures.aggregate_movie_features batch pre
        ++ MovieFeatures.aggregate_movie_features batch post)
  /\ (forall row,
        In row (MovieFeatures.aggregate_movie_features batch
                  (pre ++ movie :: post)) ->
        exists n, row !! "first_week_days_tracked" = Some (VInt n) /\ 1 <= n)
  /\ ((forall r, In r daily ->
         str_contains movie_title (release r) = false
         /\ forall s, url = UrlStr s -> movie_url r <> Some s) ->
      forall f,
        DailyFeatures.aggregate_daily_features daily movie_title url
        <> Return (Some f)).
Proof.
  split; [|split].
  - intros E. pose proof (movie_row_none batch movie E) as Hnone.
    split; [exact Hnone|].
    unfold MovieFeatures.aggregate_movie_features.
    rewrite omap_app. simpl. now rewrite Hnone.
  - intros row Hrow. unfold MovieFeatures.aggregate_movie_features in Hrow.
    apply list_elem_of_In, list_elem_of_omap in Hrow as (m & _ & Hm).
    apply movie_row_some in Hm as (-> & Hne & _).
    exists (Z.of_nat (length (MovieFeatures.first_week batch m))).
    split; [apply days_tracked|].
    destruct (MovieFeatures.first_week batch m); [contradiction|simpl; lia].
  - intros Hnone f Hf.
    apply aggregate_daily_some in Hf as (md & Hmd & _).
    apply movie_data_some in Hmd as (Hne & Hin).
    destruct md as [|r md]; [contradiction|].
    destruct (Hin r (or_introl eq_refl)) as (Hr & Hm).
    destruct (Hnone r Hr) as (Ht & Hu).
    destruct Hm as [Hm | (s & -> & Hs)]; [congruence|].
    now apply (Hu s).
Qed.

(** C5 (amended): [aggregate_movie_features] selects exactly the records
    whose title contains the first twenty characters of the target title,
    case-insensitively (the full title when it has at most twenty
    characters); [aggregate_daily_features], when it has no URL or the
    URL matches no record, selects exactly the records whose title
    contains the full target title, case-insensitively. *)
Theorem C5_title_matching (batch : list DailyRecord) (movie : Movie)
    (daily : list DailyRecord) (movie_title : pystr) (url : url_arg) :
  (forall r, In r (MovieFeatures.movie_batch batch movie)
             <-> In r batch
                 /\ str_contains (slice_to 20 (title movie)) (release r)
                    = true)
  /\ ((length (title movie) <= 20)%nat ->
      forall r, In r (MovieFeatures.movie_batch batch movie)
                <-> In r batch
                    /\ str_contains (title movie) (release r) = true)
  /\ (url = UrlNone
      \/ (exists c s, url = UrlStr (c :: s)
                      /\ url_matches (c :: s) daily = []) ->
      exists res,
        DailyFeatures.movie_data daily movie_title url = Return res
        /\ forall r, In r (default [] res)
                     <-> In r daily
                         /\ str_contains movie_title (release r) = true).
Proof.
  split; [|split].
  - intros r. apply In_movie_batch.
  - intros Hlen r. rewrite In_movie_batch. unfold slice_to.
    now rewrite take_ge by assumption.
  - intros Hurl.
    exists (sorted_if_any (title_matches movie_title daily)). split.
    + destruct Hurl as [-> | (c & s & -> & E)].
      * apply movie_data_no_url.
      * now apply movie_data_url_fallback.
    + intros r. rewrite <- In_title_matches. unfold sorted_if_any.
      destruct (title_matches movie_title daily) as [|y l]; [reflexivity|].
      apply (In_sort_values_date r (y :: l)).
Qed.

(** C10: called with a missing URL that is not [None] (a NaN float),
    [aggregate_daily_features] raises [UnboundLocalError], whatever the
    daily data and the title. *)
Theorem C10_nan_url_unbound_local (daily : list DailyRecord)
    (movie_title : pystr) (url : url_arg) :
  url <> UrlNone ->
  DailyFeatures.url_notna url = false ->
  DailyFeatures.aggregate_daily_features daily movie_title url
  = Raise UnboundLocalError.
Proof.
  intros Hnone Hna. destruct url as [| |s]; [contradiction | | discriminate].
  reflexivity.
Qed.

End AggregatorClaims.

Lemma C2_first_week_window_witness :
  In day6_listing (MovieFeatures.first_week week_edge test_movie)
  /\ ~ In day7_listing (MovieFeatures.first_week week_edge test_movie).
Proof.
  split.
  - apply (C2_first_week_window week_edge test_movie day0 day6_listing).
    + reflexivity.
    + vm_compute. left. reflexivity.
    + reflexivity.
  - apply (C2_first_week_window week_edge test_movie day0 day7_listing).
    + reflexivity.
    + vm_compute. right. left. reflexivity.
    + reflexivity.
Defined.

(** C2 as stated fails for [aggregate_daily_features]: with a release on
    [day0], the record dated [day0 + 7] is among the records it
    aggregates (two tracked days, and the peak theater count is the one
    of the later record). *)
Lemma C2_counterexample :
  release_date test_movie = Some day0
  /\ DailyFeatures.movie_data week_apart (title test_movie) UrlNone
     = Return (Some week_apart)
  /\ exists f,
       DailyFeatures.aggregate_daily_features week_apart (title test_movie)
         UrlNone = Return (Some f)
       /\ f !! "daily_days_tracked" = Some (VInt 2)
       /\ f !! "daily_peak_theaters" = Some (VFloat (of_Z 2500)).
Proof.
  split; [reflexivity|]. split; [vm_compute; reflexivity|].
  eexists. split; [reflexivity|]. split; vm_compute; reflexivity.
Qed.

Lemma C3_no_records_no_row_witness :
  (MovieFeatures.movie_row [other_film] test_movie = None
   /\ MovieFeatures.aggregate_movie_features [other_film]
        ([long_title_movie] ++ test_movie :: [star_wars])
      = MovieFeatures.aggregate_movie_features [other_film] [long_title_movie]
        ++ MovieFeatures.aggregate_movie_features [other_film] [star_wars])
  /\ (forall f,
        DailyFeatures.aggregate_daily_features [other_film] (title test_movie)
          UrlNone <> Return (Some f)).
Proof.
  split.
  - apply (C3_no_records_no_row [other_film] [long_title_movie] [star_wars]
             test_movie [] [] UrlNone).
    vm_compute. reflexivity.
  - apply (C3_no_records_no_row [] [] [] test_movie [other_film]
             (title test_movie) UrlNone).
    intros r [<-|[]]. split; [vm_compute; reflexivity|]. intros s Hs.
    discriminate Hs.
Defined.

Lemma C5_title_matching_witness :
  (forall r, In r (MovieFeatures.movie_batch two_pages test_movie)
             <-> In r two_pages
                 /\ str_contains (title test_movie) (release r) = true)
  /\ (exists res,
        DailyFeatures.movie_data two_pages (title test_movie) UrlNone
        = Return res
        /\ forall r, In r (default [] res)
                     <-> In r two_pages
                         /\ str_contains (title test_movie) (release r)
                            = true).
Proof.
  split.
  - apply (C5_title_matching two_pages test_movie [] [] UrlNone).
    vm_compute. lia.
  - apply (C5_title_matching [] test_movie two_pages (title test_movie)
             UrlNone).
    left. reflexivity.
Defined.

(** C5 as stated fails for [aggregate_movie_features]: a record that
    shares only the first twenty characters of the title is selected
    although its title does not contain the full target title. *)
Lemma C5_counterexample :
  (20 < length (title long_title_movie))%nat
  /\ MovieFeatures.movie_batch [other_film] long_title_movie = [other_film]
  /\ str_contains (title long_title_movie) (release other_film) = false.
Proof. repeat split; vm_compute; (reflexivity || lia). Qed.

(** C6, on the code: [aggregate_movie_features] never compares URLs.  A
    listing that carries the very URL the main dataset has for the movie,
    under a longer title, is not matched and the movie gets no row, while
    a listing with another URL is matched through its title;
    [aggregate_daily_features], given the same URL, selects the listing
    that carries it. *)
Theorem C6_url_not_compared :
  movie_url star_wars_listing = bom_url star_wars
  /\ MovieFeatures.movie_batch [star_wars_listing] star_wars = []
  /\ MovieFeatures.aggregate_movie_features [star_wars_listing] [star_wars]
     = []
  /\ movie_url rerelease_listing <> bom_url star_wars
  /\ MovieFeatures.movie_batch [star_wars_listing; rerelease_listing] star_wars
     = [rerelease_listing]
  /\ DailyFeatures.movie_data [star_wars_listing; rerelease_listing]
       (title star_wars) (UrlStr star_wars_url)
     = Return (Some [star_wars_listing]).
Proof.
  repeat split; try (vm_compute; reflexivity).
  vm_compute. discriminate.
Qed.

Lemma C10_nan_url_unbound_local_witness :
  DailyFeatures.aggregate_daily_features two_pages (title test_movie) UrlNaN
  = Raise UnboundLocalError.
Proof.
  apply (C10_nan_url_unbound_local two_pages (title test_movie) UrlNaN).
  - discriminate.
  - reflexivity.
Defined.

(** ** The scraper and the collection runs *)

Lemma raise_for_status_error status_code :
  400 <= status_code < 600 -> raise_for_status status_code = Raise HTTPError.
Proof.
  intros Hs. unfold raise_for_status.
  destruct (Z.leb_spec 400 status_code); [|lia].
  destruct (Z.ltb_spec status_code 600); [reflexivity | lia].
Qed.

Lemma try_returns {A} (body : result A) (a : A) :
  exists v, try_ body (Return a) = Return v.
Proof. destruct body; simpl; eauto. Qed.

Lemma year_table_rows_short date_str trs :
  Forall (fun tr : list td => (length tr < 9)%nat) trs ->
  YearBatchScraper.table_rows date_str trs = Return [].
Proof.
  induction 1 as [|tr more Hlen _ IH]; [reflexivity|].
  simpl. rewrite IH.
  do 9 (destruct tr as [|? tr]; [reflexivity|]). simpl in Hlen. lia.
Qed.

Lemma bom_table_rows_short date_str trs :
  Forall (fun tr : list td => (length tr < 9)%nat) trs ->
  BOMDailyScraper.table_rows date_str trs = Return [].
Proof.
  induction 1 as [|tr more Hlen _ IH]; [reflexivity|].
  simpl. rewrite IH.
  do 9 (destruct tr as [|? tr]; [reflexivity|]). simpl in Hlen. lia.
Qed.

Lemma files_after_no_write tr :
  forallb (fun e => negb (is_write e)) tr = true -> files_after tr = ∅.
Proof.
  unfold files_after. generalize (∅ : gmap pystr (list DailyRecord)).
  induction tr as [|e tr IH]; intros files; [reflexivity|].
  simpl. rewrite andb_true_iff. intros [He Htr].
  destruct e; try discriminate; now apply IH.
Qed.

Lemma page_events_no_write dates :
  forallb (fun e => negb (is_write e)) (page_events dates) = true.
Proof. induction dates as [|d ds IH]; [reflexivity|]. exact IH. Qed.


Lemma year_scrape_run web d tr :
  YearBatchRun.scrape_daily_data web d tr
  = (tr ++ [EvGet d], Return (scraped web d)).
Proof.
  unfold YearBatchRun.scrape_daily_data, scraped, mbind, run_bind, emit, lift.
  unfold YearBatchScraper.scrape_daily_data.
  now destruct (YearBatchScraper.scrape_body (web d) d).
Qed.

Lemma collect_loop_run web dates : forall all_data tr,
  for_each
    (fun all_data date_str =>
       daily_df ← YearBatchRun.scrape_daily_data web date_str;
       _ ← emit (EvSleep 2);
       mret (match daily_df with
             | Some df => all_data ++ [df]
             | None => all_data
             end))
    dates all_data tr
  = (tr ++ page_events dates,
     Return (all_data ++ omap (scraped web) dates)).
Proof.
  induction dates as [|d ds IH]; intros all_data tr.
  - simpl. unfold mret, run_ret. now rewrite !app_nil_r.
  - simpl for_each. unfold mbind at 1. unfold run_bind at 1.
    unfold mbind at 1. unfold run_bind at 1.
    rewrite year_scrape_run.
    unfold mbind at 1. unfold run_bind at 1. unfold emit at 1.
    unfold mret at 1. unfold run_ret at 1.
    rewrite IH. simpl. rewrite <- !app_assoc. simpl.
    destruct (scraped web d); simpl; now rewrite <- ?app_assoc.
Qed.

Lemma collect_year_batch_run web year strategy :
  execute (YearBatchRun.collect_year_batch web year strategy)
  = match selected_dates year strategy with
    | None => ([], Raise ValueError)
    | Some dates =>
        match omap (scraped web) dates with
        | [] => (page_events dates, Return None)
        | all_data =>
            (page_events dates
               ++ [EvToCsv (YearBatchRun.output_file year) (concat all_data)],
             Return (Some (concat all_data)))
        end
    end.
Proof.
  unfold execute, YearBatchRun.collect_year_batch, selected_dates.
  unfold mbind at 1. unfold run_bind at 1. unfold lift at 1.
  assert (G : forall dates,
            (all_data ← YearBatchRun.collect_loop web dates;
             match all_data with
             | [] => mret None
             | _ =>
                 _ ← emit (EvToCsv (YearBatchRun.output_file year)
                             (concat all_data));
                 mret (Some (concat all_data))
             end) []
            = match omap (scraped web) dates with
              | [] => (page_events dates, Return None)
              | all_data =>
                  (page_events dates
                     ++ [EvToCsv (YearBatchRun.output_file year)
                           (concat all_data)],
                   Return (Some (concat all_data)))
              end).
  { intros dates. unfold mbind at 1. unfold run_bind at 1.
    unfold YearBatchRun.collect_loop. rewrite collect_loop_run.
    rewrite !app_nil_l. now destruct (omap (scraped web) dates). }
  destruct (bool_decide (strategy = U "smart")); [apply G|].
  destruct (bool_decide (strategy = U "weekly")); [apply G|].
  destruct (bool_decide (strategy = U "biweekly")); [apply G|].
  reflexivity.
Qed.

Lemma year_row_dict_no_href date_str tr c :
  (9 <= length tr)%nat -> tr !! 2%nat = Some c -> td_anchor c = Some None ->
  YearBatchScraper.row_dict date_str tr = Raise KeyError.
Proof.
  intros Hlen Hc Ha.
  do 9 (destruct tr as [|? tr]; [simpl in Hlen; lia|]).
  simpl in Hc. injection Hc as ->. unfold YearBatchScraper.row_dict.
  now rewrite Ha.
Qed.

Lemma bom_row_data_no_href date_str tr c :
  (9 <= length tr)%nat -> tr !! 2%nat = Some c -> td_anchor c = Some None ->
  BOMDailyScraper.row_data date_str tr = Raise KeyError.
Proof.
  intros Hlen Hc Ha.
  do 9 (destruct tr as [|? tr]; [simpl in Hlen; lia|]).
  simpl in Hc. injection Hc as ->. unfold BOMDailyScraper.row_data.
  now rewrite Ha.
Qed.

Lemma year_row_dict_cases date_str tr :
  (exists v, YearBatchScraper.row_dict date_str tr = Return v)
  \/ YearBatchScraper.row_dict date_str tr = Raise KeyError.
Proof.
  unfold YearBatchScraper.row_dict.
  do 9 (destruct tr as [|? tr]; [left; eauto|]).
  destruct (td_anchor t1) as [[h|]|]; simpl; eauto.
Qed.

Lemma bom_row_data_cases date_str tr :
  (exists v, BOMDailyScraper.row_data date_str tr = Return v)
  \/ BOMDailyScraper.row_data date_str tr = Raise KeyError.
Proof.
  unfold BOMDailyScraper.row_data.
  do 9 (destruct tr as [|? tr]; [left; eauto|]).
  destruct (td_anchor t1) as [[h|]|]; simpl; eauto.
Qed.

Lemma year_table_rows_raise date_str trs tr :
  In tr trs -> YearBatchScraper.row_dict date_str tr = Raise KeyError ->
  YearBatchScraper.table_rows date_str trs = Raise KeyError.
Proof.
  induction trs as [|x more IH]; [contradiction|].
  intros [->|Hin] Hr; simpl.
  - now rewrite Hr.
  - destruct (year_row_dict_cases date_str x) as [[v ->]| ->];
      [|reflexivity].
    simpl. now rewrite IH.
Qed.

Lemma bom_table_rows_raise date_str trs tr :
  In tr trs -> BOMDailyScraper.row_data date_str tr = Raise KeyError ->
  BOMDailyScraper.table_rows date_str trs = Raise KeyError.
Proof.
  induction trs as [|x more IH]; [contradiction|].
  intros [->|Hin] Hr; simpl.
  - now rewrite Hr.
  - destruct (bom_row_data_cases date_str x) as [[v ->]| ->];
      [|reflexivity].
    simpl. now rewrite IH.
Qed.

Lemma no_data_returns_none page date_str :
  no_data_page page ->
  YearBatchScraper.scrape_daily_data page date_str = Return None
  /\ BOMDailyScraper.scrape_daily_data page date_str = Return None.
Proof.
  unfold YearBatchScraper.scrape_daily_data,
    BOMDailyScraper.scrape_daily_data,
    YearBatchScraper.scrape_body, BOMDailyScraper.scrape_body.
  intros [-> | [(st & tb & -> & Hs) | [(st & ->) | [(st & trs & -> & Hs)
          | (st & trs & tr & c & -> & Hin & Hlen & Hc & Ha)]]]].
  - split; reflexivity.
  - rewrite raise_for_status_error by assumption. split; reflexivity.
  - destruct (raise_for_status st); split; reflexivity.
  - rewrite year_table_rows_short, bom_table_rows_short by assumption.
    destruct (raise_for_status st); split; reflexivity.
  - rewrite (year_table_rows_raise date_str _ tr),
            (bom_table_rows_raise date_str _ tr);
      eauto using year_row_dict_no_href, bom_row_data_no_href.
    destruct (raise_for_status st); split; reflexivity.
Qed.

Lemma bom_scrape_run web d tr :
  exists v, BOMDailyRun.scrape_daily_data web d tr
            = (tr ++ [EvGet d], Return v).
Proof.
  unfold BOMDailyRun.scrape_daily_data, mbind, run_bind, emit, lift.
  unfold BOMDailyScraper.scrape_daily_data.
  destruct (BOMDailyScraper.scrape_body (web d) d); simpl; eauto.
Qed.

Lemma range_loop_run web fuel :
  forall current stop max_days days_scraped all_data tr,
  exists evs all_data',
    BOMDailyRun.range_loop web fuel current stop max_days days_scraped
      all_data tr
    = (tr ++ evs, Return all_data')
    /\ forallb (fun e => negb (is_write e)) evs = true.
Proof.
  induction fuel as [|fuel IH]; intros current stop max_days days all_data tr.
  - exists [], all_data. simpl. unfold mret, run_ret.
    now rewrite app_nil_r.
  - simpl. destruct (current <=? stop).
    2:{ exists [], all_data. unfold mret, run_ret. now rewrite app_nil_r. }
    destruct (match max_days with
              | Some k => negb (k =? 0) && (k <=? days)
              | None => false
              end).
    { exists [], all_data. unfold mret, run_ret. now rewrite app_nil_r. }
    unfold mbind at 1. unfold run_bind at 1.
    destruct (bom_scrape_run web current tr) as [v ->].
    unfold mbind at 1. unfold run_bind at 1. unfold emit at 1.
    edestruct IH as (evs & all' & -> & Hevs).
    exists (EvGet current :: EvSleep 2 :: evs), all'. split.
    + now rewrite <- !app_assoc.
    + exact Hevs.
Qed.

Lemma scrape_date_range_run web start_date end_date max_days :
  exists tr res,
    execute (BOMDailyRun.scrape_date_range web start_date end_date max_days)
    = (tr, Return res)
    /\ forallb (fun e => negb (is_write e)) tr = true.
Proof.
  unfold execute, BOMDailyRun.scrape_date_range.
  unfold mbind at 1. unfold run_bind at 1.
  edestruct (range_loop_run web) as (evs & all' & -> & Hevs).
  simpl app. destruct all'; unfold mret, run_ret; eauto.
Qed.



Lemma raise_for_status_ok status_code :
  ~ (400 <= status_code < 600) -> raise_for_status status_code = Return tt.
Proof.
  intros Hs. unfold raise_for_status.
  destruct (Z.leb_spec 400 status_code); [|reflexivity].
  destruct (Z.ltb_spec status_code 600); [lia | reflexivity].
Qed.

(** C8 (amended): for every date and every outcome of the request,
    [scrape_daily_data] returns and never raises, in both collectors; on
    a network error, a 4xx or 5xx status (what [raise_for_status]
    rejects), a page without table, a table without a usable row or a
    row whose link has no [href], it returns [None]; a reply of any other
    status is parsed as a reply of status 200 is.  The calling loops go
    on after a [None]: the year loop requests every date and keeps
    exactly the pages that gave data, and the date-range loop returns,
    for a range of days of the calendar that ends before its last day. *)
Theorem C8_scraper_never_raises (page : http_outcome) (date_str : Z)
    (web : Z -> http_outcome) (dates : list Z)
    (start_date end_date : Z) (max_days : option Z) :
  (exists v, YearBatchScraper.scrape_daily_data page date_str = Return v)
  /\ (exists v, BOMDailyScraper.scrape_daily_data page date_str = Return v)
  /\ (no_data_page page ->
      YearBatchScraper.scrape_daily_data page date_str = Return None
      /\ BOMDailyScraper.scrape_daily_data page date_str = Return None)
  /\ (forall status_code table,
        ~ (400 <= status_code < 600) ->
        YearBatchScraper.scrape_daily_data (Response status_code table)
          date_str
        = YearBatchScraper.scrape_daily_data (Response 200 table) date_str
        /\ BOMDailyScraper.scrape_daily_data (Response status_code table)
             date_str
           = BOMDailyScraper.scrape_daily_data (Response 200 table) date_str)
  /\ execute (YearBatchRun.collect_loop web dates)
     = (page_events dates, Return (omap (scraped web) dates))
  /\ (1 <= start_date <= last_day ->
      1 <= end_date < last_day ->
      exists tr res,
        execute (BOMDailyRun.scrape_date_range web start_date end_date
                   max_days)
        = (tr, Return res)).
Proof.
  split; [apply try_returns|]. split; [apply try_returns|].
  split; [apply no_data_returns_none|]. split; [|split].
  - intros status_code table Hs.
    unfold YearBatchScraper.scrape_daily_data,
      BOMDailyScraper.scrape_daily_data,
      YearBatchScraper.scrape_body, BOMDailyScraper.scrape_body.
    rewrite (raise_for_status_ok status_code Hs).
    rewrite (raise_for_status_ok 200) by lia. split; reflexivity.
  - unfold execute, YearBatchRun.collect_loop. now rewrite collect_loop_run.
  - intros _ _.
    destruct (scrape_date_range_run web start_date end_date max_days)
      as (tr & res & E & _). eauto.
Qed.

Lemma C8_scraper_never_raises_witness :
  (YearBatchScraper.scrape_daily_data (Response 503 (Some one_film_page)) day0
   = Return None
   /\ BOMDailyScraper.scrape_daily_data (Response 503 (Some one_film_page))
        day0
      = Return None)
  /\ (YearBatchScraper.scrape_daily_data (Response 203 (Some one_film_page))
        day0
      = YearBatchScraper.scrape_daily_data (Response 200 (Some one_film_page))
          day0
      /\ BOMDailyScraper.scrape_daily_data (Response 203 (Some one_film_page))
           day0
         = BOMDailyScraper.scrape_daily_data
             (Response 200 (Some one_film_page)) day0)
  /\ (exists tr res,
        execute (BOMDailyRun.scrape_date_range steady_site day0 day0 None)
        = (tr, Return res)).
Proof.
  pose proof (C8_scraper_never_raises (Response 503 (Some one_film_page)) day0
                steady_site [] day0 day0 None)
    as (_ & _ & Hnone & Hstatus & _ & Hrange).
  split; [|split].
  - apply Hnone. right. left. exists 503, (Some one_film_page).
    split; [reflexivity | lia].
  - apply Hstatus. lia.
  - apply Hrange; apply (bool_decide_unpack _); vm_compute; reflexivity.
Defined.

(** C8 as stated fails on "non-200": a response with status 203 that
    carries a listing table is parsed like a 200 and yields its rows. *)
Lemma C8_counterexample :
  (exists rows,
     YearBatchScraper.scrape_daily_data (Response 203 (Some one_film_page))
       day0 = Return (Some rows))
  /\ (exists rows,
        BOMDailyScraper.scrape_daily_data (Response 203 (Some one_film_page))
          day0 = Return (Some rows)).
Proof. split; eexists; vm_compute; reflexivity. Qed.




(** ** Updating the main dataset *)

Lemma string_length_app (a s : string) :
  String.length (a +:+ s) = (String.length a + String.length s)%nat.
Proof.
  induction a as [|c a IH]; [reflexivity|].
  change (String c a +:+ s) with (String c (a +:+ s)). simpl. now rewrite IH.
Qed.

Lemma string_app_inj_r (a b s : string) : a +:+ s = b +:+ s -> a = b.
Proof.
  revert b. induction a as [|c a IH]; intros [|d b] E.
  - reflexivity.
  - apply (f_equal String.length) in E. rewrite !string_length_app in E.
    simpl in E. lia.
  - apply (f_equal String.length) in E. rewrite !string_length_app in E.
    simpl in E. lia.
  - change (String c (a +:+ s) = String d (b +:+ s)) in E.
    injection E as -> E. f_equal. now apply IH.
Qed.

Module MergeFacts.
Import Merge.

Lemma suffixed_inj c c' : suffixed c = suffixed c' -> c = c'.
Proof. apply string_app_inj_r. Qed.

Lemma columns_ok_first_week : columns_ok first_week_columns.
Proof.
  split; [|split].
  - apply (bool_decide_unpack _). vm_compute. exact I.
  - apply (bool_decide_unpack _). vm_compute. exact I.
  - intros c c' Hc Hc'. revert c' Hc'. apply Forall_forall.
    revert c Hc. apply Forall_forall.
    apply (bool_decide_unpack _). vm_compute. exact I.
Qed.

Lemma columns_ok_scraped : columns_ok scraped_columns.
Proof.
  split; [|split].
  - apply (bool_decide_unpack _). vm_compute. exact I.
  - apply (bool_decide_unpack _). vm_compute. exact I.
  - intros c c' Hc Hc'. revert c' Hc'. apply Forall_forall.
    revert c Hc. apply Forall_forall.
    apply (bool_decide_unpack _). vm_compute. exact I.
Qed.

Lemma add_right_spec left right idx cols : forall acc acc',
  add_right left right idx cols acc = Return acc' ->
  (forall c, c ∈ cols ->
     acc !! merged_name left c = None
     /\ exists s, right !! c = Some s
                  /\ acc' !! merged_name left c = Some (take_right idx s))
  /\ (forall name, (forall c, c ∈ cols -> merged_name left c <> name) ->
        acc' !! name = acc !! name).
Proof.
  induction cols as [|col more IH]; intros acc acc' E; simpl in E.
  - injection E as <-. split; [|reflexivity].
    intros c Hc. now apply elem_of_nil in Hc.
  - destruct (right !! col) as [s|] eqn:Hs; [|discriminate].
    destruct (acc !! merged_name left col) eqn:Hfree; [discriminate|].
    apply IH in E as [Hcols Hother]. split.
    + intros c Hc. apply elem_of_cons in Hc as [->|Hc].
      * split; [assumption|]. exists s. split; [assumption|].
        rewrite Hother; [apply lookup_insert_eq|].
        intros c' Hc' Heq. destruct (Hcols c' Hc') as [Hnone _].
        rewrite Heq, lookup_insert_eq in Hnone. discriminate.
      * destruct (Hcols c Hc) as [Hnone Hsome]. split; [|assumption].
        destruct (decide (merged_name left col = merged_name left c)) as [Heq|Hne].
        -- rewrite <- Heq, lookup_insert_eq in Hnone. discriminate.
        -- now rewrite lookup_insert_ne in Hnone.
    + intros name Hname. rewrite Hother.
      * apply lookup_insert_ne. apply Hname. now left.
      * intros c Hc. apply Hname. now right.
Qed.

Lemma update_column_other df col name :
  name <> col -> name <> suffixed col ->
  update_column df col !! name = df !! name.
Proof.
  intros H1 H2. unfold update_column.
  destruct (df !! suffixed col); [|reflexivity].
  now rewrite lookup_delete_ne, lookup_insert_ne by congruence.
Qed.

Lemma update_columns_other cols : forall df name,
  (forall c, c ∈ cols -> name <> c /\ name <> suffixed c) ->
  update_columns df cols !! name = df !! name.
Proof.
  induction cols as [|col more IH]; intros df name Hname; [reflexivity|].
  simpl. rewrite IH.
  - apply update_column_other; apply Hname; now left.
  - intros c Hc. apply Hname. now right.
Qed.

Lemma update_columns_app df pre post :
  update_columns df (pre ++ post) = update_columns (update_columns df pre) post.
Proof. unfold update_columns. apply fold_left_app. Qed.

(** What the loop leaves in a column of the list, from what the merged
    table had under the column's name and under its suffixed name. *)
Lemma update_columns_at cols df col :
  columns_ok cols -> col ∈ cols ->
  update_columns df cols !! suffixed col = None
  /\ update_columns df cols !! col
     = match df !! suffixed col with
       | Some new =>
           Some (match df !! col with
                 | Some old => combine_first new old
                 | None => new
                 end)
       | None => df !! col
       end.
Proof.
  intros (Hnd & _ & Hsuf) Hcol.
  destruct (list_elem_of_split _ _ Hcol) as (pre & post & ->).
  apply NoDup_app in Hnd as (_ & Hpre & Hpost).
  apply NoDup_cons in Hpost as [Hpost _].
  assert (Hin : forall c, c ∈ pre \/ c ∈ post -> c ∈ pre ++ col :: post).
  { intros c [Hc|Hc]; apply elem_of_app; [now left | right; now right]. }
  assert (Hne : forall c, c ∈ pre \/ c ∈ post -> c <> col).
  { intros c [Hc|Hc] ->; [|contradiction].
    apply (Hpre col Hc). now left. }
  assert (Hskip : forall l d,
            (forall c, c ∈ l -> c ∈ pre \/ c ∈ post) ->
            update_columns d l !! col = d !! col
            /\ update_columns d l !! suffixed col = d !! suffixed col).
  { intros l d Hl. split; apply update_columns_other; intros c Hc;
      specialize (Hl c Hc); split.
    - intros ->. now apply (Hne c).
    - apply Hsuf; [assumption | now apply Hin].
    - intros Heq. apply (Hsuf c col); [now apply Hin | assumption | now rewrite Heq].
    - intros Heq. apply suffixed_inj in Heq. now apply (Hne c). }
  rewrite update_columns_app.
  change (update_columns ?d (col :: post))
    with (update_columns (update_column d col) post).
  destruct (Hskip pre df (fun c Hc => or_introl Hc)) as [E1 E2].
  set (d1 := update_columns df pre) in *.
  destruct (Hskip post (update_column d1 col) (fun c Hc => or_intror Hc))
    as [F1 F2].
  rewrite F1, F2. unfold update_column. rewrite E2.
  destruct (df !! suffixed col) as [new|] eqn:Hnew.
  - rewrite lookup_delete_eq. split; [reflexivity|].
    rewrite lookup_delete_ne, lookup_insert_eq, E1; [reflexivity|].
    intros Heq. apply (Hsuf col col); auto.
  - now rewrite E2, E1.
Qed.

Lemma merged_name_cases left c :
  (exists s, left !! c = Some s /\ merged_name left c = suffixed c)
  \/ (left !! c = None /\ merged_name left c = c).
Proof.
  unfold merged_name. destruct (left !! c) as [s|] eqn:E.
  - left. exists s. split; [reflexivity|].
    now rewrite bool_decide_eq_true_2 by eauto.
  - right. split; [reflexivity|].
    rewrite bool_decide_eq_false_2; [reflexivity|].
    intros [x Hx]. discriminate.
Qed.

(** The merged table, at a column of the list: the new cells stand under
    the suffixed name next to the old ones, or under the plain name when
    the dataset had no such column. *)
Lemma merge_left_at main new_rows merged cols col lkeys rkeys :
  columns_ok cols -> col ∈ cols ->
  main !! suffixed col = None ->
  main !! "title" = Some lkeys -> new_rows !! "title" = Some rkeys ->
  merge_left main new_rows cols = Return merged ->
  exists s,
    new_rows !! col = Some s
    /\ match main !! col with
       | Some old =>
           merged !! suffixed col
           = Some (take_right (join_index lkeys rkeys) s)
           /\ merged !! col = Some (take_left (join_index lkeys rkeys) old)
       | None =>
           merged !! col = Some (take_right (join_index lkeys rkeys) s)
           /\ merged !! suffixed col = None
       end.
Proof.
  intros (Hnd & _ & Hsuf) Hcol Hfree Hl Hr. unfold merge_left.
  rewrite Hl, Hr. intros E. apply add_right_spec in E as [Hcols Hother].
  destruct (Hcols col Hcol) as (_ & s & Hs & Hnew). exists s.
  split; [assumption|].
  destruct (merged_name_cases main col) as [(old & Ho & Hn) | (Ho & Hn)];
    rewrite Ho; rewrite Hn in Hnew; (split; [assumption|]).
  - rewrite Hother, lookup_fmap, Ho; [reflexivity|].
    intros c Hc.
    destruct (merged_name_cases main c) as [(? & _ & ->) | (Hc0 & ->)].
    + intros Heq. now apply (Hsuf col c).
    + intros ->. rewrite Ho in Hc0. discriminate.
  - rewrite Hother, lookup_fmap, Hfree; [reflexivity|].
    intros c Hc.
    destruct (merged_name_cases main c) as [(x & Hx & ->) | (Hc0 & ->)].
    + intros Heq. apply suffixed_inj in Heq. subst c. rewrite Ho in Hx.
      discriminate.
    + intros Heq. now apply (Hsuf c col).
Qed.

Lemma take_right_cell idx s k i oj :
  idx !! k = Some (i, oj) ->
  take_right idx s !! k
  = Some (match oj with Some j => cell s j | None => NaN end).
Proof. intros E. unfold take_right. now rewrite list_lookup_fmap, E. Qed.

Lemma take_left_cell idx s k i oj :
  idx !! k = Some (i, oj) -> take_left idx s !! k = Some (cell s i).
Proof. intros E. unfold take_left. now rewrite list_lookup_fmap, E. Qed.

Lemma zip_seq_lookup {A} (l : list A) : forall j i x,
  In (i, x) (zip (seq j (length l)) l)
  <-> (j <= i)%nat /\ l !! (i - j)%nat = Some x.
Proof.
  induction l as [|y l IH]; intros j i x; simpl.
  - split; [contradiction | intros [_ E]; discriminate].
  - rewrite IH. split.
    + intros [[= <- <-] | [Hle E]].
      * split; [lia|]. now rewrite Nat.sub_diag.
      * split; [lia|]. now replace (i - j)%nat with (S (i - S j)) by lia.
    + intros [Hle E]. destruct (decide (i = j)) as [->|Hne].
      * rewrite Nat.sub_diag in E. injection E as ->. now left.
      * right. split; [lia|].
        now replace (i - j)%nat with (S (i - S j)) in E by lia.
Qed.

Lemma key_positions_spec kv rkeys j :
  In j (key_positions kv rkeys) <-> rkeys !! j = Some kv.
Proof.
  unfold key_positions. rewrite <- list_elem_of_In, list_elem_of_omap. split.
  - intros ([i x] & Hin & Hf). simpl in Hf.
    apply list_elem_of_In, zip_seq_lookup in Hin as [_ Hx].
    rewrite Nat.sub_0_r in Hx.
    destruct (bool_decide (x = kv)) eqn:E; [|discriminate].
    apply bool_decide_eq_true in E. injection Hf as <-. now subst.
  - intros Hj. exists (j, kv). split.
    + apply list_elem_of_In, zip_seq_lookup. split; [lia|].
      now rewrite Nat.sub_0_r.
    + simpl. now rewrite bool_decide_eq_true_2.
Qed.

(** A row of the join pairs a left row with a right row of the same key,
    or with none when no right row has the key. *)
Lemma join_index_spec lkeys rkeys i oj :
  In (i, oj) (join_index lkeys rkeys) ->
  exists kv,
    lkeys !! i = Some kv
    /\ match oj with
       | Some j => rkeys !! j = Some kv
       | None => forall j, rkeys !! j <> Some kv
       end.
Proof.
  unfold join_index. rewrite in_flat_map. intros ([i' kv] & Hin & Hrow).
  apply zip_seq_lookup in Hin as [_ Hkv]. rewrite Nat.sub_0_r in Hkv.
  cbn [fst snd] in Hrow. exists kv.
  destruct (key_positions kv rkeys) as [|j0 js] eqn:E.
  - destruct Hrow as [[= <- <-]|[]]. split; [assumption|].
    intros j Hj. apply key_positions_spec in Hj. now rewrite E in Hj.
  - apply list_elem_of_In, list_elem_of_fmap in Hrow as (j & [= -> ->] & Hj).
    split; [assumption|]. apply key_positions_spec. rewrite E.
    now apply list_elem_of_In.
Qed.

End MergeFacts.

(** C4: the update of the main dataset is a coalesce.  For every column
    the update names, and every row of the left join on the title (a row
    of the dataset, paired with a row of the new data of the same title or
    with none), the updated cell is the new value when that is not null
    and the existing value otherwise, and the suffixed helper column is
    gone: an existing non-null value survives a null new value, a null
    existing value takes a non-null new value, and of two non-null values
    the new one wins. *)
Theorem C4_merge_coalesces (main new_rows out : frame) (cols : list string)
    (lkeys rkeys : list pyval) (col : string) (k i : nat) (oj : option nat) :
  Merge.columns_ok cols ->
  col ∈ cols ->
  main !! Merge.suffixed col = None ->
  main !! "title" = Some lkeys ->
  new_rows !! "title" = Some rkeys ->
  Merge.update_dataset main new_rows cols = Return out ->
  Merge.join_index lkeys rkeys !! k = Some (i, oj) ->
  exists new_col result_col kv,
    new_rows !! col = Some new_col
    /\ out !! col = Some result_col
    /\ out !! Merge.suffixed col = None
    /\ lkeys !! i = Some kv
    /\ match oj with
       | Some j => rkeys !! j = Some kv
       | None => forall j, rkeys !! j <> Some kv
       end
    /\ let existing :=
         match main !! col with
         | Some old => Merge.cell old i
         | None => Merge.NaN
         end in
       let new :=
         match oj with
         | Some j => Merge.cell new_col j
         | None => Merge.NaN
         end in
       (isna existing = false -> isna new = true ->
        Merge.cell result_col k = existing)
       /\ (isna existing = true -> isna new = false ->
           Merge.cell result_col k = new)
       /\ (isna existing = false -> isna new = false ->
           Merge.cell result_col k = new).
Proof.
  intros Hok Hcol Hfree Hl Hr Hout Hk.
  unfold Merge.update_dataset in Hout.
  destruct (Merge.merge_left main new_rows cols) as [merged|e] eqn:Hm;
    [|discriminate].
  simpl in Hout. injection Hout as <-.
  destruct (MergeFacts.merge_left_at _ _ _ _ _ _ _ Hok Hcol Hfree Hl Hr Hm)
    as (new_col & Hnew & Hmerged).
  destruct (MergeFacts.update_columns_at cols merged col Hok Hcol)
    as [Hgone Hval].
  destruct (MergeFacts.join_index_spec lkeys rkeys i oj) as (kv & Hkv & Hkey).
  { apply list_elem_of_In, list_elem_of_lookup. eauto. }
  pose proof (MergeFacts.take_right_cell _ new_col _ _ _ Hk) as Hright.
  destruct (main !! col) as [old|] eqn:Hold.
  - destruct Hmerged as [Hs Hc]. rewrite Hs, Hc in Hval.
    eexists new_col, _, kv. repeat (split; [eassumption|]).
    pose proof (MergeFacts.take_left_cell _ old _ _ _ Hk) as Hleft.
    assert (Hcell : Merge.cell
                      (Merge.combine_first
                         (Merge.take_right (Merge.join_index lkeys rkeys) new_col)
                         (Merge.take_left (Merge.join_index lkeys rkeys) old)) k
                    = Merge.coalesce
                        (match oj with
                         | Some j => Merge.cell new_col j
                         | None => Merge.NaN
                         end) (Merge.cell old i)).
    { unfold Merge.cell at 1, Merge.combine_first.
      now rewrite lookup_zip_with, Hright, Hleft. }
    cbv zeta. rewrite Hcell. unfold Merge.coalesce.
    repeat split; intros H1 H2; rewrite H2; reflexivity || congruence.
  - destruct Hmerged as [Hc Hs]. rewrite Hs, Hc in Hval.
    eexists new_col, _, kv. repeat (split; [eassumption|]).
    assert (Hcell : Merge.cell
                      (Merge.take_right (Merge.join_index lkeys rkeys) new_col) k
                    = match oj with
                      | Some j => Merge.cell new_col j
                      | None => Merge.NaN
                      end).
    { unfold Merge.cell at 1. now rewrite Hright. }
    cbv zeta. rewrite Hcell.
    repeat split; intros H1 H2; try reflexivity.
    change (isna Merge.NaN) with true in H1. discriminate.
Qed.

Lemma C4_merge_coalesces_witness :
  exists result_col,
    sample_updated !! "first_week_gross" = Some result_col
    /\ Merge.cell result_col 0 = VFloat (of_Z 100)
    /\ Merge.cell result_col 1 = VFloat (of_Z 250).
Proof.
  destruct (C4_merge_coalesces sample_main sample_scraped sample_updated
              Merge.scraped_columns
              [VStr (U "A"); VStr (U "B"); VStr (U "C")]
              [VStr (U "A"); VStr (U "B")]
              "first_week_gross" 0 0 (Some 0%nat))
    as (new0 & res0 & kv0 & Hn0 & Ho0 & _ & _ & _ & Hkeep & _ & _).
  { apply MergeFacts.columns_ok_scraped. }
  { apply list_elem_of_here. }
  { vm_compute. reflexivity. }
  { vm_compute. reflexivity. }
  { vm_compute. reflexivity. }
  { vm_compute. reflexivity. }
  { vm_compute. reflexivity. }
  destruct (C4_merge_coalesces sample_main sample_scraped sample_updated
              Merge.scraped_columns
              [VStr (U "A"); VStr (U "B"); VStr (U "C")]
              [VStr (U "A"); VStr (U "B")]
              "first_week_gross" 1 1 (Some 1%nat))
    as (new1 & res1 & kv1 & Hn1 & Ho1 & _ & _ & _ & _ & Hadopt & _).
  { apply MergeFacts.columns_ok_scraped. }
  { apply list_elem_of_here. }
  { vm_compute. reflexivity. }
  { vm_compute. reflexivity. }
  { vm_compute. reflexivity. }
  { vm_compute. reflexivity. }
  { vm_compute. reflexivity. }
  exists res0. split; [exact Ho0|].
  assert (E : res1 = res0) by congruence. subst res1.
  assert (E0 : new0 = [Merge.NaN; VFloat (of_Z 250)])
    by (vm_compute in Hn0; injection Hn0 as <-; vm_compute; reflexivity).
  assert (E1 : new1 = new0) by congruence. subst new1 new0.
  split.
  - rewrite Hkeep; vm_compute; reflexivity.
  - rewrite Hadopt; vm_compute; reflexivity.
Defined.

(** * Further properties *)

(** ** The cell parsers *)

Lemma parse_int_agree s :
  BOMDailyCollector._parse_int s = YearBatchCollector._parse_int s.
Proof.
  unfold BOMDailyCollector._parse_int, YearBatchCollector._parse_int.
  set (t := replace1 44 [] (strip s)).
  destruct (decide (t = [])) as [E|E], (decide (t = U "-")) as [F|F];
    rewrite ?(bool_decide_eq_true_2 _ E), ?(bool_decide_eq_false_2 _ E),
            ?(bool_decide_eq_true_2 _ F), ?(bool_decide_eq_false_2 _ F);
    rewrite ?(bool_decide_eq_false_2 (t <> [])) by tauto;
    rewrite ?(bool_decide_eq_true_2 (t <> [])) by tauto;
    rewrite ?(bool_decide_eq_false_2 (t <> U "-")) by tauto;
    rewrite ?(bool_decide_eq_true_2 (t <> U "-")) by tauto;
    reflexivity.
Qed.

Lemma remove_commas_count s :
  forallb (fun d => is_digit d || (d =? 44)%N) s = true ->
  replace1 44 [] s = List.filter is_digit s.
Proof.
  unfold replace1. induction s as [|c t IH]; [reflexivity|].
  simpl forallb. rewrite andb_true_iff. intros [Hc Ht].
  specialize (IH Ht). simpl. rewrite IH.
  apply orb_true_iff in Hc as [Hd | Hcomma].
  - pose proof (proj1 (is_digit_spec c) Hd) as Hr. rewrite Hd.
    destruct (c =? 44)%N eqn:E; [apply N.eqb_eq in E; lia | reflexivity].
  - rewrite Hcomma. apply N.eqb_eq in Hcomma. now subst c.
Qed.

Lemma py_int_digits_cases ds :
  Forall (fun c => is_digit c = true) ds -> ds <> [] ->
  py_int ds
  = if int_max_str_digits <? Z.of_nat (length ds) then Raise ValueError
    else Return (digits_to_Z (digit_val <$> ds)).
Proof.
  intros H Hne. unfold py_int.
  rewrite fmap_fixed
    by (eapply Forall_impl; [exact H | intros c; apply to_ascii_digit]).
  rewrite c_strip_digits, underscores_ok_digits by (assumption || discriminate).
  destruct ds as [|c t]; [contradiction|].
  inversion H as [|? ? Hc Ht]; subst.
  pose proof (proj1 (is_digit_spec c) Hc) as Hr.
  destruct (c =? 43)%N eqn:E1; [apply N.eqb_eq in E1; lia|].
  destruct (c =? 45)%N eqn:E2; [apply N.eqb_eq in E2; lia|].
  rewrite drop_underscores_digits, span_digits_all by assumption.
  rewrite fmap_cons.
  replace (length (digit_val c :: (digit_val <$> t))) with (length (c :: t))
    by (cbn [length]; now rewrite length_fmap).
  now destruct (int_max_str_digits <? Z.of_nat (length (c :: t))).
Qed.

Lemma py_int_digits ds :
  Forall (fun c => is_digit c = true) ds -> ds <> [] ->
  Z.of_nat (length ds) <= int_max_str_digits ->
  py_int ds = Return (digits_to_Z (digit_val <$> ds)).
Proof.
  intros H Hne Hlen. rewrite py_int_digits_cases by assumption.
  destruct (Z.ltb_spec int_max_str_digits (Z.of_nat (length ds)));
    [lia | reflexivity].
Qed.

Lemma count_text_shape s :
  is_count_string s = true ->
  int_text s = List.filter is_digit s /\ int_text s <> [].
Proof.
  unfold is_count_string. rewrite andb_true_iff. intros [Hall Hex].
  assert (Hs : strip s = s).
  { apply strip_no_space, Forall_forall. intros x Hx.
    apply money_char_not_space. rewrite forallb_forall in Hall.
    apply Hall. now apply list_elem_of_In. }
  assert (E : int_text s = List.filter is_digit s).
  { unfold int_text. rewrite Hs. now apply remove_commas_count. }
  split; [exact E|]. rewrite E.
  apply existsb_exists in Hex as (x & Hx & Hd). intros Hnil.
  assert (Hin : In x (List.filter is_digit s)) by (apply filter_In; auto).
  now rewrite Hnil in Hin.
Qed.

Lemma parse_int_count_cases s :
  is_count_string s = true ->
  YearBatchCollector._parse_int s
  = if int_max_str_digits <? digit_count s then None
    else Some (money_value s).
Proof.
  intros Hs.
  destruct (count_text_shape s Hs) as [E Hne].
  pose proof (filter_digits_all s) as Hd.
  unfold YearBatchCollector._parse_int. fold (int_text s).
  rewrite bool_decide_eq_true_2 by assumption.
  rewrite bool_decide_eq_true_2.
  2:{ rewrite E. intros Heq. rewrite Heq in Hd. inversion Hd as [|? ? Hc _].
      vm_compute in Hc. discriminate. }
  simpl andb. cbv iota.
  rewrite E, py_int_digits_cases by (assumption || (rewrite <- E; assumption)).
  unfold digit_count.
  now destruct (int_max_str_digits
                <? Z.of_nat (length (List.filter is_digit s))).
Qed.

Lemma parse_int_of_count s :
  is_count_string s = true ->
  digit_count s <= int_max_str_digits ->
  YearBatchCollector._parse_int s = Some (money_value s).
Proof.
  intros Hs Hlen. rewrite parse_int_count_cases by assumption.
  destruct (Z.ltb_spec int_max_str_digits (digit_count s));
    [lia | reflexivity].
Qed.

(** X1: [_parse_int] reads a count written with digits and comma
    separators as exactly the integer its digits write (Python integers
    do not round), as long as it has at most 4300 digits, the most
    [int] converts; a count of more digits is read as [None].  This holds
    in both collectors. *)
Theorem X1_parse_int_exact (s : pystr) :
  is_count_string s = true ->
  (digit_count s <= int_max_str_digits ->
   YearBatchCollector._parse_int s = Some (money_value s)
   /\ BOMDailyCollector._parse_int s = Some (money_value s))
  /\ (int_max_str_digits < digit_count s ->
      YearBatchCollector._parse_int s = None
      /\ BOMDailyCollector._parse_int s = None).
Proof.
  intros Hs. rewrite parse_int_agree, parse_int_count_cases by assumption.
  destruct (Z.ltb_spec int_max_str_digits (digit_count s)); split;
    intros Hlen; try lia; now split.
Qed.

Lemma X1_parse_int_exact_witness :
  YearBatchCollector._parse_int (U "12,345,678,901,234,567,890")
  = Some (money_value (U "12,345,678,901,234,567,890"))
  /\ BOMDailyCollector._parse_int (U "12,345,678,901,234,567,890")
     = Some (money_value (U "12,345,678,901,234,567,890")).
Proof.
  apply (X1_parse_int_exact (U "12,345,678,901,234,567,890")).
  - reflexivity.
  - vm_compute. discriminate.
Defined.

Lemma format_count_shape n :
  0 <= n ->
  is_count_string (format_count n) = true
  /\ money_value (format_count n) = n.
Proof.
  intros Hn. unfold format_count, is_count_string.
  destruct (decimal_digits_spec n Hn) as (Hd & Hne & Hv).
  destruct (group_thousands_spec _ Hd) as [E1 E2].
  split.
  - rewrite E2. simpl andb.
    destruct (decimal_digits n) as [|c t] eqn:Ed; [contradiction|].
    apply existsb_exists. exists c. inversion Hd; subst. split; [|assumption].
    assert (In c (List.filter is_digit (group_thousands (c :: t))))
      by (rewrite E1; now left).
    apply filter_In in H. tauto.
  - unfold money_value. now rewrite E1.
Qed.

Lemma digits_fuel_length f : forall n k,
  1 <= k -> 0 <= n < 10 ^ k ->
  Z.of_nat (length (digits_fuel f n [])) <= k.
Proof.
  induction f as [|f IH]; intros n k Hk Hn; [simpl; lia|].
  cbn [digits_fuel]. cbv zeta.
  destruct (Z.ltb_spec n 10) as [Hlt|Hge]; [simpl; lia|].
  rewrite digits_fuel_acc, length_app. cbn [length].
  assert (Hk2 : 2 <= k).
  { destruct (Z.eq_dec k 1) as [->|]; [|lia].
    change (10 ^ 1) with 10 in Hn. lia. }
  assert (Hpow : 10 ^ k = 10 * 10 ^ (k - 1)).
  { replace k with (Z.succ (k - 1)) at 1 by lia.
    apply Z.pow_succ_r. lia. }
  specialize (IH (n / 10) (k - 1)).
  assert (Hdiv : 0 <= n / 10 < 10 ^ (k - 1)).
  { split; [apply Z.div_pos; lia|].
    apply Z.div_lt_upper_bound; lia. }
  specialize (IH ltac:(lia) Hdiv). lia.
Qed.

Lemma format_count_digits n :
  0 <= n < 10 ^ int_max_str_digits ->
  digit_count (format_count n) <= int_max_str_digits.
Proof.
  intros Hn. unfold digit_count, format_count.
  destruct (decimal_digits_spec n (proj1 Hn)) as (Hd & _ & _).
  rewrite (proj1 (group_thousands_spec _ Hd)).
  unfold decimal_digits. apply digits_fuel_length; [|exact Hn].
  unfold int_max_str_digits. lia.
Qed.

(** X2: a natural number of at most 4300 digits, printed with thousands
    separators, is read back by [_parse_int] as the same number.  (Beyond
    4300 digits Python neither prints nor reads an integer.) *)
Theorem X2_parse_int_roundtrip (n : Z) :
  0 <= n < 10 ^ int_max_str_digits ->
  YearBatchCollector._parse_int (format_count n) = Some n
  /\ BOMDailyCollector._parse_int (format_count n) = Some n.
Proof.
  intros Hn. destruct (format_count_shape n (proj1 Hn)) as [Hs Hv].
  rewrite parse_int_agree,
    (parse_int_of_count _ Hs (format_count_digits n Hn)), Hv.
  now split.
Qed.

Lemma X2_parse_int_roundtrip_witness :
  YearBatchCollector._parse_int (format_count 4321) = Some 4321
  /\ BOMDailyCollector._parse_int (format_count 4321) = Some 4321.
Proof.
  apply (X2_parse_int_roundtrip 4321).
  split; [lia|]. apply Z.ltb_lt. vm_compute. reflexivity.
Defined.

Lemma lstrip_spaces ws s :
  Forall (fun c => isspace c = true) ws -> lstrip (ws ++ s) = lstrip s.
Proof.
  induction 1 as [|c ws Hc _ IH]; [reflexivity|]. simpl. now rewrite Hc.
Qed.

Lemma lstrip_app s k :
  lstrip (s ++ k) = match lstrip s with
                    | [] => lstrip k
                    | t => t ++ k
                    end.
Proof.
  induction s as [|c s IH]; simpl; [now destruct (lstrip k)|].
  destruct (isspace c); [exact IH | reflexivity].
Qed.

Lemma rstrip_spaces s ws :
  Forall (fun c => isspace c = true) ws -> rstrip (s ++ ws) = rstrip s.
Proof.
  intros H. unfold rstrip. rewrite rev_app_distr, lstrip_spaces; [reflexivity|].
  now apply Forall_rev.
Qed.

Lemma lstrip_all_space ws :
  Forall (fun c => isspace c = true) ws -> lstrip ws = [].
Proof.
  intros H. rewrite <- (app_nil_r ws). now rewrite lstrip_spaces.
Qed.

Lemma strip_surrounded ws s ws' :
  Forall (fun c => isspace c = true) ws ->
  Forall (fun c => isspace c = true) ws' ->
  strip (ws ++ s ++ ws') = strip s.
Proof.
  intros H H'. unfold strip. rewrite lstrip_spaces, lstrip_app by assumption.
  destruct (lstrip s) as [|c t] eqn:E.
  - now rewrite lstrip_all_space.
  - now apply rstrip_spaces.
Qed.

(** X3: white space around a cell text (spaces, tabs, line breaks, and
    every other character [str.isspace] accepts) changes nothing in what
    [_parse_money], [_parse_percent] and [_parse_int] return. *)
Theorem X3_parsers_ignore_outer_space (ws s ws' : pystr) :
  Forall (fun c => isspace c = true) ws ->
  Forall (fun c => isspace c = true) ws' ->
  YearBatchCollector._parse_money (ws ++ s ++ ws')
  = YearBatchCollector._parse_money s
  /\ YearBatchCollector._parse_percent (ws ++ s ++ ws')
     = YearBatchCollector._parse_percent s
  /\ YearBatchCollector._parse_int (ws ++ s ++ ws')
     = YearBatchCollector._parse_int s
  /\ BOMDailyCollector._parse_money (ws ++ s ++ ws')
     = BOMDailyCollector._parse_money s
  /\ BOMDailyCollector._parse_percent (ws ++ s ++ ws')
     = BOMDailyCollector._parse_percent s
  /\ BOMDailyCollector._parse_int (ws ++ s ++ ws')
     = BOMDailyCollector._parse_int s.
Proof.
  intros H H'. pose proof (strip_surrounded ws s ws' H H') as E.
  unfold YearBatchCollector._parse_money, YearBatchCollector._parse_percent,
    YearBatchCollector._parse_int, BOMDailyCollector._parse_money,
    BOMDailyCollector._parse_percent, BOMDailyCollector._parse_int.
  rewrite E. repeat split.
Qed.

Lemma X3_parsers_ignore_outer_space_witness :
  YearBatchCollector._parse_money (U " " ++ U "$1,000" ++ [10%N; 160%N])
  = YearBatchCollector._parse_money (U "$1,000").
Proof.
  apply (X3_parsers_ignore_outer_space (U " ") (U "$1,000") [10%N; 160%N]).
  - repeat constructor.
  - repeat constructor.
Defined.

(** ** The scraper *)

Lemma absolute_url_cases base u :
  absolute_url base u = None
  \/ exists c h, absolute_url base u = Some (base ++ c :: h).
Proof. destruct u as [[|c h]|]; simpl; eauto. Qed.

Lemma year_row_dict_spec date_str tr r :
  YearBatchScraper.row_dict date_str tr = Return r ->
  match r with
  | Some x => usable_row tr = true /\ listed_on date_str x
  | None => usable_row tr = false
  end.
Proof.
  unfold YearBatchScraper.row_dict, usable_row.
  do 9 (destruct tr as [|? tr]; [intros [= <-]; reflexivity|]).
  destruct (anchor_href (td_anchor t1)) as [u|e]; [|discriminate].
  simpl. intros [= <-]. split; [reflexivity|].
  split; [reflexivity|]. split; [eauto|]. apply absolute_url_cases.
Qed.

Lemma bom_row_data_spec date_str tr r :
  BOMDailyScraper.row_data date_str tr = Return r ->
  match r with
  | Some x => usable_row tr = true /\ listed_on date_str x
  | None => usable_row tr = false
  end.
Proof.
  unfold BOMDailyScraper.row_data, usable_row.
  do 9 (destruct tr as [|? tr]; [intros [= <-]; reflexivity|]).
  destruct (anchor_href (td_anchor t1)) as [u|e]; [|discriminate].
  simpl. intros [= <-]. split; [reflexivity|].
  split; [reflexivity|]. split; [eauto|]. apply absolute_url_cases.
Qed.

Lemma year_table_rows_spec date_str trs : forall rows,
  YearBatchScraper.table_rows date_str trs = Return rows ->
  length rows = length (List.filter usable_row trs)
  /\ Forall (listed_on date_str) rows.
Proof.
  induction trs as [|tr more IH]; intros rows; simpl.
  - intros [= <-]. split; [reflexivity | constructor].
  - destruct (YearBatchScraper.row_dict date_str tr) as [r|e] eqn:Hr;
      [|discriminate].
    apply year_row_dict_spec in Hr. simpl.
    destruct (YearBatchScraper.table_rows date_str more) as [rs|e];
      [|discriminate].
    destruct (IH rs eq_refl) as [Hlen Hall]. simpl. intros [= <-].
    destruct r as [x|].
    + destruct Hr as [-> Hx]. simpl. split; [now rewrite Hlen|].
      now constructor.
    + rewrite Hr. now split.
Qed.

Lemma bom_table_rows_spec date_str trs : forall rows,
  BOMDailyScraper.table_rows date_str trs = Return rows ->
  length rows = length (List.filter usable_row trs)
  /\ Forall (listed_on date_str) rows.
Proof.
  induction trs as [|tr more IH]; intros rows; simpl.
  - intros [= <-]. split; [reflexivity | constructor].
  - destruct (BOMDailyScraper.row_data date_str tr) as [r|e] eqn:Hr;
      [|discriminate].
    apply bom_row_data_spec in Hr. simpl.
    destruct (BOMDailyScraper.table_rows date_str more) as [rs|e];
      [|discriminate].
    destruct (IH rs eq_refl) as [Hlen Hall]. simpl. intros [= <-].
    destruct r as [x|].
    + destruct Hr as [-> Hx]. simpl. split; [now rewrite Hlen|].
      now constructor.
    + rewrite Hr. now split.
Qed.

(** X4: when [scrape_daily_data] returns data, the response had a status
    outside 400-599 and a table, and the data is one record for each
    table row of at least nine cells after the header row, at least one
    of them; every record carries the requested date, a title, and either
    no URL or a URL that extends the site's base URL.  This holds for both
    collectors. *)
Theorem X4_scraped_rows (page : http_outcome) (date_str : Z)
    (rows : list DailyRecord) :
  YearBatchScraper.scrape_daily_data page date_str = Return (Some rows)
  \/ BOMDailyScraper.scrape_daily_data page date_str = Return (Some rows) ->
  exists status_code trs,
    page = Response status_code (Some trs)
    /\ ~ (400 <= status_code < 600)
    /\ length rows = length (List.filter usable_row (tail trs))
    /\ rows <> []
    /\ Forall (listed_on date_str) rows.
Proof.
  unfold YearBatchScraper.scrape_daily_data,
    BOMDailyScraper.scrape_daily_data,
    YearBatchScraper.scrape_body, BOMDailyScraper.scrape_body.
  destruct page as [|st [trs|]]; simpl;
    try (intros [H|H]; discriminate H);
    try (intros [H|H]; destruct (raise_for_status st); discriminate H).
  intros H. exists st, trs. split; [reflexivity|].
  assert (Hst : ~ (400 <= st < 600)).
  { intros Hs. rewrite raise_for_status_error in H by assumption.
    destruct H as [H|H]; discriminate H. }
  split; [exact Hst|].
  destruct (raise_for_status st) as [[]|e];
    [|destruct H as [H|H]; discriminate H].
  simpl in H. destruct H as [H|H].
  - destruct (YearBatchScraper.table_rows date_str (tail trs)) as [rs|e] eqn:E;
      [|discriminate H].
    apply year_table_rows_spec in E as [Hlen Hall].
    destruct rs as [|r rs]; [discriminate H|].
    simpl in H. injection H as <-. repeat split; try assumption.
    discriminate.
  - destruct (BOMDailyScraper.table_rows date_str (tail trs)) as [rs|e] eqn:E;
      [|discriminate H].
    apply bom_table_rows_spec in E as [Hlen Hall].
    destruct rs as [|r rs]; [discriminate H|].
    simpl in H. injection H as <-. repeat split; try assumption.
    discriminate.
Qed.

Lemma X4_scraped_rows_witness :
  exists status_code trs,
    steady_site day0 = Response status_code (Some trs)
    /\ ~ (400 <= status_code < 600)
    /\ length one_film_rows = length (List.filter usable_row (tail trs))
    /\ one_film_rows <> []
    /\ Forall (listed_on day0) one_film_rows.
Proof.
  apply (X4_scraped_rows (steady_site day0) day0 one_film_rows).
  left. vm_compute. reflexivity.
Defined.

Lemma row_data_without_distributor date_str tr :
  fmap (M := result) (fmap (M := option) without_distributor)
    (BOMDailyScraper.row_data date_str tr)
  = YearBatchScraper.row_dict date_str tr.
Proof.
  unfold BOMDailyScraper.row_data, YearBatchScraper.row_dict.
  do 9 (destruct tr as [|? tr]; [reflexivity|]).
  destruct (anchor_href (td_anchor t1)) as [u|e]; [|reflexivity].
  simpl. unfold without_distributor. simpl.
  rewrite !parse_money_agree, !parse_percent_agree, !parse_int_agree.
  destruct tr as [|c9 tr]; [reflexivity|]. now rewrite parse_int_agree.
Qed.

Lemma table_rows_without_distributor date_str trs :
  fmap (M := result) (fmap (M := list) without_distributor)
    (BOMDailyScraper.table_rows date_str trs)
  = YearBatchScraper.table_rows date_str trs.
Proof.
  induction trs as [|tr more IH]; [reflexivity|]. simpl.
  rewrite <- row_data_without_distributor, <- IH.
  destruct (BOMDailyScraper.row_data date_str tr) as [[x|]|e];
    [| |reflexivity]; simpl;
    now destruct (BOMDailyScraper.table_rows date_str more).
Qed.

(** X5: the two collectors scrape alike: on every response and date,
    [BOMDailyCollector.scrape_daily_data] returns what
    [YearBatchCollector.scrape_daily_data] returns, with the distributor
    column in addition. *)
Theorem X5_scrapers_agree (page : http_outcome) (date_str : Z) :
  fmap (M := result)
    (fmap (M := option) (fmap (M := list) without_distributor))
    (BOMDailyScraper.scrape_daily_data page date_str)
  = YearBatchScraper.scrape_daily_data page date_str.
Proof.
  unfold YearBatchScraper.scrape_daily_data,
    BOMDailyScraper.scrape_daily_data,
    YearBatchScraper.scrape_body, BOMDailyScraper.scrape_body.
  destruct page as [|st [trs|]]; [reflexivity| |].
  - destruct (raise_for_status st) as [[]|e]; [|reflexivity]. simpl.
    rewrite <- table_rows_without_distributor.
    destruct (BOMDailyScraper.table_rows date_str (tail trs)) as [[|r rs]|e];
      reflexivity.
  - now destruct (raise_for_status st).
Qed.

(** ** The date strategies *)

Lemma dates_loop_closed fuel : forall current stop step,
  0 < step -> stop - current + 1 <= Z.of_nat fuel ->
  YearBatchRun.dates_loop fuel current stop step
  = (fun i => current + step * i)
      <$> seqZ 0 (if current <=? stop then (stop - current) / step + 1
                  else 0).
Proof.
  induction fuel as [|fuel IH]; intros current stop step Hstep Hfuel.
  - cbn [YearBatchRun.dates_loop].
    destruct (Z.leb_spec current stop); [lia | reflexivity].
  - cbn [YearBatchRun.dates_loop].
    destruct (Z.leb_spec current stop) as [Hle|Hgt]; [|reflexivity].
    rewrite IH by lia.
    assert (Hq : 0 <= (stop - current) / step) by (apply Z.div_pos; lia).
    rewrite (seqZ_cons 0 ((stop - current) / step + 1)) by lia.
    cbn [fmap list_fmap].
    rewrite Z.mul_0_r, Z.add_0_r. f_equal.
    replace (Z.pred ((stop - current) / step + 1))
      with ((stop - current) / step) by lia.
    change (Z.succ 0) with (1 + 0). rewrite <- fmap_add_seqZ.
    rewrite <- list_fmap_compose.
    assert (Hn : (if current + step <=? stop
                  then (stop - (current + step)) / step + 1 else 0)
                 = (stop - current) / step).
    { destruct (Z.leb_spec (current + step) stop) as [H1|H1].
      - replace (stop - (current + step)) with (stop - current + (-1) * step)
          by lia.
        rewrite Z.div_add by lia. lia.
      - symmetry. apply Z.div_small. lia. }
    rewrite Hn. apply list_fmap_ext. intros _ i _. simpl. lia.
Qed.

Lemma year_span y :
  Calendar.ordinal y 12 31 - Calendar.ordinal y 1 1
  = if Calendar.is_leap y then 365 else 364.
Proof.
  unfold Calendar.ordinal, Calendar.days_before_month.
  change (seqZ 1 (12 - 1)) with [1; 2; 3; 4; 5; 6; 7; 8; 9; 10; 11].
  change (seqZ 1 (1 - 1)) with (@nil Z).
  unfold Calendar.days_in_month. cbn [fmap list_fmap foldr Z.eqb Pos.eqb orb].
  destruct (Calendar.is_leap y); lia.
Qed.

Lemma every_closed step start stop :
  0 < step -> start <= stop ->
  YearBatchRun.every step start stop
  = (fun i => start + step * i) <$> seqZ 0 ((stop - start) / step + 1).
Proof.
  intros Hstep Hle. unfold YearBatchRun.every.
  rewrite dates_loop_closed by lia.
  destruct (Z.leb_spec start stop); [reflexivity | lia].
Qed.

(** X6: for every year the calendar has (1 to 9998), the weekly strategy
    yields exactly 53 dates, 1 January and every seventh day after it, and
    the biweekly strategy exactly 27 dates, 1 January and every fourteenth
    day after it; the last date is day 364 after 1 January in both. *)
Theorem X6_weekly_biweekly_dates (year : Z) :
  1 <= year <= 9998 ->
  YearBatchRun._generate_weekly_dates year
  = (fun i => Calendar.ordinal year 1 1 + 7 * i) <$> seqZ 0 53
  /\ YearBatchRun._generate_biweekly_dates year
     = (fun i => Calendar.ordinal year 1 1 + 14 * i) <$> seqZ 0 27
  /\ length (YearBatchRun._generate_weekly_dates year) = 53%nat
  /\ length (YearBatchRun._generate_biweekly_dates year) = 27%nat.
Proof.
  intros _. pose proof (year_span year) as Hspan.
  assert (W : YearBatchRun._generate_weekly_dates year
              = (fun i => Calendar.ordinal year 1 1 + 7 * i) <$> seqZ 0 53).
  { unfold YearBatchRun._generate_weekly_dates.
    rewrite every_closed by (destruct (Calendar.is_leap year); lia).
    rewrite Hspan. now destruct (Calendar.is_leap year). }
  assert (B : YearBatchRun._generate_biweekly_dates year
              = (fun i => Calendar.ordinal year 1 1 + 14 * i) <$> seqZ 0 27).
  { unfold YearBatchRun._generate_biweekly_dates.
    rewrite every_closed by (destruct (Calendar.is_leap year); lia).
    rewrite Hspan. now destruct (Calendar.is_leap year). }
  rewrite W, B. repeat split; now rewrite length_fmap, length_seqZ.
Qed.

Lemma X6_weekly_biweekly_dates_witness :
  length (YearBatchRun._generate_weekly_dates 2024) = 53%nat
  /\ length (YearBatchRun._generate_biweekly_dates 2024) = 27%nat.
Proof.
  apply (X6_weekly_biweekly_dates 2024). lia.
Defined.

Ltac mod_lia := Z.to_euclidean_division_equations; lia.

Lemma first_friday_spec s :
  s <= YearBatchRun.first_friday 7 s <= s + 6
  /\ Calendar.weekday (YearBatchRun.first_friday 7 s) = 4
  /\ forall d, s <= d < YearBatchRun.first_friday 7 s ->
               Calendar.weekday d <> 4.
Proof.
  pose proof (Z.mod_pos_bound (4 - (s + 6)) 7 ltac:(lia)) as Hk.
  remember ((4 - (s + 6)) mod 7) as k eqn:Ek.
  assert (Hcases : k = 0 \/ k = 1 \/ k = 2 \/ k = 3 \/ k = 4 \/ k = 5
                   \/ k = 6) by lia.
  unfold YearBatchRun.first_friday, Calendar.weekday.
  destruct Hcases as [->|[->|[->|[->|[->|[->| ->]]]]]];
    repeat match goal with
           | |- context [(?a mod 7 =? 4)] =>
               destruct (Z.eqb_spec (a mod 7) 4); [|try mod_lia]
           end;
    try mod_lia;
    (split; [lia|]); (split; [assumption|]); intros d Hd; mod_lia.
Qed.

Lemma elem_of_every step start stop d :
  0 < step -> start <= stop ->
  d ∈ YearBatchRun.every step start stop
  <-> start <= d <= stop /\ (d - start) mod step = 0.
Proof.
  intros Hstep Hle. rewrite every_closed by assumption.
  rewrite list_elem_of_fmap. setoid_rewrite elem_of_seqZ. split.
  - intros (i & -> & Hi).
    assert (Hq : step * ((stop - start) / step) <= stop - start)
      by (apply Z.mul_div_le; lia).
    split; [nia|].
    replace (start + step * i - start) with (i * step) by lia.
    apply Z.mod_mul. lia.
  - intros [Hd Hm]. exists ((d - start) / step).
    pose proof (Z.div_mod (d - start) step ltac:(lia)) as Hdm.
    split; [lia|]. split; [apply Z.div_pos; lia|].
    assert ((d - start) / step <= (stop - start) / step)
      by (apply Z.div_le_mono; lia).
    lia.
Qed.

Lemma add_absent_spec hs : forall ds : list Z,
  (forall d, d ∈ fold_left
                   (fun dates holiday =>
                      if bool_decide (holiday ∈ dates) then dates
                      else dates ++ [holiday]) hs ds
             <-> d ∈ ds \/ d ∈ hs)
  /\ (NoDup ds ->
      NoDup (fold_left
               (fun dates holiday =>
                  if bool_decide (holiday ∈ dates) then dates
                  else dates ++ [holiday]) hs ds)).
Proof.
  induction hs as [|h hs IH]; intros ds; simpl.
  - split; [|auto]. intros d. rewrite elem_of_nil. tauto.
  - destruct (IH (if bool_decide (h ∈ ds) then ds else ds ++ [h]))
      as [Hin Hnd].
    split.
    + intros d. rewrite Hin, elem_of_cons.
      destruct (decide (h ∈ ds)) as [Hh|Hh].
      * rewrite bool_decide_eq_true_2 by assumption.
        split; [tauto|]. intros [?|[->|?]]; tauto.
      * rewrite bool_decide_eq_false_2 by assumption.
        rewrite elem_of_app, list_elem_of_singleton. tauto.
    + intros Hds. apply Hnd.
      destruct (decide (h ∈ ds)) as [Hh|Hh].
      * now rewrite bool_decide_eq_true_2.
      * rewrite bool_decide_eq_false_2 by assumption.
        apply NoDup_app. repeat split; [assumption| |apply NoDup_singleton].
        intros x Hx Hx'. apply list_elem_of_singleton in Hx'. now subst.
Qed.

Lemma elem_of_insert_sorted d l x :
  x ∈ YearBatchRun.insert_sorted d l <-> x = d \/ x ∈ l.
Proof.
  induction l as [|y t IH]; simpl.
  - rewrite list_elem_of_singleton, elem_of_nil. tauto.
  - destruct (d <=? y); rewrite !elem_of_cons, ?IH; tauto.
Qed.

Lemma elem_of_sorted l x : x ∈ YearBatchRun.sorted l <-> x ∈ l.
Proof.
  induction l as [|y t IH]; simpl; [reflexivity|].
  rewrite elem_of_insert_sorted, elem_of_cons, IH. reflexivity.
Qed.

Lemma insert_sorted_increasing d l :
  Sorted Z.lt l -> d ∉ l -> Sorted Z.lt (YearBatchRun.insert_sorted d l).
Proof.
  induction 1 as [|y t Ht IH Hhd]; intros Hd; simpl.
  - repeat constructor.
  - apply not_elem_of_cons in Hd as [Hne Hd].
    destruct (Z.leb_spec d y).
    + constructor; [now constructor|]. constructor. lia.
    + constructor; [now apply IH|].
      destruct t as [|z t]; simpl.
      * constructor. lia.
      * inversion Hhd; subst. destruct (d <=? z); constructor; lia.
Qed.

Lemma sorted_increasing l : NoDup l -> Sorted Z.lt (YearBatchRun.sorted l).
Proof.
  induction 1 as [|y t Hy Ht IH]; simpl; [constructor|].
  apply insert_sorted_increasing; [assumption|]. now rewrite elem_of_sorted.
Qed.

Lemma NoDup_every step start stop :
  0 < step -> start <= stop -> NoDup (YearBatchRun.every step start stop).
Proof.
  intros Hstep Hle. rewrite every_closed by assumption.
  apply NoDup_fmap_2; [|apply NoDup_seqZ].
  intros i j Hij. nia.
Qed.

Lemma smart_dates_spec (year : Z) :
  Sorted Z.lt (YearBatchRun._generate_smart_dates year)
  /\ forall d, d ∈ YearBatchRun._generate_smart_dates year
               <-> friday_of year d \/ d ∈ holiday_dates year.
Proof.
  unfold YearBatchRun._generate_smart_dates.
  set (jan1 := Calendar.ordinal year 1 1).
  set (dec31 := Calendar.ordinal year 12 31).
  destruct (first_friday_spec jan1) as (Hff & Hwd & Hfirst).
  set (ff := YearBatchRun.first_friday 7 jan1) in *.
  assert (Hspan : dec31 - jan1 >= 364).
  { unfold dec31, jan1. rewrite year_span.
    destruct (Calendar.is_leap year); lia. }
  destruct (add_absent_spec (holiday_dates year)
              (YearBatchRun.every 7 ff dec31)) as [Hin Hnd].
  split.
  - apply sorted_increasing, Hnd, NoDup_every; lia.
  - intros d. rewrite elem_of_sorted.
    change [jan1; Calendar.ordinal year 2 14; Calendar.ordinal year 3 29;
            Calendar.ordinal year 5 24; Calendar.ordinal year 7 4;
            Calendar.ordinal year 11 28; Calendar.ordinal year 12 25]
      with (holiday_dates year).
    rewrite Hin, elem_of_every by lia.
    enough (ff <= d <= dec31 /\ (d - ff) mod 7 = 0 <-> friday_of year d)
      by tauto.
    unfold friday_of. fold jan1 dec31. unfold Calendar.weekday in *.
    split.
    + intros [Hd Hm]. split; [lia | mod_lia].
    + intros [Hd Hw]. destruct (Z.lt_ge_cases d ff) as [Hlt|Hge].
      * exfalso. apply (Hfirst d); [lia | assumption].
      * split; [lia | mod_lia].
Qed.

(** X7: for every year from 1 to 9998, the dates of the smart strategy
    are, in strictly increasing order and without repetition, exactly the
    Fridays of the year together with the seven fixed holiday dates
    (1 January, 14 February, 29 March, 24 May, 4 July, 28 November and
    25 December). *)
Theorem X7_smart_dates (year : Z) :
  1 <= year <= 9998 ->
  Sorted Z.lt (YearBatchRun._generate_smart_dates year)
  /\ forall d, d ∈ YearBatchRun._generate_smart_dates year
               <-> friday_of year d \/ d ∈ holiday_dates year.
Proof. intros _. apply smart_dates_spec. Qed.

Lemma X7_smart_dates_witness :
  Sorted Z.lt (YearBatchRun._generate_smart_dates 2024).
Proof. apply (X7_smart_dates 2024). lia. Defined.

Lemma weekly_dates_closed year :
  YearBatchRun._generate_weekly_dates year
  = (fun i => Calendar.ordinal year 1 1 + 7 * i) <$> seqZ 0 53.
Proof.
  pose proof (year_span year) as Hspan.
  unfold YearBatchRun._generate_weekly_dates.
  rewrite every_closed by (destruct (Calendar.is_leap year); lia).
  rewrite Hspan. now destruct (Calendar.is_leap year).
Qed.

Lemma biweekly_dates_closed year :
  YearBatchRun._generate_biweekly_dates year
  = (fun i => Calendar.ordinal year 1 1 + 14 * i) <$> seqZ 0 27.
Proof.
  pose proof (year_span year) as Hspan.
  unfold YearBatchRun._generate_biweekly_dates.
  rewrite every_closed by (destruct (Calendar.is_leap year); lia).
  rewrite Hspan. now destruct (Calendar.is_leap year).
Qed.

(** X8: the weekly and the smart strategy leave no first week
    unsampled.  For every year from 1 to 9998 and every release date from
    1 January to day 364 after it, one of the weekly dates lies in the
    seven days from the release date on; and for every release date whose
    first week lies within the year, one of the smart dates (a Friday)
    does. *)
Theorem X8_weekly_smart_cover_first_week (year r : Z) :
  1 <= year <= 9998 ->
  (Calendar.ordinal year 1 1 <= r <= Calendar.ordinal year 1 1 + 364 ->
   exists d, d ∈ YearBatchRun._generate_weekly_dates year /\ r <= d <= r + 6)
  /\ (Calendar.ordinal year 1 1 <= r /\ r + 6 <= Calendar.ordinal year 12 31 ->
      exists d, d ∈ YearBatchRun._generate_smart_dates year
                /\ r <= d <= r + 6).
Proof.
  intros _. split.
  - intros Hr. rewrite weekly_dates_closed.
    set (jan1 := Calendar.ordinal year 1 1) in *.
    exists (jan1 + 7 * ((r - jan1 + 6) / 7)). split.
    + apply list_elem_of_fmap. exists ((r - jan1 + 6) / 7).
      split; [reflexivity|]. apply elem_of_seqZ. mod_lia.
    + mod_lia.
  - intros [Hlo Hhi].
    exists (r + (4 - (r + 6)) mod 7).
    pose proof (Z.mod_pos_bound (4 - (r + 6)) 7 ltac:(lia)) as Hk.
    split; [|lia].
    apply smart_dates_spec. left. unfold friday_of, Calendar.weekday.
    split; [lia | mod_lia].
Qed.

Lemma X8_weekly_smart_cover_first_week_witness :
  (exists d, d ∈ YearBatchRun._generate_weekly_dates 2024
             /\ day0 <= d <= day0 + 6)
  /\ (exists d, d ∈ YearBatchRun._generate_smart_dates 2024
                /\ day0 <= d <= day0 + 6).
Proof.
  split.
  - apply (proj1 (X8_weekly_smart_cover_first_week 2024 day0 ltac:(lia))).
    vm_compute. split; discriminate.
  - apply (proj2 (X8_weekly_smart_cover_first_week 2024 day0 ltac:(lia))).
    vm_compute. split; discriminate.
Defined.

Lemma scraped_dates web d rows :
  scraped web d = Some rows -> Forall (fun r => date r = d) rows.
Proof.
  unfold scraped, YearBatchScraper.scrape_daily_data,
    YearBatchScraper.scrape_body.
  destruct (web d) as [|st [trs|]]; simpl; try discriminate;
    destruct (raise_for_status st) as [[]|e]; simpl; try discriminate.
  destruct (YearBatchScraper.table_rows d (tail trs)) as [rs|e] eqn:E;
    simpl; [|discriminate].
  apply year_table_rows_spec in E as [_ Hall].
  destruct rs; [discriminate|]. intros [= <-].
  eapply Forall_impl; [exact Hall|]. now intros r [Hr _].
Qed.

Lemma batch_dates web dates r :
  In r (concat (omap (scraped web) dates)) -> date r ∈ dates.
Proof.
  rewrite in_concat. intros (rows & Hrows & Hr).
  apply list_elem_of_In, list_elem_of_omap in Hrows as (d & Hd & Hs).
  apply scraped_dates in Hs. rewrite Forall_forall in Hs.
  apply list_elem_of_In in Hr. now rewrite (Hs r Hr).
Qed.

Lemma collect_year_batch_result web year strategy tr batch :
  execute (YearBatchRun.collect_year_batch web year strategy)
  = (tr, Return (Some batch)) ->
  exists dates,
    selected_dates year strategy = Some dates
    /\ batch = concat (omap (scraped web) dates).
Proof.
  rewrite collect_year_batch_run.
  destruct (selected_dates year strategy) as [dates|]; [|discriminate].
  destruct (omap (scraped web) dates) eqn:E; [discriminate|].
  intros [= _ <-]. exists dates. now rewrite E.
Qed.

Section SamplingGap.
Context `{CaseMapping}.

(** X9: the biweekly strategy samples 1 January and every fourteenth day
    after it, so a movie released one to seven days after a sampled date
    has no sampled date in its first week: whatever the site serves, the
    batch [collect_year_batch] returns for that year gives such a movie
    no feature row in [aggregate_movie_features]. *)
Theorem X9_biweekly_gap (web : Z -> http_outcome) (year k j : Z)
    (tr : list event) (batch : list DailyRecord) (movie : Movie) :
  1 <= year <= 9998 ->
  1 <= j <= 7 ->
  release_date movie = Some (Calendar.ordinal year 1 1 + 14 * k + j) ->
  execute (YearBatchRun.collect_year_batch web year (U "biweekly"))
  = (tr, Return (Some batch)) ->
  (forall d, d ∈ YearBatchRun._generate_biweekly_dates year ->
             ~ (Calendar.ordinal year 1 1 + 14 * k + j <= d
                <= Calendar.ordinal year 1 1 + 14 * k + j + 6))
  /\ MovieFeatures.first_week batch movie = []
  /\ MovieFeatures.movie_row batch movie = None.
Proof.
  intros _ Hj Hrd Hrun.
  assert (Hgap : forall d, d ∈ YearBatchRun._generate_biweekly_dates year ->
             ~ (Calendar.ordinal year 1 1 + 14 * k + j <= d
                <= Calendar.ordinal year 1 1 + 14 * k + j + 6)).
  { intros d. rewrite biweekly_dates_closed, list_elem_of_fmap.
    intros (i & -> & _). lia. }
  split; [exact Hgap|].
  assert (Hfw : MovieFeatures.first_week batch movie = []).
  { destruct (MovieFeatures.first_week batch movie) as [|r fw] eqn:E;
      [reflexivity|].
    exfalso.
    assert (Hin : In r (MovieFeatures.first_week batch movie))
      by (rewrite E; now left).
    apply In_first_week in Hin as (Hb & rd & Hrd' & Hwin).
    rewrite Hrd in Hrd'. injection Hrd' as <-.
    apply In_movie_batch in Hb as [Hb _].
    apply collect_year_batch_result in Hrun as (dates & Hsel & ->).
    apply batch_dates in Hb.
    assert (dates = YearBatchRun._generate_biweekly_dates year) as ->.
    { unfold selected_dates in Hsel. vm_compute bool_decide in Hsel.
      congruence. }
    now apply (Hgap (date r)). }
  split; [exact Hfw|]. now apply movie_row_none.
Qed.

End SamplingGap.

Lemma X9_biweekly_gap_witness :
  MovieFeatures.movie_row biweekly_batch jan2_movie = None.
Proof.
  apply (X9_biweekly_gap steady_site 2024 0 1 biweekly_trace biweekly_batch
           jan2_movie).
  - lia.
  - lia.
  - reflexivity.
  - vm_compute. reflexivity.
Defined.

(** ** The collection runs *)

Lemma files_after_snoc tr path rows :
  files_after (tr ++ [EvToCsv path rows]) = <[path := rows]> (files_after tr).
Proof. unfold files_after. now rewrite fold_left_app. Qed.

(** X10: a year collection with an unknown strategy raises [ValueError]
    before any request, whatever the year.  With a known strategy and a
    year from 1 to 9998 it returns: it requests each selected date once,
    in order, and pauses two seconds after every request, failed or not;
    it returns [None] and writes nothing when no page gave data, and
    otherwise returns the rows of the pages that gave data, in date
    order, and leaves exactly that batch in the year's output file. *)
Theorem X10_year_collection (web : Z -> http_outcome) (year : Z)
    (strategy : pystr) :
  (selected_dates year strategy = None ->
   execute (YearBatchRun.collect_year_batch web year strategy)
   = ([], Raise ValueError))
  /\ (1 <= year <= 9998 ->
      forall dates, selected_dates year strategy = Some dates ->
      exists tr res,
        execute (YearBatchRun.collect_year_batch web year strategy)
        = (tr, Return res)
        /\ List.filter (fun e => negb (is_write e)) tr = page_events dates
        /\ res = match omap (scraped web) dates with
                 | [] => None
                 | all_data => Some (concat all_data)
                 end
        /\ files_after tr
           = match res with
             | None => ∅
             | Some batch => {[YearBatchRun.output_file year := batch]}
             end).
Proof.
  rewrite collect_year_batch_run. split.
  - now intros ->.
  - intros _ dates ->.
    assert (Hf : List.filter (fun e => negb (is_write e)) (page_events dates)
                 = page_events dates).
    { apply forallb_filter_id, page_events_no_write. }
    destruct (omap (scraped web) dates) as [|p ps] eqn:E.
    + eexists _, _. split; [reflexivity|]. split; [exact Hf|].
      split; [reflexivity|].
      apply files_after_no_write, page_events_no_write.
    + eexists _, _. split; [reflexivity|]. split; [|split; [reflexivity|]].
      * rewrite List.filter_app, Hf. simpl. apply app_nil_r.
      * rewrite files_after_snoc, files_after_no_write
          by apply page_events_no_write.
        reflexivity.
Qed.

Lemma X10_year_collection_witness :
  exists tr res,
    execute (YearBatchRun.collect_year_batch steady_site 2024 (U "biweekly"))
    = (tr, Return res)
    /\ List.filter (fun e => negb (is_write e)) tr
       = page_events (YearBatchRun._generate_biweekly_dates 2024)
    /\ res = match omap (scraped steady_site)
                     (YearBatchRun._generate_biweekly_dates 2024) with
             | [] => None
             | all_data => Some (concat all_data)
             end
    /\ files_after tr
       = match res with
         | None => ∅
         | Some batch => {[YearBatchRun.output_file 2024 := batch]}
         end.
Proof.
  apply (proj2 (X10_year_collection steady_site 2024 (U "biweekly"))).
  - lia.
  - reflexivity.
Defined.

Lemma bom_scrape_exact web d tr :
  BOMDailyRun.scrape_daily_data web d tr
  = (tr ++ [EvGet d], Return (bom_scraped web d)).
Proof.
  unfold BOMDailyRun.scrape_daily_data, bom_scraped, mbind, run_bind, emit, lift.
  unfold BOMDailyScraper.scrape_daily_data.
  now destruct (BOMDailyScraper.scrape_body (web d) d).
Qed.

Lemma range_loop_exact web fuel :
  forall current stop max_days days_scraped all_data tr n,
    stop - current + 1 <= Z.of_nat fuel ->
    n = (let total := Z.max 0 (stop - current + 1) in
         match max_days with
         | Some k =>
             if k =? 0 then total
             else Z.min total (Z.max 0 (k - days_scraped))
         | None => total
         end) ->
    BOMDailyRun.range_loop web fuel current stop max_days days_scraped
      all_data tr
    = (tr ++ page_events (seqZ current n),
       Return (all_data ++ omap (bom_scraped web) (seqZ current n))).
Proof.
  induction fuel as [|fuel IH];
    intros cur stop m days all tr n Hfuel Hn; cbv zeta in Hn.
  - assert (Hz : n = 0).
    { destruct m as [k|]; [destruct (k =? 0)|]; lia. }
    rewrite Hz. simpl. unfold mret, run_ret. now rewrite !app_nil_r.
  - cbn [BOMDailyRun.range_loop].
    destruct (Z.leb_spec cur stop) as [Hle|Hgt].
    2:{ assert (Hz : n = 0).
        { destruct m as [k|]; [destruct (k =? 0)|]; lia. }
        rewrite Hz. simpl. unfold mret, run_ret. now rewrite !app_nil_r. }
    destruct (match m with
              | Some k => negb (k =? 0) && (k <=? days)
              | None => false
              end) eqn:E.
    { assert (Hz : n = 0).
      { destruct m as [k|]; [|discriminate].
        apply andb_true_iff in E as [E1 E2].
        destruct (Z.eqb_spec k 0); [discriminate|].
        apply Z.leb_le in E2. lia. }
      rewrite Hz. simpl. unfold mret, run_ret. now rewrite !app_nil_r. }
    assert (Hpos : 0 < n).
    { destruct m as [k|]; [|lia].
      destruct (Z.eqb_spec k 0); [lia|].
      simpl in E. apply Z.leb_gt in E. lia. }
    rewrite (seqZ_cons cur n) by exact Hpos.
    unfold mbind at 1. unfold run_bind at 1.
    rewrite bom_scrape_exact.
    unfold mbind at 1. unfold run_bind at 1. unfold emit at 1.
    change (Z.succ cur) with (cur + 1).
    rewrite (IH (cur + 1) stop m (days + 1) _ _ (Z.pred n)).
    + change (page_events (cur :: seqZ (cur + 1) (Z.pred n)))
        with ([EvGet cur; EvSleep 2]
              ++ page_events (seqZ (cur + 1) (Z.pred n))).
      cbn [omap list_omap].
      destruct (bom_scraped web cur);
        now rewrite <- ?app_assoc.
    + lia.
    + cbv zeta. destruct m as [k|]; [destruct (k =? 0)|]; lia.
Qed.

(** X11: scraping a range of days of the calendar that ends before its
    last day returns and writes no file.  It requests the consecutive
    days from the start date on, each followed by a two-second pause: all
    the days up to the end date, or only the first [max_days] of them
    when [max_days] is a number other than zero (zero is no limit, a
    negative number requests nothing).  It returns the rows of the pages
    that gave data, in date order, or [None] when there are none, as
    when the end date is before the start date. *)
Theorem X11_date_range (web : Z -> http_outcome) (start_date end_date : Z)
    (max_days : option Z) :
  1 <= start_date <= last_day ->
  1 <= end_date < last_day ->
  let days := seqZ start_date (range_days start_date end_date max_days) in
  execute (BOMDailyRun.scrape_date_range web start_date end_date max_days)
  = (page_events days,
     Return match omap (bom_scraped web) days with
            | [] => None
            | all_data => Some (concat all_data)
            end)
  /\ (end_date < start_date -> days = [])
  /\ (max_days = Some 0 ->
      days = seqZ start_date (range_days start_date end_date None)).
Proof.
  intros _ _. cbv zeta. split; [|split].
  - unfold execute, BOMDailyRun.scrape_date_range.
    unfold mbind at 1. unfold run_bind at 1.
    rewrite (range_loop_exact web _ start_date end_date max_days 0 [] []
               (range_days start_date end_date max_days)).
    + simpl app.
      now destruct (omap (bom_scraped web)
                      (seqZ start_date
                         (range_days start_date end_date max_days))).
    + lia.
    + unfold range_days. cbv zeta.
      destruct max_days as [k|]; [|reflexivity]. now rewrite Z.sub_0_r.
  - intros Hlt.
    assert (Hz : range_days start_date end_date max_days = 0).
    { unfold range_days. destruct max_days as [k|]; [destruct (k =? 0)|]; lia. }
    now rewrite Hz.
  - now intros ->.
Qed.

Lemma X11_date_range_witness :
  seqZ 10 (range_days 10 9 (Some 3)) = []
  /\ seqZ 10 (range_days 10 20 (Some 0)) = seqZ 10 (range_days 10 20 None).
Proof.
  split.
  - refine (proj1 (proj2 (X11_date_range steady_site 10 9 (Some 3) _ _)) _);
      [apply (bool_decide_unpack _); vm_compute; reflexivity ..| lia].
  - refine (proj2 (proj2 (X11_date_range steady_site 10 20 (Some 0) _ _)) _);
      [apply (bool_decide_unpack _); vm_compute; reflexivity ..| reflexivity].
Defined.

(** ** The first week of a movie *)

Lemma insert_by_date_perm r l : Permutation (insert_by_date r l) (r :: l).
Proof.
  induction l as [|x t IH]; simpl; [reflexivity|].
  destruct (date r <=? date x); [reflexivity|].
  rewrite IH. apply perm_swap.
Qed.

Lemma sort_values_date_perm l : Permutation (sort_values_date l) l.
Proof.
  induction l as [|x t IH]; simpl; [reflexivity|].
  rewrite insert_by_date_perm. now apply perm_skip.
Qed.

Lemma insert_by_date_sorted r l :
  StronglySorted (fun a b => date a <= date b) l ->
  StronglySorted (fun a b => date a <= date b) (insert_by_date r l).
Proof.
  induction 1 as [|x t Hs IH Hx]; simpl.
  - constructor; [constructor | constructor].
  - destruct (Z.leb_spec (date r) (date x)) as [Hlt|Hge].
    + constructor; [now constructor|].
      constructor; [lia|].
      rewrite List.Forall_forall in Hx |- *. intros y Hy.
      specialize (Hx y Hy). lia.
    + constructor; [assumption|].
      rewrite List.Forall_forall in Hx |- *. intros y Hy.
      apply In_insert_by_date in Hy as [->|Hy]; [lia | now apply Hx].
Qed.

Lemma sort_values_date_sorted l :
  StronglySorted (fun a b => date a <= date b) (sort_values_date l).
Proof.
  induction l as [|x t IH]; simpl; [constructor|].
  now apply insert_by_date_sorted.
Qed.

Lemma filter_sorted (f : DailyRecord -> bool) l :
  StronglySorted (fun a b => date a <= date b) l ->
  StronglySorted (fun a b => date a <= date b) (List.filter f l).
Proof.
  induction 1 as [|x t Hs IH Hx]; simpl; [constructor|].
  destruct (f x); [|assumption].
  constructor; [assumption|].
  rewrite List.Forall_forall in Hx |- *. intros y Hy.
  apply filter_In in Hy as [Hy _]. now apply Hx.
Qed.

Lemma NoDup_date_inj l a b :
  List.NoDup (map date l) -> In a l -> In b l -> date a = date b -> a = b.
Proof.
  induction l as [|x t IH]; simpl; [tauto|].
  intros Hnd Ha Hb E. apply NoDup_cons_iff in Hnd as [Hx Hnd].
  destruct Ha as [->|Ha], Hb as [->|Hb]; auto.
  - exfalso. apply Hx. rewrite E. now apply in_map.
  - exfalso. apply Hx. rewrite <- E. now apply in_map.
Qed.

Lemma NoDup_date_filter (f : DailyRecord -> bool) l :
  List.NoDup (map date l) -> List.NoDup (map date (List.filter f l)).
Proof.
  induction l as [|x t IH]; simpl; [trivial|].
  intros Hnd. apply NoDup_cons_iff in Hnd as [Hx Hnd].
  destruct (f x); [|now apply IH].
  simpl. constructor; [|now apply IH].
  intros Hin. apply Hx. apply in_map_iff in Hin as (y & E & Hy).
  apply filter_In in Hy as [Hy _]. rewrite <- E. now apply in_map.
Qed.

Section FirstWeekOrder.
Context `{CaseMapping}.
Import MovieFeatures.

Lemma first_week_sorted batch movie :
  StronglySorted (fun a b => date a <= date b) (first_week batch movie).
Proof. apply filter_sorted, sort_values_date_sorted. Qed.

Lemma first_week_dates batch movie :
  List.NoDup (map date (movie_batch batch movie)) ->
  List.NoDup (map date (first_week batch movie)).
Proof.
  intros Hnd. apply NoDup_date_filter.
  eapply Permutation_NoDup; [|exact Hnd].
  symmetry. apply Permutation_map, sort_values_date_perm.
Qed.

(** X12: when the records matched to a movie have distinct dates, the
    opening values of its row ([opening_gross], [opening_theaters],
    [opening_per_theater]) are those of one record: the matched record of
    the earliest date inside the seven-day window, which need not be the
    release date itself. *)
Theorem X12_opening_is_earliest (batch : list DailyRecord) (movie : Movie)
    (row : features) :
  List.NoDup (map date (movie_batch batch movie)) ->
  movie_row batch movie = Some row ->
  exists r0 rd,
    In r0 (movie_batch batch movie)
    /\ release_date movie = Some rd
    /\ rd <= date r0 <= rd + 6
    /\ (forall r, In r (movie_batch batch movie) ->
          rd <= date r <= rd + 6 -> r <> r0 -> date r0 < date r)
    /\ row !! "opening_gross" = Some (VFloat (daily_gross r0))
    /\ row !! "opening_theaters" = Some (VFloat (theaters r0))
    /\ row !! "opening_per_theater" = Some (VFloat (per_theater_avg r0)).
Proof.
  intros Hnd Hrow. apply movie_row_some in Hrow as (-> & Hne & _).
  pose proof (first_week_sorted batch movie) as Hs.
  pose proof (fun r => In_first_week batch movie r) as Hin.
  destruct (first_week batch movie) as [|r0 rest]; [contradiction|].
  destruct (proj1 (Hin r0) (or_introl eq_refl)) as (Hr0 & rd & Hrd & Hd0).
  exists r0, rd. repeat split; try assumption; try lia.
  intros r Hr Hd Hneq.
  assert (Hfw : In r (r0 :: rest)).
  { apply Hin. split; [assumption|]. now exists rd. }
  destruct Hfw as [->|Hrest]; [contradiction|].
  apply StronglySorted_inv in Hs as [_ Hall].
  rewrite List.Forall_forall in Hall. specialize (Hall r Hrest).
  destruct (Z.eq_dec (date r0) (date r)) as [E|]; [|lia].
  exfalso. apply Hneq. symmetry.
  now apply (NoDup_date_inj (movie_batch batch movie)).
Qed.

(** X13: when the records matched to a movie have distinct dates, its
    first week holds at most seven of them, so every row reports between
    one and seven tracked days. *)
Theorem X13_at_most_seven_days (batch : list DailyRecord) (movie : Movie) :
  List.NoDup (map date (movie_batch batch movie)) ->
  (length (first_week batch movie) <= 7)%nat
  /\ forall row, movie_row batch movie = Some row ->
       exists n, row !! "first_week_days_tracked" = Some (VInt n)
                 /\ 1 <= n <= 7.
Proof.
  intros Hnd.
  assert (Hlen : (length (first_week batch movie) <= 7)%nat).
  { destruct (release_date movie) as [rd|] eqn:Hrd.
    - rewrite <- (length_map date).
      change 7%nat
        with (length [rd; rd + 1; rd + 2; rd + 3; rd + 4; rd + 5; rd + 6]).
      apply NoDup_incl_length; [now apply first_week_dates|].
      intros d Hd. apply in_map_iff in Hd as (r & <- & Hr).
      apply In_first_week in Hr as (_ & rd' & E & Hr).
      rewrite Hrd in E. injection E as <-.
      assert (Hc : date r = rd \/ date r = rd + 1 \/ date r = rd + 2
                   \/ date r = rd + 3 \/ date r = rd + 4 \/ date r = rd + 5
                   \/ date r = rd + 6) by lia.
      simpl. intuition.
    - destruct (first_week batch movie) as [|r l] eqn:E; [simpl; lia|].
      assert (Hr : In r (first_week batch movie)) by (rewrite E; now left).
      apply In_first_week in Hr as (_ & rd & Hrd' & _). congruence. }
  split; [exact Hlen|].
  intros row Hrow. apply movie_row_some in Hrow as (-> & Hne & _).
  exists (Z.of_nat (length (first_week batch movie))).
  split; [apply days_tracked|].
  destruct (first_week batch movie); [contradiction|]. simpl in *. lia.
Qed.

End FirstWeekOrder.

Lemma X12_opening_is_earliest_witness :
  exists r0 rd,
    In r0 (MovieFeatures.movie_batch two_pages test_movie)
    /\ release_date test_movie = Some rd
    /\ rd <= date r0 <= rd + 6
    /\ (forall r, In r (MovieFeatures.movie_batch two_pages test_movie) ->
          rd <= date r <= rd + 6 -> r <> r0 -> date r0 < date r)
    /\ MovieFeatures.feature_dict test_movie
         (MovieFeatures.first_week two_pages test_movie) !! "opening_gross"
       = Some (VFloat (daily_gross r0))
    /\ MovieFeatures.feature_dict test_movie
         (MovieFeatures.first_week two_pages test_movie) !! "opening_theaters"
       = Some (VFloat (theaters r0))
    /\ MovieFeatures.feature_dict test_movie
         (MovieFeatures.first_week two_pages test_movie)
         !! "opening_per_theater"
       = Some (VFloat (per_theater_avg r0)).
Proof.
  apply (X12_opening_is_earliest two_pages test_movie).
  - apply NoDup_ListNoDup, (bool_decide_unpack _). vm_compute. reflexivity.
  - unfold MovieFeatures.movie_row.
    assert (E : MovieFeatures.first_week two_pages test_movie = two_pages)
      by (vm_compute; reflexivity).
    assert (E' : MovieFeatures.movie_batch two_pages test_movie = two_pages)
      by (vm_compute; reflexivity).
    rewrite E, E'. reflexivity.
Defined.

Lemma X13_at_most_seven_days_witness :
  (length (MovieFeatures.first_week two_pages test_movie) <= 7)%nat.
Proof.
  apply (X13_at_most_seven_days two_pages test_movie).
  apply NoDup_ListNoDup, (bool_decide_unpack _). vm_compute. reflexivity.
Defined.

(** ** The daily features of a movie *)

Section DailyFeatureFacts.
Context `{CaseMapping}.
Import DailyFeatures.

Lemma aggregate_of_movie_data daily movie_title url md :
  movie_data daily movie_title url = Return md ->
  aggregate_daily_features daily movie_title url
  = Return ((fun rows => derived_features (base_features rows)) <$> md).
Proof.
  unfold aggregate_daily_features. intros ->. now destruct md.
Qed.

Lemma derived_features_base (f : features) (k : string) :
  k <> "daily_week2_week1_ratio" ->
  k <> "daily_theater_expansion_ratio" ->
  k <> "daily_opening_to_total_ratio" ->
  k <> "daily_per_theater_decline_rate" ->
  derived_features f !! k = f !! k.
Proof.
  intros H1 H2 H3 H4. unfold derived_features. cbv zeta.
  now rewrite !lookup_insert_ne by congruence.
Qed.

Lemma week_ratio_none (f : features) :
  f !! "daily_week1_avg_gross" = Some VNone
  \/ f !! "daily_week2_avg_gross" = Some VNone ->
  derived_features f !! "daily_week2_week1_ratio" = Some VNone.
Proof.
  intros Hf. unfold derived_features. cbv zeta.
  rewrite !lookup_insert_ne by discriminate.
  rewrite lookup_insert_eq. unfold get.
  destruct Hf as [-> | ->]; simpl; [reflexivity|].
  now rewrite andb_false_r.
Qed.

Lemma total_ratio_none (f : features) :
  f !! "daily_opening_3day_gross" = Some VNone ->
  derived_features f !! "daily_opening_to_total_ratio" = Some VNone.
Proof.
  intros Hf. unfold derived_features. cbv zeta.
  rewrite !lookup_insert_ne by discriminate.
  rewrite lookup_insert_eq. unfold get.
  rewrite !lookup_insert_ne by discriminate.
  now rewrite Hf.
Qed.

(** X14: a URL comes before the title.  Called with a non-empty URL,
    [aggregate_daily_features] builds its features from the records of
    that URL alone when there is one, whatever the title; only when no
    record has the URL does it fall back to the title, and then it
    returns what it returns without a URL. *)
Theorem X14_url_before_title (daily : list DailyRecord)
    (movie_title : pystr) (url : pystr) :
  url <> [] ->
  (url_matches url daily <> [] ->
   aggregate_daily_features daily movie_title (UrlStr url)
   = Return (Some (derived_features
                     (base_features
                        (sort_values_date (url_matches url daily))))))
  /\ (url_matches url daily = [] ->
      aggregate_daily_features daily movie_title (UrlStr url)
      = aggregate_daily_features daily movie_title UrlNone).
Proof.
  intros Hurl. destruct url as [|c s]; [contradiction|]. split.
  - intros Hne.
    now rewrite (aggregate_of_movie_data _ _ _ _
                   (movie_data_url_found daily movie_title c s Hne)).
  - intros E.
    rewrite (aggregate_of_movie_data _ _ _ _
               (movie_data_url_fallback daily movie_title c s E)).
    now rewrite (aggregate_of_movie_data _ _ _ _
                   (movie_data_no_url daily movie_title)).
Qed.

(** X15: the only exception [aggregate_daily_features] raises is
    [UnboundLocalError], and it raises it exactly when the URL is a NaN or
    the empty text; with no URL or a non-empty one it returns. *)
Theorem X15_raises_exactly (daily : list DailyRecord) (movie_title : pystr)
    (url : url_arg) (e : pyexn) :
  aggregate_daily_features daily movie_title url = Raise e
  <-> (url = UrlNaN \/ url = UrlStr []) /\ e = UnboundLocalError.
Proof.
  destruct url as [| |[|c s]].
  - rewrite (aggregate_of_movie_data _ _ _ _
               (movie_data_no_url daily movie_title)).
    split; [discriminate | intros [[|] _]; discriminate].
  - change (aggregate_daily_features daily movie_title UrlNaN)
      with (Raise (A := option features) UnboundLocalError).
    split; [intros [= <-]; auto | now intros [_ ->]].
  - change (aggregate_daily_features daily movie_title (UrlStr []))
      with (Raise (A := option features) UnboundLocalError).
    split; [intros [= <-]; auto | now intros [_ ->]].
  - destruct (url_matches (c :: s) daily) as [|x l] eqn:E.
    + rewrite (aggregate_of_movie_data _ _ _ _
                 (movie_data_url_fallback daily movie_title c s E)).
      split; [discriminate | intros [[|] _]; discriminate].
    + assert (Hne : url_matches (c :: s) daily <> [])
        by (rewrite E; discriminate).
      rewrite (aggregate_of_movie_data _ _ _ _
                 (movie_data_url_found daily movie_title c s Hne)).
      split; [discriminate | intros [[|] _]; discriminate].
Qed.

(** X16: a feature dict counts at least one tracked day, and a short
    history leaves the window features empty instead of computing them
    from fewer days: with fewer than three records the three-day gross,
    the three-day per-theater average and the opening-to-total ratio are
    [None]; with fewer than seven the two first-week averages are [None];
    and with fewer than fourteen the second-week average and the
    week-two-to-week-one ratio are [None]. *)
Theorem X16_short_history (daily : list DailyRecord) (movie_title : pystr)
    (url : url_arg) (f : features) :
  aggregate_daily_features daily movie_title url = Return (Some f) ->
  exists n : nat,
    f !! "daily_days_tracked" = Some (VInt (Z.of_nat n))
    /\ (1 <= n)%nat
    /\ ((n < 3)%nat ->
        f !! "daily_opening_3day_gross" = Some VNone
        /\ f !! "daily_opening_3day_per_theater" = Some VNone
        /\ f !! "daily_opening_to_total_ratio" = Some VNone)
    /\ ((n < 7)%nat ->
        f !! "daily_week1_avg_gross" = Some VNone
        /\ f !! "daily_week1_avg_theaters" = Some VNone)
    /\ ((n < 14)%nat ->
        f !! "daily_week2_avg_gross" = Some VNone
        /\ f !! "daily_week2_week1_ratio" = Some VNone).
Proof.
  intros Hf. apply aggregate_daily_some in Hf as (md & Hmd & ->).
  apply movie_data_some in Hmd as [Hne _].
  exists (length md).
  assert (B3 : (length md < 3)%nat ->
               base_features md !! "daily_opening_3day_gross" = Some VNone
               /\ base_features md !! "daily_opening_3day_per_theater"
                  = Some VNone).
  { intros Hn. apply Nat.leb_gt in Hn.
    split.
    - change (base_features md !! "daily_opening_3day_gross")
        with (Some (when (3 <=? length md)%nat
                      (Series.sum (take 3 (daily_gross <$> md))))).
      now rewrite Hn.
    - change (base_features md !! "daily_opening_3day_per_theater")
        with (Some (when (3 <=? length md)%nat
                      (Series.mean (take 3 (per_theater_avg <$> md))))).
      now rewrite Hn. }
  assert (B7 : (length md < 7)%nat ->
               base_features md !! "daily_week1_avg_gross" = Some VNone
               /\ base_features md !! "daily_week1_avg_theaters"
                  = Some VNone).
  { intros Hn. apply Nat.leb_gt in Hn.
    split.
    - change (base_features md !! "daily_week1_avg_gross")
        with (Some (when (7 <=? length md)%nat
                      (Series.mean (take 7 (daily_gross <$> md))))).
      now rewrite Hn.
    - change (base_features md !! "daily_week1_avg_theaters")
        with (Some (when (7 <=? length md)%nat
                      (Series.mean (take 7 (theaters <$> md))))).
      now rewrite Hn. }
  assert (B14 : (length md < 14)%nat ->
                base_features md !! "daily_week2_avg_gross" = Some VNone).
  { intros Hn. apply Nat.leb_gt in Hn.
    change (base_features md !! "daily_week2_avg_gross")
      with (Some (when (14 <=? length md)%nat
                    (Series.mean (take 7 (drop 7 (daily_gross <$> md)))))).
    now rewrite Hn. }
  split; [|split; [|split; [|split]]].
  - now rewrite derived_features_base by discriminate.
  - destruct md; [contradiction | simpl; lia].
  - intros Hn. destruct (B3 Hn) as [E1 E2].
    rewrite (derived_features_base _ "daily_opening_3day_gross"),
      (derived_features_base _ "daily_opening_3day_per_theater")
      by discriminate.
    repeat split; try assumption. now apply total_ratio_none.
  - intros Hn. destruct (B7 Hn) as [E1 E2].
    rewrite (derived_features_base _ "daily_week1_avg_gross"),
      (derived_features_base _ "daily_week1_avg_theaters")
      by discriminate.
    now split.
  - intros Hn. rewrite derived_features_base by discriminate.
    split; [now apply B14|]. apply week_ratio_none. right. now apply B14.
Qed.

End DailyFeatureFacts.

Lemma X14_url_before_title_witness :
  DailyFeatures.aggregate_daily_features [star_wars_listing]
    (U "No Such Title") (UrlStr star_wars_url)
  = Return (Some (DailyFeatures.derived_features
                    (DailyFeatures.base_features
                       (sort_values_date
                          (url_matches star_wars_url [star_wars_listing]))))).
Proof.
  apply (X14_url_before_title [star_wars_listing] (U "No Such Title")
           star_wars_url).
  - discriminate.
  - discriminate.
Defined.

Lemma X15_raises_exactly_witness :
  DailyFeatures.aggregate_daily_features two_pages (U "Test Movie")
    (UrlStr [])
  = Raise UnboundLocalError.
Proof.
  apply (X15_raises_exactly two_pages (U "Test Movie") (UrlStr [])
           UnboundLocalError).
  split; [now right | reflexivity].
Defined.

Lemma X16_short_history_witness :
  exists n : nat,
    DailyFeatures.derived_features (DailyFeatures.base_features two_pages)
      !! "daily_days_tracked" = Some (VInt (Z.of_nat n))
    /\ (1 <= n)%nat
    /\ ((n < 3)%nat ->
        DailyFeatures.derived_features (DailyFeatures.base_features two_pages)
          !! "daily_opening_3day_gross" = Some VNone
        /\ DailyFeatures.derived_features
             (DailyFeatures.base_features two_pages)
             !! "daily_opening_3day_per_theater" = Some VNone
        /\ DailyFeatures.derived_features
             (DailyFeatures.base_features two_pages)
             !! "daily_opening_to_total_ratio" = Some VNone)
    /\ ((n < 7)%nat ->
        DailyFeatures.derived_features (DailyFeatures.base_features two_pages)
          !! "daily_week1_avg_gross" = Some VNone
        /\ DailyFeatures.derived_features
             (DailyFeatures.base_features two_pages)
             !! "daily_week1_avg_theaters" = Some VNone)
    /\ ((n < 14)%nat ->
        DailyFeatures.derived_features (DailyFeatures.base_features two_pages)
          !! "daily_week2_avg_gross" = Some VNone
        /\ DailyFeatures.derived_features
             (DailyFeatures.base_features two_pages)
             !! "daily_week2_week1_ratio" = Some VNone).
Proof.
  apply (X16_short_history two_pages (U "Test Movie") UrlNone).
  rewrite (aggregate_of_movie_data _ _ _ _
             (movie_data_no_url two_pages (U "Test Movie"))).
  assert (E : title_matches (U "Test Movie") two_pages = two_pages)
    by (vm_compute; reflexivity).
  rewrite E. reflexivity.
Defined.

(** ** The rows of the updated dataset *)

Module MergeRows.
Import Merge MergeFacts.

Lemma key_positions_count k rkeys :
  length (key_positions k rkeys)
  = length (List.filter (fun x => bool_decide (x = k)) rkeys).
Proof.
  unfold key_positions. generalize 0%nat.
  induction rkeys as [|a l IH]; intros s; [reflexivity|].
  simpl. destruct (bool_decide (a = k)); simpl; now rewrite IH.
Qed.

Lemma count_NoDup (k : pyval) l :
  List.NoDup l ->
  (length (List.filter (fun x => bool_decide (x = k)) l) <= 1)%nat.
Proof.
  induction 1 as [|a l Ha Hnd IH]; simpl; [lia|].
  destruct (bool_decide_reflect (a = k)) as [->|]; [|exact IH].
  destruct (List.filter (fun x => bool_decide (x = k)) l) as [|y t] eqn:E;
    [simpl; lia|].
  exfalso. apply Ha.
  assert (Hy : In y (List.filter (fun x => bool_decide (x = k)) l))
    by (rewrite E; now left).
  apply filter_In in Hy as [Hy Hk]. apply bool_decide_eq_true in Hk.
  now subst.
Qed.

Lemma pair_rows_fst (i : nat) (js : list nat) :
  fst <$> ((fun j => (i, Some j)) <$> js) = replicate (length js) i.
Proof.
  induction js as [|j js IH]; [reflexivity|].
  rewrite !fmap_cons. cbn [length replicate fst]. now f_equal.
Qed.

Lemma join_index_fst lkeys rkeys :
  fst <$> join_index lkeys rkeys
  = flat_map
      (fun p : nat * pyval =>
         replicate (Nat.max 1 (length (key_positions p.2 rkeys))) p.1)
      (zip (seq 0 (length lkeys)) lkeys).
Proof.
  unfold join_index. generalize (zip (seq 0 (length lkeys)) lkeys) as ps.
  induction ps as [|p ps IH]; [reflexivity|].
  cbn [flat_map]. rewrite fmap_app, IH. f_equal.
  destruct (key_positions p.2 rkeys) as [|j js]; [reflexivity|].
  rewrite pair_rows_fst. reflexivity.
Qed.

Lemma take_left_fst idx s : take_left idx s = cell s <$> (fst <$> idx).
Proof. unfold take_left. now rewrite <- list_fmap_compose. Qed.

Lemma cell_middle (pre : list pyval) x l : cell (pre ++ x :: l) (length pre) = x.
Proof. unfold cell. now rewrite list_lookup_middle. Qed.

Lemma cell_rows (m : pyval -> nat) : forall l pre,
  cell (pre ++ l)
    <$> flat_map (fun p : nat * pyval => replicate (m p.2) p.1)
          (zip (seq (length pre) (length l)) l)
  = flat_map (fun k => replicate (m k) k) l.
Proof.
  induction l as [|x l IH]; intros pre; [reflexivity|].
  cbn [length seq zip zip_with flat_map]. rewrite fmap_app. f_equal.
  - cbn [fst snd]. rewrite fmap_replicate. now rewrite cell_middle.
  - specialize (IH (pre ++ [x])).
    rewrite length_app, Nat.add_1_r, <- app_assoc in IH. exact IH.
Qed.

Lemma single_rows (l : list pyval) : forall s,
  flat_map (fun p : nat * pyval => replicate 1 p.1) (zip (seq s (length l)) l)
  = seq s (length l).
Proof.
  induction l as [|x l IH]; intros s; [reflexivity|].
  cbn [length seq zip zip_with flat_map]. now rewrite IH.
Qed.

Lemma cell_seq : forall (l pre : list pyval),
  cell (pre ++ l) <$> seq (length pre) (length l) = l.
Proof.
  induction l as [|x l IH]; intros pre; [reflexivity|].
  cbn [length seq]. rewrite fmap_cons, cell_middle. f_equal.
  specialize (IH (pre ++ [x])).
  rewrite length_app, Nat.add_1_r, <- app_assoc in IH. exact IH.
Qed.

Lemma join_index_unique lkeys rkeys :
  List.NoDup rkeys ->
  fst <$> join_index lkeys rkeys = seq 0 (length lkeys).
Proof.
  intros Hnd. rewrite join_index_fst.
  transitivity (flat_map (fun p : nat * pyval => replicate 1 p.1)
                  (zip (seq 0 (length lkeys)) lkeys));
    [|apply single_rows].
  apply flat_map_ext. intros p. f_equal.
  pose proof (count_NoDup p.2 rkeys Hnd) as Hc.
  rewrite <- key_positions_count in Hc. lia.
Qed.

Lemma title_not_suffixed c : "title" <> suffixed c.
Proof.
  intros E. pose proof (f_equal String.length E) as Hlen.
  unfold suffixed in Hlen. rewrite string_length_app in Hlen. simpl in Hlen.
  destruct c as [|a [|b c]]; [discriminate | discriminate |].
  simpl in Hlen. lia.
Qed.

(** A column of the dataset that the update does not name comes out as
    its cells at the left rows of the join. *)
Lemma update_dataset_other main new_rows out cols lkeys rkeys name :
  main !! "title" = Some lkeys ->
  new_rows !! "title" = Some rkeys ->
  update_dataset main new_rows cols = Return out ->
  name ∉ cols ->
  (forall c, c ∈ cols -> name <> suffixed c) ->
  out !! name = take_left (join_index lkeys rkeys) <$> main !! name.
Proof.
  intros Hl Hr Hupd Hname Hsuf. unfold update_dataset in Hupd.
  destruct (merge_left main new_rows cols) as [merged|e] eqn:Hm;
    simpl in Hupd; [|discriminate].
  injection Hupd as <-.
  unfold merge_left in Hm. rewrite Hl, Hr in Hm.
  apply add_right_spec in Hm as [_ Hother].
  rewrite update_columns_other.
  - rewrite Hother; [apply lookup_fmap|].
    intros c Hc.
    destruct (merged_name_cases main c) as [(? & _ & ->) | (_ & ->)].
    + intros E. now apply (Hsuf c).
    + intros ->. contradiction.
  - intros c Hc. split; [|now apply Hsuf].
    intros ->. contradiction.
Qed.

End MergeRows.

(** X17: the update of the main dataset drops no movie and keeps the
    order of the dataset.  The title column of the result lists the
    titles of the dataset in their order, each one once, or as many times
    as the new data has rows of that title; so when no title occurs twice
    in the new data the titles are unchanged, and a title that occurs
    twice there doubles its row. *)
Theorem X17_update_keeps_rows (main new_rows out : frame)
    (cols : list string) (lkeys rkeys : list pyval) :
  main !! "title" = Some lkeys ->
  new_rows !! "title" = Some rkeys ->
  "title" ∉ cols ->
  Merge.update_dataset main new_rows cols = Return out ->
  out !! "title"
  = Some (flat_map
            (fun k => replicate
                        (Nat.max 1 (length (Merge.key_positions k rkeys))) k)
            lkeys)
  /\ (List.NoDup rkeys -> out !! "title" = Some lkeys).
Proof.
  intros Hl Hr Ht Hupd.
  pose proof (MergeRows.update_dataset_other main new_rows out cols lkeys
                rkeys "title" Hl Hr Hupd Ht
                (fun c _ => MergeRows.title_not_suffixed c)) as Hout.
  rewrite Hl in Hout. simpl in Hout.
  rewrite MergeRows.take_left_fst in Hout. split.
  - rewrite Hout, MergeRows.join_index_fst. f_equal.
    apply (MergeRows.cell_rows
             (fun k => Nat.max 1 (length (Merge.key_positions k rkeys)))
             lkeys []).
  - intros Hnd. rewrite Hout, MergeRows.join_index_unique by assumption.
    f_equal. apply (MergeRows.cell_seq lkeys []).
Qed.

(** X18: when no title occurs twice in the new data, the update leaves
    every other column of the dataset as it was: a column that the update
    does not name (and that is not the helper column of a named one)
    comes out with the same cells in the same rows. *)
Theorem X18_update_leaves_other_columns (main new_rows out : frame)
    (cols : list string) (lkeys rkeys : list pyval) (name : string)
    (s : list pyval) :
  main !! "title" = Some lkeys ->
  new_rows !! "title" = Some rkeys ->
  List.NoDup rkeys ->
  Merge.update_dataset main new_rows cols = Return out ->
  main !! name = Some s ->
  length s = length lkeys ->
  name ∉ cols ->
  (forall c, c ∈ cols -> name <> Merge.suffixed c) ->
  out !! name = Some s.
Proof.
  intros Hl Hr Hnd Hupd Hs Hlen Hname Hsuf.
  rewrite (MergeRows.update_dataset_other main new_rows out cols lkeys rkeys
             name Hl Hr Hupd Hname Hsuf), Hs.
  simpl. f_equal.
  rewrite MergeRows.take_left_fst, MergeRows.join_index_unique by assumption.
  rewrite <- Hlen. apply (MergeRows.cell_seq s []).
Qed.

Lemma X17_update_keeps_rows_witness :
  sample_doubled !! "title"
  = Some [VStr (U "A"); VStr (U "A"); VStr (U "B"); VStr (U "C")]
  /\ sample_updated !! "title"
     = Some [VStr (U "A"); VStr (U "B"); VStr (U "C")].
Proof.
  split.
  - apply (proj1 (X17_update_keeps_rows sample_main sample_twice
                    sample_doubled Merge.scraped_columns
                    [VStr (U "A"); VStr (U "B"); VStr (U "C")]
                    [VStr (U "A"); VStr (U "A")]
                    ltac:(vm_compute; reflexivity)
                    ltac:(vm_compute; reflexivity)
                    (proj1 (proj2 MergeFacts.columns_ok_scraped))
                    ltac:(vm_compute; reflexivity))).
  - apply (proj2 (X17_update_keeps_rows sample_main sample_scraped
                    sample_updated Merge.scraped_columns
                    [VStr (U "A"); VStr (U "B"); VStr (U "C")]
                    [VStr (U "A"); VStr (U "B")]
                    ltac:(vm_compute; reflexivity)
                    ltac:(vm_compute; reflexivity)
                    (proj1 (proj2 MergeFacts.columns_ok_scraped))
                    ltac:(vm_compute; reflexivity))).
    apply NoDup_ListNoDup, (bool_decide_unpack _). vm_compute. reflexivity.
Defined.

Lemma X18_update_leaves_other_columns_witness :
  sample_updated_budget !! "budget" = Some [VInt 1; VInt 2; VInt 3].
Proof.
  apply (X18_update_leaves_other_columns sample_main_budget sample_scraped
           sample_updated_budget Merge.scraped_columns
           [VStr (U "A"); VStr (U "B"); VStr (U "C")]
           [VStr (U "A"); VStr (U "B")] "budget").
  - vm_compute. reflexivity.
  - vm_compute. reflexivity.
  - apply NoDup_ListNoDup, (bool_decide_unpack _). vm_compute. reflexivity.
  - vm_compute. reflexivity.
  - vm_compute. reflexivity.
  - reflexivity.
  - apply (bool_decide_unpack _). vm_compute. reflexivity.
  - apply Forall_forall, (bool_decide_unpack _). vm_compute. reflexivity.
Defined.

(** ** One movie's daily page *)

Lemma omap_length_le {A B} (f : A -> option B) (l : list A) :
  (length (omap f l) <= length l)%nat.
Proof.
  induction l as [|x l IH]; [reflexivity|].
  change (omap f (x :: l))
    with (match f x with Some y => y :: omap f l | None => omap f l end).
  destruct (f x); cbn [length]; lia.
Qed.

Section IndividualFacts.
Variable strptime : pystr -> result Z.
Import IndividualMovieScraper.

Lemma find_theaters_spec texts : forall n,
  find_theaters texts = Return (Some n) ->
  100 < n
  /\ exists text, In text texts
       /\ isdigit (replace1 44 [] text) = true
       /\ py_int (replace1 44 [] text) = Return n.
Proof.
  induction texts as [|text more IH]; intros n; simpl; [discriminate|].
  destruct (isdigit (replace1 44 [] text)) eqn:Hd.
  - destruct (py_int (replace1 44 [] text)) as [k|e] eqn:Hk; simpl;
      [|discriminate].
    destruct (Z.ltb_spec 100 k) as [Hlt|Hge].
    + simpl. intros [= <-]. split; [assumption|].
      exists text. auto.
    + intros E. destruct (IH n E) as (Hn & t & Ht & Hrest).
      split; [assumption|]. exists t. auto.
  - intros E. destruct (IH n E) as (Hn & t & Ht & Hrest).
    split; [assumption|]. exists t. auto.
Qed.

Lemma parse_gross_int gross_str k :
  parse_gross gross_str = Return (NInt k) ->
  k = 0 /\ (gross_str = [] \/ gross_str = U "-").
Proof.
  unfold parse_gross.
  destruct (bool_decide_reflect (gross_str = [])) as [->|Hne]; simpl.
  - intros [= <-]. auto.
  - destruct (bool_decide_reflect (gross_str = U "-")) as [->|Hne']; simpl.
    + intros [= <-]. auto.
    + destruct (py_float _); simpl; discriminate.
Qed.

Lemma parse_gross_missing gross_str :
  gross_str = [] \/ gross_str = U "-" ->
  parse_gross gross_str = Return (NInt 0).
Proof. now intros [-> | ->]. Qed.

Lemma row_entry_spec cols e :
  row_entry strptime cols = Return (Some e) ->
  exists c0 c1 c2 c3 more,
    cols = c0 :: c1 :: c2 :: c3 :: more
    /\ contains (U ",") (get_text c0) = true
    /\ strptime (get_text c0) = Return (date e)
    /\ parse_gross (get_text c3) = Return (gross e)
    /\ find_theaters (get_text <$> cols) = Return (theaters e).
Proof.
  unfold row_entry.
  remember (find_theaters (get_text <$> cols)) as ths eqn:Hths.
  destruct cols as [|c0 [|c1 [|c2 [|c3 more]]]]; try discriminate.
  destruct (contains (U ",") (get_text c0)) eqn:Hc; [|discriminate].
  destruct (strptime (get_text c0)) as [d|] eqn:Hd; simpl; [|discriminate].
  destruct (parse_gross (get_text c3)) as [g|] eqn:Hg; simpl; [|discriminate].
  destruct ths as [th|]; simpl; [|discriminate].
  intros [= <-]. simpl. exists c0, c1, c2, c3, more. auto.
Qed.

Lemma table_entries_spec rows e :
  In e (table_entries strptime rows) ->
  exists row, In row (tail rows)
    /\ row_entry strptime row = Return (Some e).
Proof.
  unfold table_entries. rewrite <- list_elem_of_In, list_elem_of_omap.
  intros (row & Hrow & He). exists row.
  split; [now apply list_elem_of_In|].
  destruct (row_entry strptime row) as [[e'|]|]; simpl in He;
    try discriminate.
  now injection He as ->.
Qed.

Lemma entry_theaters rows e n :
  In e (table_entries strptime rows) -> theaters e = Some n -> 100 < n.
Proof.
  intros He Hn. apply table_entries_spec in He as (row & _ & Hrow).
  apply row_entry_spec in Hrow as (c0 & c1 & c2 & c3 & more & _ & _ & _ & _
                                   & Hth).
  rewrite Hn in Hth. now apply find_theaters_spec in Hth.
Qed.

Lemma entry_gross_int rows e k :
  In e (table_entries strptime rows) -> gross e = NInt k -> k = 0.
Proof.
  intros He Hk. apply table_entries_spec in He as (row & _ & Hrow).
  apply row_entry_spec in Hrow as (c0 & c1 & c2 & c3 & more & _ & _ & _ & Hg
                                   & _).
  rewrite Hk in Hg. now apply parse_gross_int in Hg.
Qed.

Lemma length_table_entries rows :
  (length (table_entries strptime rows) <= length rows - 1)%nat.
Proof.
  unfold table_entries.
  etransitivity; [apply omap_length_le|]. destruct rows; simpl; lia.
Qed.

Lemma scrape_some page release_date f :
  scrape_movie_daily_data strptime page release_date = Some f ->
  exists rows,
    page = Reply 200 (Some rows)
    /\ List.filter (in_first_week release_date) (table_entries strptime rows)
       <> []
    /\ f = summary (List.filter (in_first_week release_date)
                      (table_entries strptime rows)).
Proof.
  unfold scrape_movie_daily_data.
  destruct page as [|status [rows|]]; try discriminate.
  - destruct (Z.eqb_spec status 200) as [->|]; cbn [negb]; [|discriminate].
    destruct (table_entries strptime rows) as [|e0 es] eqn:E; [discriminate|].
    destruct (List.filter (in_first_week release_date) (e0 :: es))
      as [|d fw] eqn:F; [discriminate|].
    intros [= <-]. exists rows. rewrite E, F.
    split; [reflexivity|]. split; [discriminate | reflexivity].
  - destruct (negb (status =? 200)); discriminate.
Qed.

Lemma in_first_week_spec release_date e :
  in_first_week release_date e = true
  <-> exists rd, release_date = Some rd /\ rd <= date e <= rd + 6.
Proof.
  unfold in_first_week. destruct release_date as [rd|].
  - rewrite andb_true_iff, !Z.leb_le. split.
    + intros Hd. exists rd. split; [reflexivity | lia].
    + intros (rd' & [= <-] & Hd). lia.
  - split; [discriminate | intros (rd & E & _); discriminate].
Qed.

Lemma fold_max_spec ts : forall t,
  t <= fold_left Z.max ts t
  /\ (forall x, In x ts -> x <= fold_left Z.max ts t)
  /\ (fold_left Z.max ts t = t \/ In (fold_left Z.max ts t) ts).
Proof.
  induction ts as [|y ts IH]; intros t; simpl.
  - split; [lia|]. split; [contradiction | now left].
  - destruct (IH (Z.max t y)) as (H1 & H2 & H3). split; [lia|]. split.
    + intros x [<-|Hx]; [lia | now apply H2].
    + destruct H3 as [E|Hin]; [|right; now right].
      rewrite E. destruct (Z.max_spec t y) as [[_ ->] | [_ ->]];
        [right; now left | now left].
Qed.

Lemma sum_from_float xs : forall x,
  exists y, fold_left num_add xs (NFloat x) = NFloat y.
Proof.
  induction xs as [|v xs IH]; intros x; simpl; [now exists x|].
  destruct v; apply IH.
Qed.

Lemma sum_int xs : forall a n,
  fold_left num_add xs (NInt a) = NInt n ->
  forall v, In v xs -> exists k, v = NInt k.
Proof.
  induction xs as [|v xs IH]; intros a n; simpl; [contradiction|].
  destruct v as [k|x]; simpl.
  - intros E v [<-|Hv]; [now exists k | now apply (IH _ _ E)].
  - intros E. destruct (sum_from_float xs (fadd (of_Z a) x)) as [y Hy].
    rewrite Hy in E. discriminate.
Qed.

Lemma sum_zeros xs : forall a,
  (forall v, In v xs -> v = NInt 0) ->
  fold_left num_add xs (NInt a) = NInt a.
Proof.
  induction xs as [|v xs IH]; intros a Hall; simpl; [reflexivity|].
  rewrite (Hall v) by now left. simpl. rewrite Z.add_0_r.
  apply IH. intros w Hw. apply Hall. now right.
Qed.

(** X19: [scrape_movie_daily_data] returns a dict only from a reply of
    status 200 with a table and a known release date, and only when at
    least one parsed row is dated from the release date to six days
    later.  The dict counts those rows (between one and the number of
    rows after the header), and its opening values are those of the first
    of them in page order, whatever their dates. *)
Theorem X19_individual_first_week (page : movie_page)
    (release_date : option Z) (f : features) :
  scrape_movie_daily_data strptime page release_date = Some f ->
  exists rows rd first_week_data opening more,
    page = Reply 200 (Some rows)
    /\ release_date = Some rd
    /\ first_week_data
       = List.filter (fun e => (rd <=? date e) && (date e <=? rd + 6))
           (table_entries strptime rows)
    /\ first_week_data = opening :: more
    /\ f !! "first_week_days_tracked"
       = Some (VInt (Z.of_nat (length first_week_data)))
    /\ (1 <= length first_week_data <= length rows - 1)%nat
    /\ f !! "opening_gross" = Some (num_val (gross opening))
    /\ f !! "opening_theaters" = Some (opt_int (theaters opening)).
Proof.
  intros Hf. apply scrape_some in Hf as (rows & -> & Hne & ->).
  destruct release_date as [rd|].
  2:{ exfalso. apply Hne. clear Hne.
      induction (table_entries strptime rows) as [|e es IH];
        [reflexivity | exact IH]. }
  assert (E : List.filter (in_first_week (Some rd)) (table_entries strptime rows)
              = List.filter (fun e => (rd <=? date e) && (date e <=? rd + 6))
                  (table_entries strptime rows)).
  { apply filter_ext. intros e. unfold in_first_week. cbv zeta.
    destruct (Z.leb_spec 0 (date e - rd)), (Z.leb_spec rd (date e)); try lia;
    destruct (Z.leb_spec (date e - rd) 6), (Z.leb_spec (date e) (rd + 6));
      try lia; reflexivity. }
  rewrite E in Hne |- *.
  pose proof (length_table_entries rows) as Hlen.
  pose proof (filter_length_le
                (fun e => (rd <=? date e) && (date e <=? rd + 6))
                (table_entries strptime rows)) as Hle.
  remember (List.filter (fun e => (rd <=? date e) && (date e <=? rd + 6))
              (table_entries strptime rows)) as fw eqn:Hfw.
  destruct fw as [|opening more]; [contradiction|].
  exists rows, rd, (opening :: more), opening, more.
  split; [reflexivity|]. split; [reflexivity|]. split; [exact Hfw|].
  split; [reflexivity|]. split; [reflexivity|].
  split; [|split; reflexivity].
  cbn [length] in *. lia.
Qed.

(** X20: a theater count of 100 or less is never reported.  In a
    returned dict [opening_theaters] and [peak_theaters_week1] are either
    [None] or above 100, and when the opening count is a number the peak
    is a number at least as large. *)
Theorem X20_theaters_above_100 (page : movie_page)
    (release_date : option Z) (f : features) :
  scrape_movie_daily_data strptime page release_date = Some f ->
  (f !! "opening_theaters" = Some VNone
   \/ exists n, f !! "opening_theaters" = Some (VInt n) /\ 100 < n)
  /\ (f !! "peak_theaters_week1" = Some VNone
      \/ exists m, f !! "peak_theaters_week1" = Some (VInt m) /\ 100 < m)
  /\ (forall n, f !! "opening_theaters" = Some (VInt n) ->
        exists m, f !! "peak_theaters_week1" = Some (VInt m) /\ n <= m).
Proof.
  intros Hf. apply scrape_some in Hf as (rows & -> & Hne & ->).
  set (fw := List.filter (in_first_week release_date)
               (table_entries strptime rows)) in *.
  assert (Hth : forall e n, In e fw -> theaters e = Some n -> 100 < n).
  { intros e n He. apply filter_In in He as [He _].
    now apply (entry_theaters rows). }
  change (summary fw !! "opening_theaters")
    with (Some match fw with
               | d :: _ => opt_int (theaters d)
               | [] => VNone
               end).
  change (summary fw !! "peak_theaters_week1") with (Some (peak_theaters fw)).
  set (pick := fun d : Entry =>
                 match theaters d with
                 | Some n => if n =? 0 then None else Some n
                 | None => None
                 end).
  assert (Hpick : forall e n, In e fw -> pick e = Some n ->
                              theaters e = Some n).
  { intros e n _. unfold pick. destruct (theaters e) as [k|]; [|discriminate].
    destruct (k =? 0); [discriminate | now intros [= ->]]. }
  assert (Hth' : forall x, In x (omap pick fw) -> 100 < x).
  { intros x Hx. apply list_elem_of_In, list_elem_of_omap in Hx
      as (e & He & Hp). apply list_elem_of_In in He.
    eapply Hth; [exact He | now apply Hpick]. }
  assert (Hpeak : peak_theaters fw
                  = match omap pick fw with
                    | [] => VNone
                    | t :: ts => VInt (fold_left Z.max ts t)
                    end) by reflexivity.
  split; [|split].
  - destruct fw as [|d fw']; [contradiction|].
    destruct (theaters d) as [n|] eqn:Hd; [|now left].
    right. exists n. split; [reflexivity|].
    apply (Hth d); [now left | assumption].
  - rewrite Hpeak. destruct (omap pick fw) as [|t ts]; [now left|].
    right. exists (fold_left Z.max ts t). split; [reflexivity|].
    destruct (fold_max_spec ts t) as (_ & _ & [-> | Hin]).
    + apply Hth'. now left.
    + apply Hth'. now right.
  - intros n Hn. destruct fw as [|d fw']; [contradiction|].
    injection Hn as Hn. destruct (theaters d) as [k|] eqn:Hd;
      [|discriminate].
    injection Hn as ->.
    assert (Hk : 100 < n) by (apply (Hth d); [now left | assumption]).
    rewrite Hpeak. cbn [omap list_omap]. unfold pick at 1. rewrite Hd.
    destruct (Z.eqb_spec n 0) as [|_]; [lia|].
    exists (fold_left Z.max (omap pick fw') n). split; [reflexivity|].
    apply (proj1 (fold_max_spec _ _)).
Qed.

(** X21: a row without a gross counts as a day of gross zero, not as a
    missing day.  A parsed row has the integer gross 0 exactly when its
    gross cell is empty or a dash; and the [first_week_gross] of a
    returned dict is always a number: the integer 0 exactly when every
    row of the first week lacks a gross, and a float otherwise. *)
Theorem X21_missing_gross_is_zero (page : movie_page)
    (release_date : option Z) (f : features) (rows : list (list tdcell)) :
  page = Reply 200 (Some rows) ->
  scrape_movie_daily_data strptime page release_date = Some f ->
  (forall row e, row_entry strptime row = Return (Some e) ->
     exists c3, row !! 3%nat = Some c3
       /\ (gross e = NInt 0 <-> get_text c3 = [] \/ get_text c3 = U "-"))
  /\ (f !! "first_week_gross" = Some (VInt 0)
      <-> forall e, In e (table_entries strptime rows) ->
            in_first_week release_date e = true -> gross e = NInt 0)
  /\ (f !! "first_week_gross" = Some (VInt 0)
      \/ exists x, f !! "first_week_gross" = Some (VFloat x)).
Proof.
  intros Hpage Hf. apply scrape_some in Hf as (rows' & Hp & Hne & ->).
  rewrite Hpage in Hp. injection Hp as <-.
  set (fw := List.filter (in_first_week release_date)
               (table_entries strptime rows)) in *.
  change (summary fw !! "first_week_gross")
    with (Some (num_val (py_sum (gross <$> fw)))).
  assert (Hzero : forall e k, In e fw -> gross e = NInt k -> k = 0).
  { intros e k He. apply filter_In in He as [He _].
    now apply (entry_gross_int rows). }
  assert (Hiff : py_sum (gross <$> fw) = NInt 0
                 <-> forall e, In e fw -> gross e = NInt 0).
  { split.
    - intros E e He.
      destruct (sum_int _ _ _ E (gross e)) as [k Hk].
      { apply list_elem_of_In, list_elem_of_fmap. exists e.
        split; [reflexivity | now apply list_elem_of_In]. }
      rewrite Hk. f_equal. now apply (Hzero e).
    - intros Hall. apply sum_zeros. intros v Hv.
      apply list_elem_of_In, list_elem_of_fmap in Hv as (e & -> & He).
      apply Hall. now apply list_elem_of_In. }
  split; [|split].
  - intros row e Hrow.
    apply row_entry_spec in Hrow as (c0 & c1 & c2 & c3 & more & -> & _ & _
                                     & Hg & _).
    exists c3. split; [reflexivity|]. split.
    + intros E. rewrite E in Hg. now apply parse_gross_int in Hg.
    + intros Hc. rewrite (parse_gross_missing _ Hc) in Hg.
      now injection Hg as <-.
  - split.
    + intros E e He Hw. apply Hiff; [|apply filter_In; now split].
      destruct (py_sum (gross <$> fw)) as [k|x]; simpl in E; [|discriminate].
      now injection E as ->.
    + intros Hall. replace (py_sum (gross <$> fw)) with (NInt 0);
        [reflexivity|].
      symmetry. apply Hiff. intros e He. apply filter_In in He as [He Hw].
      now apply Hall.
  - destruct (py_sum (gross <$> fw)) as [k|x] eqn:E; [left | right; now exists x].
    simpl. do 2 f_equal.
    destruct fw as [|e0 es] eqn:Efw; [contradiction|].
    unfold py_sum in E.
    destruct (sum_int _ _ _ E (gross e0)) as [k0 Hk0]; [now left|].
    assert (Hall : forall v, In v (gross <$> e0 :: es) -> v = NInt 0).
    { intros v Hv. destruct (sum_int _ _ _ E v Hv) as [kv ->].
      apply list_elem_of_In, list_elem_of_fmap in Hv as (e & Hge & He).
      f_equal. apply (Hzero e); [now apply list_elem_of_In | now symmetry]. }
    rewrite (sum_zeros _ 0 Hall) in E. now injection E as <-.
Qed.

End IndividualFacts.

Lemma X19_individual_first_week_witness :
  exists rows rd first_week_data opening more,
    sample_movie_page = IndividualMovieScraper.Reply 200 (Some rows)
    /\ Some day0 = Some rd
    /\ first_week_data
       = List.filter
           (fun e => (rd <=? IndividualMovieScraper.date e)
                     && (IndividualMovieScraper.date e <=? rd + 6))
           (IndividualMovieScraper.table_entries sample_strptime rows)
    /\ first_week_data = opening :: more
    /\ sample_week !! "first_week_days_tracked"
       = Some (VInt (Z.of_nat (length first_week_data)))
    /\ (1 <= length first_week_data <= length rows - 1)%nat
    /\ sample_week !! "opening_gross"
       = Some (IndividualMovieScraper.num_val
                 (IndividualMovieScraper.gross opening))
    /\ sample_week !! "opening_theaters"
       = Some (IndividualMovieScraper.opt_int
                 (IndividualMovieScraper.theaters opening)).
Proof.
  apply (X19_individual_first_week sample_strptime sample_movie_page
           (Some day0)).
  vm_compute. reflexivity.
Defined.

Lemma X20_theaters_above_100_witness :
  exists m, sample_week !! "peak_theaters_week1" = Some (VInt m) /\ 2000 <= m.
Proof.
  apply (proj2 (proj2 (X20_theaters_above_100 sample_strptime
                         sample_movie_page (Some day0) sample_week
                         ltac:(vm_compute; reflexivity)))).
  vm_compute. reflexivity.
Defined.

Lemma X21_missing_gross_is_zero_witness :
  sample_week !! "first_week_gross" = Some (VInt 0)
  \/ exists x, sample_week !! "first_week_gross" = Some (VFloat x).
Proof.
  apply (proj2 (proj2 (X21_missing_gross_is_zero sample_strptime
                         sample_movie_page (Some day0) sample_week _
                         eq_refl ltac:(vm_compute; reflexivity)))).
Defined.

(** ** The batch of individual scrapes *)

Lemma omap_cons_app {A B} (f : A -> option B) (x : A) (l : list A) :
  omap f (x :: l) = omap f [x] ++ omap f l.
Proof.
  change (omap f (x :: l))
    with (match f x with Some y => y :: omap f l | None => omap f l end).
  change (omap f [x])
    with (match f x with Some y => [y] | None => [] end).
  now destruct (f x).
Qed.

Section BatchFacts.
Variable strptime : pystr -> result Z.
Variable web : pystr -> IndividualMovieScraper.movie_page.
Import IndividualMovieRun.

Lemma scrape_events_no_save bom_url release_date :
  forallb (fun e => negb (is_save e))
    (scrape_movie_daily_data strptime web bom_url release_date).1 = true.
Proof. now destruct bom_url. Qed.

Lemma results_step row results :
  match result_row row
          (scrape_movie_daily_data strptime web (bom_url (movie row))
             (release_date (movie row))).2 with
  | Some r => results ++ [r]
  | None => results
  end = results ++ omap (batch_row strptime web) [row].
Proof.
  change (omap (batch_row strptime web) [row])
    with (match batch_row strptime web row with
          | Some y => [y]
          | None => []
          end).
  unfold batch_row.
  destruct (result_row row _); [reflexivity | now rewrite app_nil_r].
Qed.

Lemma batch_loop_results start_idx movies : forall idx results,
  (batch_loop strptime web start_idx idx movies results).2
  = results ++ omap (batch_row strptime web) movies.
Proof.
  induction movies as [|row more IH]; intros idx results.
  - simpl. now rewrite app_nil_r.
  - cbn [batch_loop]. cbv zeta. cbn [snd].
    rewrite IH, results_step, (omap_cons_app _ row more).
    now rewrite app_assoc.
Qed.

Lemma batch_loop_requests start_idx movies : forall idx results,
  List.filter (fun e => negb (is_save e))
    (batch_loop strptime web start_idx idx movies results).1
  = flat_map
      (fun row =>
         (scrape_movie_daily_data strptime web (bom_url (movie row))
            (release_date (movie row))).1 ++ [EvPause (5 # 2)])
      movies.
Proof.
  induction movies as [|row more IH]; intros idx results; [reflexivity|].
  cbn [batch_loop flat_map]. cbv zeta. cbn [fst].
  rewrite !List.filter_app, IH.
  rewrite (forallb_filter_id _ _ (scrape_events_no_save _ _)).
  rewrite <- app_assoc. f_equal. cbn [List.filter is_save negb app].
  f_equal.
  destruct ((idx mod 50 =? 0) && _); reflexivity.
Qed.

Lemma batch_loop_saves start_idx movies : forall idx results path rows,
  In (EvSave path rows)
    (batch_loop strptime web start_idx idx movies results).1
  <-> exists j : nat,
        (1 <= j <= length movies)%nat
        /\ (idx - 1 + Z.of_nat j) mod 50 = 0
        /\ path = progress_file (start_idx + (idx - 1 + Z.of_nat j))
        /\ rows = results ++ omap (batch_row strptime web) (take j movies)
        /\ rows <> [].
Proof.
  induction movies as [|row more IH]; intros idx results path rows.
  - simpl. split; [contradiction | intros (j & Hj & _); lia].
  - cbn [batch_loop]. cbv zeta. cbn [fst].
    rewrite results_step.
    set (results' := results ++ omap (batch_row strptime web) [row]).
    rewrite !in_app_iff, IH. split.
    + intros [Hreq | [Hpause | [Hsave | (j & Hj & Hmod & -> & -> & Hne)]]].
      * exfalso.
        pose proof (scrape_events_no_save (bom_url (movie row))
                      (release_date (movie row))) as Hno.
        rewrite forallb_forall in Hno. now apply Hno in Hreq.
      * exfalso. destruct Hpause as [E|[]]. discriminate.
      * destruct (Z.eqb_spec (idx mod 50) 0) as [Hmod|]; [|contradiction].
        destruct (bool_decide_reflect (results' = [])) as [|Hne];
          [contradiction|].
        destruct Hsave as [[= <- <-]|[]].
        exists 1%nat. cbn [length]. split; [lia|].
        split; [now replace (idx - 1 + Z.of_nat 1) with idx by lia|].
        split; [f_equal; lia|]. split; [reflexivity | exact Hne].
      * exists (S j). cbn [length]. split; [lia|].
        split; [now replace (idx - 1 + Z.of_nat (S j))
                  with (idx + 1 - 1 + Z.of_nat j) by lia|].
        split; [f_equal; lia|].
        assert (E : results ++ omap (batch_row strptime web)
                                 (take (S j) (row :: more))
                    = results' ++ omap (batch_row strptime web) (take j more)).
        { change (take (S j) (row :: more)) with (row :: take j more).
          rewrite (omap_cons_app _ row (take j more)).
          unfold results'. now rewrite app_assoc. }
        split; [now rewrite E | exact Hne].
    + intros (j & Hj & Hmod & -> & -> & Hne). cbn [length] in Hj.
      destruct j as [|[|j]]; [lia| |].
      * right. right. left.
        replace (idx - 1 + Z.of_nat 1) with idx in * by lia.
        rewrite Hmod. cbn [Z.eqb andb].
        change (results ++ omap (batch_row strptime web) (take 1 (row :: more)))
          with results' in *.
        destruct (bool_decide_reflect (results' = [])) as [|_];
          [contradiction|].
        now left.
      * right. right. right. exists (S j). split; [lia|].
        split; [now replace (idx + 1 - 1 + Z.of_nat (S j))
                  with (idx - 1 + Z.of_nat (S (S j))) by lia|].
        split; [f_equal; lia|].
        assert (E : results ++ omap (batch_row strptime web)
                                 (take (S (S j)) (row :: more))
                    = results' ++ omap (batch_row strptime web)
                                   (take (S j) more)).
        { change (take (S (S j)) (row :: more))
            with (row :: take (S j) more).
          rewrite (omap_cons_app _ row (take (S j) more)).
          unfold results'. now rewrite app_assoc. }
        rewrite E in Hne |- *. now split.
Qed.

(** X22: with no movie to scrape [scrape_movies_batch] makes no request
    and raises [ZeroDivisionError] in its final summary.  Otherwise it
    returns: it goes through the selected movies in dataset order, pauses
    2.5 seconds after each one (scraped or not), and returns the rows of
    the movies whose scrape succeeded, in order, or [None] when none
    did. *)
Theorem X22_batch_outcome (df : list DatasetRow) (start_idx batch_size : Z)
    (max_movies : option Z) :
  let movies := movies_to_scrape df start_idx max_movies in
  let out := scrape_movies_batch strptime web df start_idx batch_size
               max_movies in
  (movies = [] -> out = ([], ZeroDivisionError))
  /\ (movies <> [] ->
      out.2 = Returned match omap (batch_row strptime web) movies with
                       | [] => None
                       | rows => Some rows
                       end)
  /\ List.filter (fun e => negb (is_save e)) out.1
     = flat_map
         (fun row =>
            (scrape_movie_daily_data strptime web (bom_url (movie row))
               (release_date (movie row))).1 ++ [EvPause (5 # 2)])
         movies.
Proof.
  cbv zeta. unfold scrape_movies_batch. cbv zeta. cbn [fst snd].
  split; [|split].
  - now intros ->.
  - intros Hne. rewrite batch_loop_results. cbn [app].
    destruct (movies_to_scrape df start_idx max_movies); [contradiction|].
    reflexivity.
  - apply batch_loop_requests.
Qed.

(** X23: the batch saves its progress only after every fiftieth movie,
    and only when some scrape has succeeded by then: the file written
    after movie number [j] is named after [start_idx + j] and holds all
    the rows collected so far.  A batch of fewer than fifty movies writes
    no file. *)
Theorem X23_progress_saves (df : list DatasetRow) (start_idx batch_size : Z)
    (max_movies : option Z) (path : pystr) (rows : list features) :
  let movies := movies_to_scrape df start_idx max_movies in
  let out := scrape_movies_batch strptime web df start_idx batch_size
               max_movies in
  (In (EvSave path rows) out.1
   <-> exists j : nat,
         (1 <= j <= length movies)%nat
         /\ Z.of_nat j mod 50 = 0
         /\ path = progress_file (start_idx + Z.of_nat j)
         /\ rows = omap (batch_row strptime web) (take j movies)
         /\ rows <> [])
  /\ ((length movies < 50)%nat -> ~ In (EvSave path rows) out.1).
Proof.
  cbv zeta. unfold scrape_movies_batch. cbv zeta. cbn [fst].
  assert (Hiff : In (EvSave path rows)
                   (batch_loop strptime web start_idx 1
                      (movies_to_scrape df start_idx max_movies) []).1
                 <-> exists j : nat,
                       (1 <= j <= length (movies_to_scrape df start_idx
                                            max_movies))%nat
                       /\ Z.of_nat j mod 50 = 0
                       /\ path = progress_file (start_idx + Z.of_nat j)
                       /\ rows = omap (batch_row strptime web)
                                   (take j (movies_to_scrape df start_idx
                                              max_movies))
                       /\ rows <> []).
  { rewrite batch_loop_saves. split.
    - intros (j & Hj & Hmod & -> & -> & Hne). exists j.
      replace (1 - 1 + Z.of_nat j) with (Z.of_nat j) in * by lia.
      now repeat split.
    - intros (j & Hj & Hmod & -> & -> & Hne). exists j.
      replace (1 - 1 + Z.of_nat j) with (Z.of_nat j) by lia.
      now repeat split. }
  split; [exact Hiff|].
  intros Hlen Hin. apply Hiff in Hin as (j & Hj & Hmod & _).
  apply Z.mod_divide in Hmod as [k Hk]; lia.
Qed.

End BatchFacts.

Lemma X22_batch_outcome_witness :
  (IndividualMovieRun.scrape_movies_batch sample_strptime sample_movie_site
     sample_dataset 0 100 None).2
  = IndividualMovieRun.Returned
      match omap (IndividualMovieRun.batch_row sample_strptime
                    sample_movie_site) sample_dataset with
      | [] => None
      | rows => Some rows
      end.
Proof.
  apply (proj1 (proj2 (X22_batch_outcome sample_strptime sample_movie_site
                         sample_dataset 0 100 None))).
  discriminate.
Defined.

Lemma X23_progress_saves_witness :
  (length (IndividualMovieRun.movies_to_scrape sample_dataset 0 None) < 50)%nat
  /\ ~ In (IndividualMovieRun.EvSave
             (IndividualMovieRun.progress_file 50) [sample_week])
         (IndividualMovieRun.scrape_movies_batch sample_strptime
            sample_movie_site sample_dataset 0 100 None).1.
Proof.
  assert (Hlen : (length (IndividualMovieRun.movies_to_scrape sample_dataset
                            0 None) < 50)%nat)
    by (vm_compute; lia).
  split; [exact Hlen|].
  exact (proj2 (X23_progress_saves sample_strptime sample_movie_site
                  sample_dataset 0 100 None
                  (IndividualMovieRun.progress_file 50) [sample_week]) Hlen).
Defined.

(** ** The address of a movie's daily page *)

Module DailyUrlFacts.
Import IndividualMovieScraper IndividualMovieRun.

Lemma partition_skip (s0 : N) (sep' pre rest : pystr) :
  Forall (fun c => c <> s0) pre ->
  partition (s0 :: sep') (pre ++ rest)
  = (fun p : pystr * pystr => (pre ++ p.1, p.2))
      <$> partition (s0 :: sep') rest.
Proof.
  induction 1 as [|c pre Hc Hpre IH]; cbn [app].
  - now destruct (partition (s0 :: sep') rest) as [[a b]|].
  - change (partition (s0 :: sep') (c :: pre ++ rest))
      with (if startswith (s0 :: sep') (c :: pre ++ rest)
            then Some ([], drop (length (s0 :: sep')) (c :: pre ++ rest))
            else (fun p : pystr * pystr => (c :: p.1, p.2))
                   <$> partition (s0 :: sep') (pre ++ rest)).
    cbn [startswith]. destruct (N.eqb_spec s0 c) as [->|_]; [congruence|].
    cbn [andb]. rewrite IH.
    now destruct (partition (s0 :: sep') rest) as [[a b]|].
Qed.

Lemma partition_cons_ne (sep : pystr) (c : N) (rest : pystr) :
  startswith sep (c :: rest) = false ->
  partition sep (c :: rest)
  = (fun p : pystr * pystr => (c :: p.1, p.2)) <$> partition sep rest.
Proof.
  intros E.
  change (partition sep (c :: rest))
    with (if startswith sep (c :: rest)
          then Some ([], drop (length sep) (c :: rest))
          else (fun p : pystr * pystr => (c :: p.1, p.2))
                 <$> partition sep rest).
  now rewrite E.
Qed.

(** The text after the title id: slashes, then nothing or a query. *)
Lemma split_title_tail (k : nat) (q : pystr) :
  q = [] \/ (exists q', q = 63%N :: q') ->
  exists t,
    split_0 (U "/title/") (replicate k 47%N ++ q) = replicate k 47%N ++ t
    /\ (t = [] \/ exists t', t = 63%N :: t').
Proof.
  intros Hq.
  assert (Hbase : exists t,
             split_0 (U "/title/") q = t
             /\ (t = [] \/ exists t', t = 63%N :: t')).
  { destruct Hq as [->|[q' ->]].
    - exists []. split; [reflexivity | now left].
    - unfold split_0. rewrite partition_cons_ne by reflexivity.
      destruct (partition (U "/title/") q') as [[a b]|]; cbn.
      + exists (63%N :: a). split; [reflexivity | right; now exists a].
      + exists (63%N :: q'). split; [reflexivity | right; now exists q']. }
  induction k as [|k IH]; [exact Hbase|].
  destruct IH as (t & Ht & Hcase). exists t. split; [|exact Hcase].
  cbn [replicate app]. unfold split_0 in *.
  rewrite partition_cons_ne.
  - destruct (partition (U "/title/") (replicate k 47%N ++ q)) as [[a b]|];
      cbn in *; now rewrite Ht.
  - destruct k as [|k]; cbn [replicate app].
    + destruct Hq as [->|[q' ->]]; reflexivity.
    + reflexivity.
Qed.

Lemma split_query (pre t : pystr) :
  Forall (fun c => c <> 63%N) pre ->
  t = [] \/ (exists t', t = 63%N :: t') ->
  split_0 (U "?") (pre ++ t) = pre.
Proof.
  intros Hpre Ht. unfold split_0. change (U "?") with [63%N].
  rewrite (partition_skip 63 [] pre t Hpre).
  destruct Ht as [->|[t' ->]]; cbn; now rewrite app_nil_r.
Qed.

Lemma lstrip_char_slashes (k : nat) (s : pystr) :
  lstrip_char 47 (replicate k 47%N ++ s) = lstrip_char 47 s.
Proof. induction k as [|k IH]; [reflexivity | exact IH]. Qed.

Lemma lstrip_char_id (s : pystr) :
  Forall (fun c => c <> 47%N) s -> lstrip_char 47 s = s.
Proof.
  intros [|c s' Hc _]; [reflexivity|]. cbn [lstrip_char].
  destruct (N.eqb_spec c 47) as [|_]; [contradiction | reflexivity].
Qed.

Lemma replicate_snoc (k : nat) (c : N) :
  replicate k c ++ [c] = c :: replicate k c.
Proof. induction k as [|k IH]; cbn [replicate app]; congruence. Qed.

Lemma rev_slashes (k : nat) (c : N) : rev (replicate k c) = replicate k c.
Proof.
  induction k as [|k IH]; [reflexivity|].
  cbn [replicate rev]. now rewrite IH, replicate_snoc.
Qed.

Lemma strip_title_id (id : pystr) (k : nat) :
  Forall (fun c => c <> 47%N) id ->
  strip_char 47 (id ++ replicate k 47%N) = id.
Proof.
  intros Hid. unfold strip_char.
  assert (E : lstrip_char 47 (id ++ replicate k 47%N)
              = match id with
                | [] => []
                | _ => id ++ replicate k 47%N
                end).
  { destruct Hid as [|c s' Hc _].
    - cbn [app].
      rewrite <- (app_nil_r (replicate k 47%N)), lstrip_char_slashes.
      reflexivity.
    - cbn [app lstrip_char].
      destruct (N.eqb_spec c 47) as [|_]; [contradiction | reflexivity]. }
  rewrite E. destruct id as [|c s']; [reflexivity|].
  rewrite rev_app_distr, rev_slashes, lstrip_char_slashes.
  rewrite lstrip_char_id, rev_involutive; [reflexivity|].
  apply Forall_rev, Hid.
Qed.

End DailyUrlFacts.

(** X24: for a title address, the daily page is addressed by the title
    id alone.  When the text after the first ['/title/'] of the URL is an
    id free of ['/'] and ['?'], followed by any number of slashes and then
    nothing or a query string, the daily page is
    [https://www.boxofficemojo.com/title/<id>/daily/], whatever stands
    before ['/title/'] and whatever the query. *)
Theorem X24_daily_url_of_title (bom_url pre id q : pystr) (k : nat) :
  IndividualMovieRun.partition (U "/title/") bom_url
  = Some (pre, id ++ replicate k 47%N ++ q) ->
  Forall (fun c => c <> 47%N /\ c <> 63%N) id ->
  q = [] \/ (exists q', q = 63%N :: q') ->
  IndividualMovieRun.daily_url bom_url
  = IndividualMovieScraper.base_url ++ U "/title/" ++ id ++ U "/daily/".
Proof.
  intros Hpart Hid Hq.
  assert (Hid1 : Forall (fun c => c <> 47%N) id)
    by (eapply Forall_impl; [exact Hid | now intros c [? _]]).
  assert (Hid2 : Forall (fun c => c <> 63%N) id)
    by (eapply Forall_impl; [exact Hid | now intros c [_ ?]]).
  unfold IndividualMovieRun.daily_url. rewrite Hpart.
  destruct (DailyUrlFacts.split_title_tail k q Hq) as (t & Ht & Hcase).
  assert (E1 : IndividualMovieRun.split_0 (U "/title/")
                 (id ++ replicate k 47%N ++ q)
               = id ++ replicate k 47%N ++ t).
  { unfold IndividualMovieRun.split_0 in *.
    change (U "/title/") with (47%N :: U "title/").
    rewrite (DailyUrlFacts.partition_skip 47 (U "title/") id _ Hid1).
    change (47%N :: U "title/") with (U "/title/").
    destruct (IndividualMovieRun.partition (U "/title/")
                (replicate k 47%N ++ q)) as [[a b]|];
      cbn [fmap option_fmap option_map fst snd]; now rewrite Ht. }
  rewrite E1, (app_assoc id (replicate k 47%N) t),
    DailyUrlFacts.split_query.
  - now rewrite DailyUrlFacts.strip_title_id.
  - apply Forall_app. split; [exact Hid2|].
    apply Forall_forall. intros c Hc. apply elem_of_replicate in Hc as [-> _].
    discriminate.
  - exact Hcase.
Qed.

Lemma X24_daily_url_of_title_witness :
  IndividualMovieRun.daily_url
    (U "https://www.boxofficemojo.com/title/tt0499549/?ref_=bo_se_r_1")
  = IndividualMovieScraper.base_url ++ U "/title/" ++ U "tt0499549"
    ++ U "/daily/".
Proof.
  apply (X24_daily_url_of_title _ (U "https://www.boxofficemojo.com")
           (U "tt0499549") (U "?ref_=bo_se_r_1") 1).
  - vm_compute. reflexivity.
  - apply (bool_decide_unpack _). vm_compute. reflexivity.
  - right. eexists. reflexivity.
Defined.

(** ** All the years *)

Lemma collect_year_batch_at web year strategy tr :
  YearBatchRun.collect_year_batch web year strategy tr
  = (tr ++ year_events web strategy year,
     (execute (YearBatchRun.collect_year_batch web year strategy)).2).
Proof.
  unfold year_events. rewrite collect_year_batch_run.
  unfold YearBatchRun.collect_year_batch, selected_dates.
  unfold mbind at 1. unfold run_bind at 1. unfold lift at 1.
  assert (G : forall dates,
            (all_data ← YearBatchRun.collect_loop web dates;
             match all_data with
             | [] => mret None
             | _ =>
                 _ ← emit (EvToCsv (YearBatchRun.output_file year)
                             (concat all_data));
                 mret (Some (concat all_data))
             end) tr
            = (tr ++ (match omap (scraped web) dates with
                      | [] => (page_events dates, Return None)
                      | all_data =>
                          (page_events dates
                             ++ [EvToCsv (YearBatchRun.output_file year)
                                   (concat all_data)],
                           Return (Some (concat all_data)))
                      end).1,
               (match omap (scraped web) dates with
                | [] => (page_events dates, Return None)
                | all_data =>
                    (page_events dates
                       ++ [EvToCsv (YearBatchRun.output_file year)
                             (concat all_data)],
                     Return (Some (concat all_data)))
                end).2)).
  { intros dates. unfold mbind at 1. unfold run_bind at 1.
    unfold YearBatchRun.collect_loop. rewrite collect_loop_run.
    rewrite app_nil_l.
    destruct (omap (scraped web) dates); [reflexivity|].
    unfold mbind, run_bind, emit, mret, run_ret. cbn [fst snd].
    now rewrite <- app_assoc. }
  destruct (bool_decide (strategy = U "smart")); [apply G|].
  destruct (bool_decide (strategy = U "weekly")); [apply G|].
  destruct (bool_decide (strategy = U "biweekly")); [apply G|].
  cbn [fst snd]. now rewrite app_nil_r.
Qed.

Lemma filter_batch_events (tr : list event) :
  List.filter is_batch (AllYears.Batch <$> tr) = AllYears.Batch <$> tr.
Proof.
  induction tr as [|e tr IH]; [reflexivity|].
  rewrite fmap_cons. cbn [List.filter is_batch]. now rewrite IH.
Qed.

Section AllYearsFacts.
Context `{CaseMapping}.
Import AllYears.

Lemma year_step_run web strategy all_batch_data year tr :
  year_step web strategy all_batch_data year tr
  = (tr ++ year_events web strategy year,
     Return (all_batch_data ++ omap (year_batch web strategy) [year])).
Proof.
  unfold year_step. rewrite collect_year_batch_at.
  change (omap (year_batch web strategy) [year])
    with (match year_batch web strategy year with
          | Some b => [b]
          | None => []
          end).
  unfold year_batch.
  destruct ((execute (YearBatchRun.collect_year_batch web year strategy)).2)
    as [[[|r b]|]|e]; now rewrite ?app_nil_r.
Qed.

Lemma years_loop web strategy years : forall all_batch_data tr,
  for_each (year_step web strategy) years all_batch_data tr
  = (tr ++ flat_map (year_events web strategy) years,
     Return (all_batch_data ++ omap (year_batch web strategy) years)).
Proof.
  induction years as [|y ys IH]; intros acc tr.
  - simpl. unfold mret, run_ret. now rewrite !app_nil_r.
  - cbn [for_each flat_map]. unfold mbind at 1. unfold run_bind at 1.
    rewrite year_step_run, IH, (omap_cons_app _ y ys).
    now rewrite <- !app_assoc.
Qed.

Lemma unknown_strategy year strategy :
  strategy <> U "smart" -> strategy <> U "weekly" ->
  strategy <> U "biweekly" ->
  selected_dates year strategy = None.
Proof.
  intros H1 H2 H3. unfold selected_dates.
  now rewrite !bool_decide_eq_false_2 by assumption.
Qed.

(** X25: an unknown strategy goes unnoticed in [collect_all_years].
    [collect_year_batch] raises [ValueError] for it, every year; the loop
    over the years swallows the exception, and the script makes no
    request, writes no file and returns [None], as if the site had had
    no data. *)
Theorem X25_unknown_strategy_swallowed (web : Z -> http_outcome)
    (movies : list Movie) (main : frame) (strategy : pystr)
    (start_year end_year : Z) :
  strategy <> U "smart" ->
  strategy <> U "weekly" ->
  strategy <> U "biweekly" ->
  (forall year,
     execute (YearBatchRun.collect_year_batch web year strategy)
     = ([], Raise ValueError))
  /\ collect_all_years web movies main strategy start_year end_year
     = ([], Return RNone).
Proof.
  intros H1 H2 H3.
  assert (Hyear : forall year,
            execute (YearBatchRun.collect_year_batch web year strategy)
            = ([], Raise ValueError)).
  { intros year. rewrite collect_year_batch_run.
    now rewrite unknown_strategy. }
  split; [exact Hyear|].
  unfold collect_all_years. cbv zeta. rewrite years_loop.
  assert (Hev : forall years, flat_map (year_events web strategy) years = []).
  { induction years as [|y ys IH]; [reflexivity|].
    cbn [flat_map]. rewrite IH. unfold year_events. now rewrite Hyear. }
  assert (Hb : forall years, omap (year_batch web strategy) years = []).
  { induction years as [|y ys IH]; [reflexivity|].
    rewrite omap_cons_app, IH.
    change (omap (year_batch web strategy) [y])
      with (match year_batch web strategy y with
            | Some b => [b]
            | None => []
            end).
    unfold year_batch. now rewrite Hyear. }
  now rewrite Hev, Hb.
Qed.

(** X26: the collection of all the years, for the years the calendar
    has.  The script runs the yearly collections in year order, one after
    the other.  When no year gave data it writes nothing more and returns
    [None].  Otherwise it then writes the combined file, which holds the
    batches of the years in year order, and what it returns starts with
    that combined table: the table alone when no movie of the dataset
    got features from it, or the table and those features. *)
Theorem X26_all_years_collection (web : Z -> http_outcome)
    (movies : list Movie) (main : frame) (strategy : pystr)
    (start_year end_year : Z) :
  1 <= start_year ->
  end_year <= 9998 ->
  let years := seqZ start_year (end_year + 1 - start_year) in
  let batches := omap (year_batch web strategy) years in
  let out := collect_all_years web movies main strategy start_year
               end_year in
  (batches = [] ->
   out = (Batch <$> flat_map (year_events web strategy) years, Return RNone))
  /\ (batches <> [] ->
      List.filter is_batch out.1
      = Batch <$> (flat_map (year_events web strategy) years
                   ++ [EvToCsv (U "data/processed/bom_all_years_batch.csv")
                         (concat batches)])
      /\ forall r, out.2 = Return r ->
           match MovieFeatures.aggregate_movie_features
                   (concat batches) movies with
           | [] => r = RCombined (concat batches)
           | features_df => r = RBoth (concat batches) features_df
           end).
Proof.
  intros _ _. cbv zeta. unfold collect_all_years. cbv zeta.
  rewrite years_loop. cbn [app].
  destruct (omap (year_batch web strategy)
              (seqZ start_year (end_year + 1 - start_year)))
    as [|b bs] eqn:E.
  - split; [reflexivity | intros Hne; contradiction].
  - split; [discriminate|]. intros _.
    destruct (MovieFeatures.aggregate_movie_features (concat (b :: bs)) movies)
      as [|f fs] eqn:F.
    + cbn [fst snd]. split; [apply filter_batch_events|].
      now intros r [= <-].
    + destruct (Merge.update_dataset main (to_frame (f :: fs))
                  Merge.first_week_columns) as [df|e]; cbn [fst snd].
      * split; [|now intros r [= <-]].
        rewrite !List.filter_app, filter_batch_events. cbn.
        now rewrite !app_nil_r.
      * split; [|discriminate].
        rewrite List.filter_app, filter_batch_events. cbn.
        now rewrite app_nil_r.
Qed.

End AllYearsFacts.

Lemma X25_unknown_strategy_swallowed_witness :
  AllYears.collect_all_years steady_site [test_movie] sample_main
    (U "daily") 1990 2024
  = ([], Return AllYears.RNone).
Proof.
  apply (X25_unknown_strategy_swallowed steady_site [test_movie] sample_main
           (U "daily") 1990 2024);
    apply (bool_decide_unpack _); vm_compute; reflexivity.
Defined.

Lemma X26_all_years_collection_witness :
  List.filter is_batch
    (AllYears.collect_all_years steady_site [test_movie] sample_main
       (U "biweekly") 2024 2024).1
  = AllYears.Batch
      <$> (flat_map (year_events steady_site (U "biweekly"))
             (seqZ 2024 (2024 + 1 - 2024))
           ++ [EvToCsv (U "data/processed/bom_all_years_batch.csv")
                 (concat (omap (year_batch steady_site (U "biweekly"))
                            (seqZ 2024 (2024 + 1 - 2024))))]).
Proof.
  refine (proj1 (proj2 (X26_all_years_collection steady_site [test_movie]
                          sample_main (U "biweekly") 2024 2024 _ _) _));
    [lia | lia | vm_compute; discriminate].
Defined.

(** ** Enriching the dataset *)

Lemma scrape_date_range_exact web start_date end_date :
  execute (BOMDailyRun.scrape_date_range web start_date end_date None)
  = (page_events (range_dates start_date end_date),
     Return match omap (bom_scraped web) (range_dates start_date end_date) with
            | [] => None
            | all_data => Some (concat all_data)
            end).
Proof.
  unfold execute, BOMDailyRun.scrape_date_range, range_dates.
  unfold mbind at 1. unfold run_bind at 1.
  rewrite (range_loop_exact web _ start_date end_date None 0 [] []
             (range_days start_date end_date None)).
  - simpl app.
    now destruct (omap (bom_scraped web)
                    (seqZ start_date (range_days start_date end_date None))).
  - lia.
  - reflexivity.
Qed.

Lemma In_head_n {A} (n : Z) (l : list A) (x : A) :
  In x (IndividualMovieRun.head_n n l) -> In x l.
Proof.
  unfold IndividualMovieRun.head_n.
  destruct (n <? 0); rewrite <- !list_elem_of_In; apply subseteq_take.
Qed.

Section EnrichFacts.
Context `{CaseMapping}.
Import Enrich.

Lemma aggregate_daily_raises daily movie_title url e :
  DailyFeatures.aggregate_daily_features daily movie_title url = Raise e ->
  (url = UrlNaN \/ url = UrlStr []) /\ e = UnboundLocalError.
Proof.
  destruct url as [| |[|c s]].
  - rewrite (aggregate_of_movie_data _ _ _ _
               (movie_data_no_url daily movie_title)). discriminate.
  - intros [= <-]. auto.
  - intros [= <-]. auto.
  - destruct (url_matches (c :: s) daily) as [|x l] eqn:E.
    + rewrite (aggregate_of_movie_data _ _ _ _
                 (movie_data_url_fallback daily movie_title c s E)).
      discriminate.
    + assert (Hne : url_matches (c :: s) daily <> [])
        by (rewrite E; discriminate).
      rewrite (aggregate_of_movie_data _ _ _ _
                 (movie_data_url_found daily movie_title c s Hne)).
      discriminate.
Qed.

Lemma enrich_loop_return daily movies : forall acc out,
  enrich_loop daily movies acc = Return out ->
  forall idx d,
    In (idx, d) out
    <-> In (idx, d) acc
        \/ exists row, In (idx, row) movies
             /\ daily_features_of daily row = Return (Some d)
             /\ d <> ∅.
Proof.
  induction movies as [|[i row] more IH]; intros acc out.
  - intros [= <-] idx d. split; [now left | intros [|(r & [] & _)]; trivial].
  - cbn [enrich_loop].
    change (DailyFeatures.aggregate_daily_features daily (title row)
              match bom_url row with
              | Some s => UrlStr s
              | None => UrlNaN
              end)
      with (daily_features_of daily row).
    destruct (daily_features_of daily row) as [[f|]|e] eqn:Hf;
      cbn [mbind result_bind]; [| |discriminate].
    + destruct (bool_decide_reflect (f = ∅)) as [Hemp|Hne].
      * intros Hout idx d. rewrite (IH _ _ Hout idx d). split.
        -- intros [Hacc | (r & Hr & Hd & Hn)]; [now left|].
           right. exists r. split; [now right | now split].
        -- intros [Hacc | (r & [[= <- <-]|Hr] & Hd & Hn)]; [now left | |].
           ++ rewrite Hf in Hd. injection Hd as <-. contradiction.
           ++ right. exists r. now split.
      * intros Hout idx d. rewrite (IH _ _ Hout idx d), in_app_iff. split.
        -- intros [[Hacc | [[= <- <-]|[]]] | (r & Hr & Hd & Hn)].
           ++ now left.
           ++ right. exists row. split; [now left | now split].
           ++ right. exists r. split; [now right | now split].
        -- intros [Hacc | (r & [[= <- <-]|Hr] & Hd & Hn)].
           ++ left. now left.
           ++ rewrite Hf in Hd. injection Hd as <-. left. right. now left.
           ++ right. exists r. now split.
    + intros Hout idx d. rewrite (IH _ _ Hout idx d). split.
      * intros [Hacc | (r & Hr & Hd & Hn)]; [now left|].
        right. exists r. split; [now right | now split].
      * intros [Hacc | (r & [[= <- <-]|Hr] & Hd & Hn)]; [now left | |].
        -- rewrite Hf in Hd. discriminate.
        -- right. exists r. now split.
Qed.

Lemma enrich_loop_raise daily movies : forall acc e,
  enrich_loop daily movies acc = Raise e ->
  exists idx row, In (idx, row) movies
    /\ daily_features_of daily row = Raise e.
Proof.
  induction movies as [|[i row] more IH]; intros acc e; [discriminate|].
  cbn [enrich_loop].
  change (DailyFeatures.aggregate_daily_features daily (title row)
            match bom_url row with
            | Some s => UrlStr s
            | None => UrlNaN
            end)
    with (daily_features_of daily row).
  destruct (daily_features_of daily row) as [f|e'] eqn:Hf;
    cbn [mbind result_bind].
  - intros Hr. apply IH in Hr as (idx & r & Hin & Hraise).
    exists idx, r. split; [now right | assumption].
  - intros [= <-]. exists i, row. split; [now left | assumption].
Qed.

Lemma In_movies_with_bom df sample_size idx row :
  In (idx, row) (movies_with_bom df sample_size) ->
  df !! idx = Some row /\ bom_url row <> None.
Proof.
  intros Hin.
  assert (Hsel : In (idx, row)
                   (List.filter
                      (fun p : nat * Movie =>
                         bool_decide (is_Some (bom_url p.2)))
                      (zip (seq 0 (length df)) df))).
  { unfold movies_with_bom in Hin. destruct sample_size as [n|]; [|exact Hin].
    destruct (n =? 0); [exact Hin | now apply In_head_n in Hin]. }
  apply filter_In in Hsel as [Hzip Hurl].
  apply MergeFacts.zip_seq_lookup in Hzip as [_ Hlook].
  rewrite Nat.sub_0_r in Hlook. split; [exact Hlook|].
  apply bool_decide_eq_true in Hurl. cbn [snd] in Hurl.
  intros E. rewrite E in Hurl. now destruct Hurl.
Qed.

(** X27: on a dataset as [pd.read_csv] gives it, where every title is a
    text and a URL is missing or a text that is not empty, and for a
    range of days of the calendar that ends before its last day, the
    enrichment can fail in one way only: with the [ValueError] of the join, when a movie got features
    and the dataset already has a column of that feature's name, as it
    has after a first enrichment.  It then fails after the whole range
    has been scraped and the raw daily file written, and without an
    enriched file. *)
Theorem X27_enrichment_errors (web : Z -> http_outcome) (df : list Movie)
    (columns : list string) (input_file : pystr) (output_file : option pystr)
    (start_date end_date : Z) (sample_size : option Z)
    (tr : list step) (e : pyexn) :
  (forall row, In row df -> bom_url row <> Some []) ->
  1 <= start_date <= last_day ->
  1 <= end_date < last_day ->
  enrich_dataset_with_daily_data web df columns input_file output_file
    start_date end_date sample_size = (tr, Raise e) ->
  tr = Daily <$> (page_events (range_dates start_date end_date)
                  ++ [EvToCsv (U "data/processed/bom_daily_data.csv")
                        (range_data web start_date end_date)])
  /\ e = ValueError
  /\ exists c row f,
       In c columns /\ In row df
       /\ daily_features_of (range_data web start_date end_date) row
          = Return (Some f)
       /\ c ∈ dom f.
Proof.
  intros Hurls _ _.
  unfold enrich_dataset_with_daily_data.
  rewrite scrape_date_range_exact. fold (range_data web start_date end_date).
  destruct (omap (bom_scraped web) (range_dates start_date end_date))
    as [|p ps] eqn:Ep; [discriminate|].
  unfold range_data. rewrite Ep.
  destruct (concat (p :: ps)) as [|r daily] eqn:Ed; [discriminate|].
  cbv zeta.
  destruct (enrich_loop (r :: daily) (movies_with_bom df sample_size) [])
    as [[|[i0 f0] enriched]|e'] eqn:El; [discriminate| |].
  - destruct (existsb _ columns) eqn:Hov; [|discriminate].
    intros [= <- <-]. split; [reflexivity|]. split; [reflexivity|].
    apply existsb_exists in Hov as (c & Hc & Hin).
    apply bool_decide_eq_true in Hin. unfold feature_columns in Hin.
    apply elem_of_union_list in Hin as (X & HX & HcX).
    apply list_elem_of_fmap in HX as ([i f] & -> & Hif).
    apply list_elem_of_In in Hif.
    apply (enrich_loop_return _ _ _ _ El) in Hif
      as [[] | (row & Hrow & Hf & _)].
    apply In_movies_with_bom in Hrow as [Hlook _].
    exists c, row, f. repeat split; try assumption.
    apply list_elem_of_In. now apply list_elem_of_lookup_2 in Hlook.
  - intros [= <- <-]. exfalso.
    apply enrich_loop_raise in El as (idx & row & Hrow & Hraise).
    apply In_movies_with_bom in Hrow as [Hlook Hurl].
    unfold daily_features_of in Hraise.
    apply aggregate_daily_raises in Hraise as [Hcase _].
    apply (Hurls row).
    + apply list_elem_of_In. now apply list_elem_of_lookup_2 in Hlook.
    + destruct (bom_url row) as [u|]; [|contradiction].
      destruct Hcase as [|[= ->]]; [discriminate | reflexivity].
Qed.


End EnrichFacts.


Lemma X27_enrichment_errors_witness :
  sample_second_enrichment.1
  = Enrich.Daily
      <$> (page_events (range_dates day0 day0)
           ++ [EvToCsv (U "data/processed/bom_daily_data.csv")
                 (range_data steady_site day0 day0)])
  /\ ValueError = ValueError
  /\ exists c row f,
       In c ["title"; "bom_url"; "daily_days_tracked"]
       /\ In row [test_movie]
       /\ daily_features_of (range_data steady_site day0 day0) row
          = Return (Some f)
       /\ c ∈ dom f.
Proof.
  apply (X27_enrichment_errors steady_site [test_movie]
           ["title"; "bom_url"; "daily_days_tracked"]
           (U "movies.csv") None day0 day0 None sample_second_enrichment.1
           ValueError).
  - intros row [<-|[]]. vm_compute. discriminate.
  - apply (bool_decide_unpack _). vm_compute. reflexivity.
  - apply (bool_decide_unpack _). vm_compute. reflexivity.
  - vm_compute. reflexivity.
Defined.

